(** * forex--calculator: the economics engine and the trade ledger

    A shallow embedding of the calculation functions of
    [trade_tracker.py] (module-level functions, CSV ledger) and
    [trade_tracker_1.py] ([TradeCalculator], [TradeDB] and the parts of
    [TradeTrackerApp] that compute what is stored or shown), followed by
    the properties of the specification that concern them.

    Numbers.  Python's [float] is modelled by [pyfloat]: a rational, or
    one of [inf], [-inf], [nan].  Arithmetic on finite values is exact
    (binary64 rounding, overflow, underflow and the sign of zero are not
    modelled); the special values follow IEEE 754.  Python's [/] raises
    [ZeroDivisionError] on a zero divisor, which [py_truediv] writes out.
    What is proved of every float is proved of this model.

    Binary64.  Where the behaviour of the code turns on rounding,
    underflow or overflow (the division by [pip_val * lots] in
    [price_from_usd_target], and [calculate] of [trade_tracker.py] that
    calls it), the functions are embedded a second time, in module
    [Binary64], over IEEE 754 binary64 as [SpecFloat] specifies it:
    precision 53, maximal exponent 1024, rounding to nearest even.

    State.  The SQLite table, the connection's change counter and the
    cache dict are one record passed from call to call; calls run one
    after the other (the background threads of the GUI are not
    modelled).  Widgets, message boxes, charts and the CSV file are
    left out. *)

From Stdlib Require Import QArith Qfield Lia List ZArith Bool.
From Stdlib Require SpecFloat.
From stdpp Require Import gmap strings pretty.

(** ** Python values, exceptions and floats *)

Module Py.

Inductive exn : Type :=
| ZeroDivisionError
| TypeError
| ValueError
| KeyError
| ProgrammingError
| OperationalError.

(** A call either returns a value or raises. *)
Inductive result (A : Type) : Type :=
| Ok (a : A)
| Raise (e : exn).

Arguments Ok {A} a.
Arguments Raise {A} e.

Definition bind {A B : Type} (c : result A) (k : A -> result B) : result B :=
  match c with
  | Ok a => k a
  | Raise e => Raise e
  end.

Inductive pyfloat : Type :=
| Fin (q : Q)
| PInf
| NInf
| NaN.

(** What a function of [trade_tracker.py] can be handed where it calls
    [float(...)] on its argument: a float, or [None], on which [float]
    raises [TypeError]. *)
Inductive pyval : Type :=
| PyFloat (x : pyfloat)
| PyNone.

Definition py_float (v : pyval) : result pyfloat :=
  match v with
  | PyFloat x => Ok x
  | PyNone => Raise TypeError
  end.

Definition inf_of_sign (s : Z) : pyfloat :=
  match s with
  | Zpos _ => PInf
  | Zneg _ => NInf
  | Z0 => NaN
  end.

Definition fsign (x : pyfloat) : Z :=
  match x with
  | Fin q => Z.sgn (Qnum q)
  | PInf => 1
  | NInf => (-1)
  | NaN => 0
  end.

Definition fneg (x : pyfloat) : pyfloat :=
  match x with
  | Fin q => Fin (- q)
  | PInf => NInf
  | NInf => PInf
  | NaN => NaN
  end.

Definition fadd (x y : pyfloat) : pyfloat :=
  match x, y with
  | NaN, _ | _, NaN => NaN
  | Fin a, Fin b => Fin (a + b)
  | PInf, NInf | NInf, PInf => NaN
  | PInf, _ | _, PInf => PInf
  | NInf, _ | _, NInf => NInf
  end.

Definition fsub (x y : pyfloat) : pyfloat := fadd x (fneg y).

Definition fmul (x y : pyfloat) : pyfloat :=
  match x, y with
  | NaN, _ | _, NaN => NaN
  | Fin a, Fin b => Fin (a * b)
  | _, _ => inf_of_sign (fsign x * fsign y)
  end.

(** [x == 0]: true of a finite zero only. *)
Definition is_zero (x : pyfloat) : bool :=
  match x with
  | Fin q => (Qnum q =? 0)%Z
  | _ => false
  end.

(** The quotient for a divisor that is not zero; a zero divisor never
    reaches it ([py_truediv] raises first) and is given [nan]. *)
Definition fdiv (x y : pyfloat) : pyfloat :=
  match x, y with
  | NaN, _ | _, NaN => NaN
  | Fin a, Fin b => if (Qnum b =? 0)%Z then NaN else Fin (a / b)
  | Fin _, _ => Fin 0
  | _, Fin _ => inf_of_sign (fsign x * fsign y)
  | _, _ => NaN
  end.

(** Python's [x / y] on floats. *)
Definition py_truediv (x y : pyfloat) : result pyfloat :=
  if is_zero y then Raise ZeroDivisionError else Ok (fdiv x y).

(** Python's [x == y] on floats: [nan] equals nothing. *)
Definition py_eqb (x y : pyfloat) : bool :=
  match x, y with
  | Fin a, Fin b => Qeq_bool a b
  | PInf, PInf | NInf, NInf => true
  | _, _ => false
  end.

(** Python's [x < y] on floats. *)
Definition py_ltb (x y : pyfloat) : bool :=
  match x, y with
  | NaN, _ | _, NaN => false
  | Fin a, Fin b => negb (Qle_bool b a)
  | NInf, NInf | PInf, _ | _, NInf => false
  | NInf, _ | _, PInf => true
  end.

Definition py_gtb (x y : pyfloat) : bool := py_ltb y x.

(** Truth value of a float in [if x] and [x or d]: false for zero only,
    so [nan] is true. *)
Definition truthy (x : pyfloat) : bool := negb (is_zero x).

(** Same number: rationals up to [==], special values up to identity.
    Unlike [py_eqb] this relates [nan] to itself. *)
Definition feq (x y : pyfloat) : Prop :=
  match x, y with
  | Fin a, Fin b => a == b
  | PInf, PInf | NInf, NInf | NaN, NaN => True
  | _, _ => False
  end.

Definition is_finite (x : pyfloat) : bool :=
  match x with
  | Fin _ => true
  | _ => false
  end.

End Py.

Import Py.

Declare Scope py_scope.
Delimit Scope py_scope with py.
Notation "x <- c ;; k" := (bind c (fun x => k))
  (at level 100, c at next level, right associativity) : py_scope.
Local Open Scope py_scope.

(** ** trade_tracker.py *)

Module trade_tracker.

(** [calc_pips]: the three [float(...)] conversions are inside the
    [try]; the division is after it. *)
Definition calc_pips (entry price pip_size : pyval) (direction : string)
  : result (option pyfloat) :=
  match (e <- py_float entry ;;
         p <- py_float price ;;
         s <- py_float pip_size ;;
         Ok (e, p, s)) with
  | Raise _ => Ok None
  | Ok (e, p, s) =>
      if String.eqb direction "Long"
      then (r <- py_truediv (fsub p e) s ;; Ok (Some r))
      else (r <- py_truediv (fsub e p) s ;; Ok (Some r))
  end.

(** [pip_value_usd]: the conversions of [pip_size] and [contract_size]
    are outside the [try], the one of the rate and the division inside. *)
Definition pip_value_usd (pip_size contract_size : pyval) (quote_usd : bool)
    (quote_to_usd_rate : pyval) : result pyfloat :=
  p <- py_float pip_size ;;
  c <- py_float contract_size ;;
  let base := fmul p c in
  if quote_usd then Ok base
  else
    match (qr <- py_float quote_to_usd_rate ;;
           if is_zero qr then Ok base else py_truediv base qr) with
    | Ok v => Ok v
    | Raise _ => Ok base
    end.

Definition usd_from_pips (pips pip_value_per_lot lots : pyfloat) : pyfloat :=
  fmul (fmul pips pip_value_per_lot) lots.

Definition price_from_usd_target (entry : pyfloat) (direction : string)
    (usd_target pip_size contract_size : pyfloat) (quote_usd : bool)
    (quote_rate lots : pyfloat) : result (option pyfloat) :=
  pip_val <- pip_value_usd (PyFloat pip_size) (PyFloat contract_size)
                           quote_usd (PyFloat quote_rate) ;;
  if is_zero pip_val || is_zero lots then Ok None
  else
    pips_needed <- py_truediv usd_target (fmul pip_val lots) ;;
    let price_diff := fmul pips_needed pip_size in
    Ok (Some (if String.eqb direction "Long"
              then fadd entry price_diff
              else fsub entry price_diff)).

(** The six derived fields of a saved trade. *)
Record derived : Type := {
  pips_to_sl : option pyfloat;
  usd_to_sl : option pyfloat;
  pips_to_tp : option pyfloat;
  usd_to_tp : option pyfloat;
  realized_pips : option pyfloat;
  realized_usd : option pyfloat
}.

(** [calc_pips(entry, price, ...) if price is not None else None] *)
Definition pips_if_given (entry : pyfloat) (price : option pyfloat)
    (pip_size : pyfloat) (direction : string) : result (option pyfloat) :=
  match price with
  | Some p => calc_pips (PyFloat entry) (PyFloat p) (PyFloat pip_size) direction
  | None => Ok None
  end.

(** [usd_from_pips(pips, ...) if pips is not None else None] *)
Definition usd_if_given (pips : option pyfloat) (pip_val lots : pyfloat)
  : option pyfloat :=
  match pips with
  | Some p => Some (usd_from_pips p pip_val lots)
  | None => None
  end.

(** [save_trade], the six assignments that compute the derived fields
    from the parsed inputs ([stop], [tp] and [exit_price] are [None]
    when the entry box is empty or unreadable). *)
Definition save_trade_derived (entry : pyfloat)
    (stop tp exit_price : option pyfloat) (lots pip_size pip_val : pyfloat)
    (direction : string) : result derived :=
  sl <- pips_if_given entry stop pip_size direction ;;
  tpp <- pips_if_given entry tp pip_size direction ;;
  rp <- pips_if_given entry exit_price pip_size direction ;;
  Ok {| pips_to_sl := sl;
        usd_to_sl := usd_if_given sl pip_val lots;
        pips_to_tp := tpp;
        usd_to_tp := usd_if_given tpp pip_val lots;
        realized_pips := rp;
        realized_usd := usd_if_given rp pip_val lots |}.

End trade_tracker.

(** ** trade_tracker_1.py *)

Module trade_tracker_1.

(** *** TradeCalculator: the arguments are floats, nothing is converted *)

Module TradeCalculator.

Definition calc_pips (entry price pip_size : pyfloat) (direction : string)
  : result pyfloat :=
  if String.eqb direction "Long"
  then py_truediv (fsub price entry) pip_size
  else py_truediv (fsub entry price) pip_size.

Definition pip_value_usd (pip_size contract_size : pyfloat) (quote_usd : bool)
    (quote_to_usd_rate : pyfloat) : result pyfloat :=
  let base := fmul pip_size contract_size in
  if quote_usd then Ok base else py_truediv base quote_to_usd_rate.

Definition usd_from_pips (pips pip_value_per_lot lots : pyfloat) : pyfloat :=
  fmul (fmul pips pip_value_per_lot) lots.

Definition price_from_usd_target (entry : pyfloat) (direction : string)
    (usd_target pip_size contract_size : pyfloat) (quote_usd : bool)
    (quote_rate lots : pyfloat) : result (option pyfloat) :=
  pip_val <- pip_value_usd pip_size contract_size quote_usd quote_rate ;;
  if is_zero pip_val || is_zero lots then Ok None
  else
    pips_needed <- py_truediv usd_target (fmul pip_val lots) ;;
    let price_diff := fmul pips_needed pip_size in
    Ok (Some (if String.eqb direction "Long"
              then fadd entry price_diff
              else fsub entry price_diff)).

End TradeCalculator.

(** *** TradeDB: the [trades] table behind a read cache *)

Module TradeDB.

(** A value stored in a column. *)
Inductive sqlval : Type :=
| SqlNull
| SqlInt (z : Z)
| SqlReal (x : pyfloat)
| SqlText (s : string).

(** A Python object handed to [execute] as a parameter. *)
Inductive param : Type :=
| PNone
| PFloat (x : pyfloat)
| PInt (z : Z)
| PStr (s : string).

(** How [sqlite3] binds a parameter: [None] and a [nan] float become
    NULL. *)
Definition bind_param (v : param) : sqlval :=
  match v with
  | PNone => SqlNull
  | PFloat NaN => SqlNull
  | PFloat x => SqlReal x
  | PInt z => SqlInt z
  | PStr s => SqlText s
  end.

(** The eighteen columns after [id], in the order of [CREATE TABLE]. *)
Definition columns : list string :=
  [ "timestamp"; "instrument"; "direction"; "entry"; "stop"; "target";
    "exit"; "lots"; "contract_size"; "pip_size"; "quote_to_usd";
    "pips_to_sl"; "usd_to_sl"; "pips_to_tp"; "usd_to_tp";
    "realized_pips"; "realized_usd"; "notes" ].

Record row : Type := {
  row_id : Z;
  row_vals : list sqlval
}.

Record cache_entry : Type := {
  timestamp : Z;
  data : list row
}.

(** The store: the table, the AUTOINCREMENT counter kept by SQLite, the
    connection's [total_changes] counter and the [_cache] dict. *)
Record t : Type := {
  trades : list row;
  sqlite_sequence : Z;
  total_changes : Z;
  _cache : gmap string cache_entry
}.

(** [__init__] on a database file that holds [table]: a new connection
    has changed nothing yet and the cache is empty. *)
Definition new_connection (table : list row) (seq : Z) : t :=
  {| trades := table; sqlite_sequence := seq; total_changes := 0%Z; _cache := ∅ |}.

(** [timedelta(minutes=5)], in microseconds like the clock. *)
Definition _cache_expiry : Z := 300000000.

Definition _clear_cache (db : t) : t :=
  {| trades := trades db;
     sqlite_sequence := sqlite_sequence db;
     total_changes := total_changes db;
     _cache := ∅ |}.

Definition max_rowid (rs : list row) : Z :=
  fold_right (fun r m => Z.max (row_id r) m) 0%Z rs.

(** [add_trade]: one INSERT with NULL for [id] and the dict's values in
    order, then [_clear_cache].  A dict that does not have eighteen
    values makes [execute] raise and the transaction roll back. *)
Definition add_trade (trade_data : list (string * param)) (db : t)
  : result Z * t :=
  let vals := map (fun kv => bind_param (snd kv)) trade_data in
  if (length vals =? 18)%nat then
    let trade_id := (Z.max (sqlite_sequence db) (max_rowid (trades db)) + 1)%Z in
    (Ok trade_id,
     _clear_cache
       {| trades := trades db ++ [ {| row_id := trade_id; row_vals := vals |} ];
          sqlite_sequence := trade_id;
          total_changes := (total_changes db + 1)%Z;
          _cache := _cache db |})
  else (Raise ProgrammingError, db).

(** The rows that [DELETE FROM trades WHERE id = ?] leaves. *)
Definition other_id (trade_id : Z) (r : row) : bool :=
  negb (row_id r =? trade_id)%Z.

(** [delete_trade]: one DELETE, then [_clear_cache]; the value returned
    is [self.conn.total_changes > 0], the connection's running count of
    rows inserted, updated or deleted since it was opened. *)
Definition delete_trade (trade_id : Z) (db : t) : bool * t :=
  let kept := List.filter (other_id trade_id) (trades db) in
  let removed := (length (trades db) - length kept)%nat in
  let db' :=
    _clear_cache
      {| trades := kept;
         sqlite_sequence := sqlite_sequence db;
         total_changes := (total_changes db + Z.of_nat removed)%Z;
         _cache := _cache db |} in
  ((0 <? total_changes db')%Z, db').

(** **** The SELECT of [get_trades]

    A filter key is taken as a column when it is one of the nineteen
    names as written in [CREATE TABLE]; values are compared and ordered
    as stored, without the conversions of column affinity. *)

Fixpoint index_of (k : string) (l : list string) : option nat :=
  match l with
  | [] => None
  | c :: l' => if String.eqb k c then Some 0%nat
               else option_map S (index_of k l')
  end.

Definition is_column (k : string) : bool :=
  String.eqb k "id" || match index_of k columns with Some _ => true | None => false end.

Definition col_value (r : row) (k : string) : sqlval :=
  if String.eqb k "id" then SqlInt (row_id r)
  else match index_of k columns with
       | Some i => nth i (row_vals r) SqlNull
       | None => SqlNull
       end.

Definition real_of (v : sqlval) : option pyfloat :=
  match v with
  | SqlInt z => Some (Fin (inject_Z z))
  | SqlReal x => Some x
  | _ => None
  end.

(** SQL [a = b] taken as a condition: NULL equals nothing, numbers
    compare by value, text byte for byte, text never equals a number. *)
Definition sql_eqb (a b : sqlval) : bool :=
  match a, b with
  | SqlText s1, SqlText s2 => String.eqb s1 s2
  | _, _ => match real_of a, real_of b with
            | Some x, Some y => py_eqb x y
            | _, _ => false
            end
  end.

(** SQL's sort order: NULL, then numbers by value, then text. *)
Definition sql_ltb (a b : sqlval) : bool :=
  match a, b with
  | SqlNull, SqlNull => false
  | SqlNull, _ => true
  | _, SqlNull => false
  | SqlText s1, SqlText s2 => String.ltb s1 s2
  | SqlText _, _ => false
  | _, SqlText _ => true
  | _, _ => match real_of a, real_of b with
            | Some x, Some y => py_ltb x y
            | _, _ => false
            end
  end.

(** The conditions [k = ?] built from the filters whose value is not
    [None], with the bound parameters. *)
Definition conditions (filters : option (list (string * param)))
  : list (string * sqlval) :=
  match filters with
  | None => []
  | Some fs =>
      map (fun kv => (fst kv, bind_param (snd kv)))
          (List.filter (fun kv => match snd kv with PNone => false | _ => true end) fs)
  end.

Definition matches (conds : list (string * sqlval)) (r : row) : bool :=
  forallb (fun kv => sql_eqb (col_value r (fst kv)) (snd kv)) conds.

(** ORDER BY timestamp DESC, rows with equal timestamps kept in table
    order. *)
Fixpoint insert_desc (r : row) (sorted : list row) : list row :=
  match sorted with
  | [] => [r]
  | x :: rest =>
      if sql_ltb (col_value r "timestamp") (col_value x "timestamp")
      then x :: insert_desc r rest
      else r :: sorted
  end.

Definition order_by_timestamp_desc (rs : list row) : list row :=
  fold_right insert_desc [] rs.

(** LIMIT n: a negative n is no limit. *)
Definition sql_limit (n : Z) (rs : list row) : list row :=
  if (n <? 0)%Z then rs else firstn (Z.to_nat n) rs.

Definition select_trades (limit : Z) (filters : option (list (string * param)))
    (table : list row) : result (list row) :=
  let conds := conditions filters in
  if forallb (fun kv => is_column (fst kv)) conds then
    Ok (sql_limit limit
          (order_by_timestamp_desc (List.filter (matches conds) table)))
  else Raise OperationalError.

Section Cache.

(** [str(filters)] as the f-string of the cache key formats it. *)
Variable str_filters : option (list (string * param)) -> string.

Definition cache_key (limit : Z) (filters : option (list (string * param)))
  : string :=
  "trades_" +:+ pretty limit +:+ "_" +:+ str_filters filters.

(** [get_trades]: [now_check] and [now_store] are the two readings of
    [datetime.now()].  A query that raises leaves the store as it was. *)
Definition get_trades (now_check now_store : Z) (limit : Z)
    (filters : option (list (string * param))) (db : t)
  : result (list row) * t :=
  let key := cache_key limit filters in
  let fetch :=
    match select_trades limit filters (trades db) with
    | Raise e => (Raise e, db)
    | Ok results =>
        (Ok results,
         {| trades := trades db;
            sqlite_sequence := sqlite_sequence db;
            total_changes := total_changes db;
            _cache := <[ key := {| timestamp := now_store; data := results |} ]>
                        (_cache db) |})
    end in
  match _cache db !! key with
  | Some e =>
      if (now_check - timestamp e <? _cache_expiry)%Z
      then (Ok (data e), db)
      else fetch
  | None => fetch
  end.

(** A call on the store, and the store after a sequence of calls. *)
Inductive call : Type :=
| AddTrade (trade_data : list (string * param))
| DeleteTrade (trade_id : Z)
| GetTrades (now_check now_store limit : Z) (filters : option (list (string * param))).

Definition after_call (db : t) (c : call) : t :=
  match c with
  | AddTrade trade_data => snd (add_trade trade_data db)
  | DeleteTrade trade_id => snd (delete_trade trade_id db)
  | GetTrades now_check now_store limit filters =>
      snd (get_trades now_check now_store limit filters db)
  end.

Definition after_calls (db : t) (calls : list call) : t :=
  fold_left after_call calls db.

(** Every cached entry is the answer the table now gives to a query
    with that key. *)
Definition cache_current (db : t) : Prop :=
  forall key e,
    _cache db !! key = Some e ->
    exists limit filters,
      key = cache_key limit filters
      /\ select_trades limit filters (trades db) = Ok (data e).

End Cache.

(** No id in the table is above the AUTOINCREMENT counter: what SQLite
    keeps true of a table whose ids it has allocated itself. *)
Definition ids_bounded (db : t) : Prop :=
  forall r, In r (trades db) -> (row_id r <= sqlite_sequence db)%Z.

(** No two rows of the table have the same id (PRIMARY KEY). *)
Definition ids_distinct (db : t) : Prop :=
  List.NoDup (map row_id (trades db)).

End TradeDB.

(** *** The instrument table *)

Record instrument : Type := {
  pip : pyfloat;
  contract : pyfloat;
  quote_usd : bool;
  desc : string
}.

Definition INSTRUMENTS : list (string * instrument) :=
  [ ("XAUUSD", {| pip := Fin (1 # 100); contract := Fin 100;
                  quote_usd := true; desc := "Gold (pip=0.01)" |});
    ("BTCUSD", {| pip := Fin 1; contract := Fin 1;
                  quote_usd := true; desc := "Bitcoin (pip=1)" |});
    ("US30", {| pip := Fin 1; contract := Fin 1;
                quote_usd := true; desc := "US30 index (point=1)" |});
    ("NASDAQ100", {| pip := Fin 1; contract := Fin 1;
                     quote_usd := true; desc := "NASDAQ100 (point=1)" |});
    ("USDJPY", {| pip := Fin (1 # 100); contract := Fin 100000;
                  quote_usd := false; desc := "USD/JPY (pip=0.01, quote JPY)" |});
    ("GBPJPY", {| pip := Fin (1 # 100); contract := Fin 100000;
                  quote_usd := false; desc := "GBP/JPY (pip=0.01, quote JPY)" |});
    ("AUDUSD", {| pip := Fin (1 # 10000); contract := Fin 100000;
                  quote_usd := true; desc := "AUD/USD (pip=0.0001)" |}) ].

(** [INSTRUMENTS[inst]] *)
Fixpoint getitem (table : list (string * instrument)) (inst : string)
  : result instrument :=
  match table with
  | [] => Raise KeyError
  | (k, info) :: rest => if String.eqb inst k then Ok info else getitem rest inst
  end.

(** *** TradeTrackerApp: what is saved and what the dashboard shows *)

Module TradeTrackerApp.

Import TradeDB.

(** The text of an entry box as [_validate_float] sees it: empty, a
    string that [float] reads as [x], or any other string. *)
Inductive entry_text : Type :=
| Blank
| Numeral (x : pyfloat)
| Unreadable.

Definition _validate_float (value : entry_text) (required : bool)
    (default : option pyfloat) : result (option pyfloat) :=
  match value with
  | Blank => if required then Raise ValueError else Ok default
  | Numeral x => Ok (Some x)
  | Unreadable => Raise ValueError
  end.

(** Using an optional value as a number: arithmetic on [None] raises. *)
Definition as_float (o : option pyfloat) : result pyfloat :=
  match o with
  | Some x => Ok x
  | None => Raise TypeError
  end.

Record derived : Type := {
  pips_sl : option pyfloat;
  usd_sl : option pyfloat;
  pips_tp : option pyfloat;
  usd_tp : option pyfloat;
  realized_pips : option pyfloat;
  realized_usd : option pyfloat
}.

(** [calc_pips(entry, price, ...) if price else None]: the test is the
    truth value of [price]. *)
Definition pips_if (entry : pyfloat) (price : option pyfloat)
    (pip_size : pyfloat) (direction : string) : result (option pyfloat) :=
  match price with
  | Some p =>
      if truthy p
      then (r <- TradeCalculator.calc_pips entry p pip_size direction ;; Ok (Some r))
      else Ok None
  | None => Ok None
  end.

(** [usd_from_pips(pips, ...) if pips else None] *)
Definition usd_if (pips : option pyfloat) (pip_value lots : pyfloat)
  : option pyfloat :=
  match pips with
  | Some p =>
      if truthy p
      then Some (TradeCalculator.usd_from_pips p pip_value lots)
      else None
  | None => None
  end.

Definition save_trade_derived (entry : pyfloat)
    (stop tp exit_price : option pyfloat) (lots pip_size pip_value : pyfloat)
    (direction : string) : result derived :=
  sl <- pips_if entry stop pip_size direction ;;
  tpp <- pips_if entry tp pip_size direction ;;
  rp <- pips_if entry exit_price pip_size direction ;;
  Ok {| pips_sl := sl;
        usd_sl := usd_if sl pip_value lots;
        pips_tp := tpp;
        usd_tp := usd_if tpp pip_value lots;
        realized_pips := rp;
        realized_usd := usd_if rp pip_value lots |}.

Definition param_of (o : option pyfloat) : param :=
  match o with
  | Some x => PFloat x
  | None => PNone
  end.

(** The widgets read by [save_trade]. *)
Record inputs : Type := {
  instrument_var : string;
  direction_var : string;
  entry_var : entry_text;
  stop_var : entry_text;
  tp_var : entry_text;
  exit_var : entry_text;
  lots_var : entry_text;
  contract_var : entry_text;
  quote_rate_var : entry_text;
  notes_var : string
}.

(** The body of the [try] of [save_trade] up to and including
    [add_trade]; [now] is [datetime.now().isoformat()]. *)
Definition save_trade_body (now : string) (ui : inputs) (db : t)
  : result Z * t :=
  match
    (info <- getitem INSTRUMENTS (instrument_var ui) ;;
     entry <- _validate_float (entry_var ui) true None ;;
     stop <- _validate_float (stop_var ui) false None ;;
     tp <- _validate_float (tp_var ui) false None ;;
     exit_price <- _validate_float (exit_var ui) false None ;;
     lots <- _validate_float (lots_var ui) true None ;;
     contract_size <- _validate_float (contract_var ui) true (Some (contract info)) ;;
     quote_rate <- _validate_float (quote_rate_var ui) (negb (quote_usd info))
                                   (Some (Fin 1)) ;;
     let direction := direction_var ui in
     let pip_size := pip info in
     entry' <- as_float entry ;;
     lots' <- as_float lots ;;
     contract_size' <- as_float contract_size ;;
     quote_rate' <- as_float quote_rate ;;
     pip_value <- TradeCalculator.pip_value_usd pip_size contract_size'
                    (quote_usd info) quote_rate' ;;
     d <- save_trade_derived entry' stop tp exit_price lots' pip_size pip_value
                             direction ;;
     Ok [ ("timestamp", PStr now);
          ("instrument", PStr (instrument_var ui));
          ("direction", PStr direction);
          ("entry", param_of entry);
          ("stop", param_of stop);
          ("target", param_of tp);
          ("exit", param_of exit_price);
          ("lots", param_of lots);
          ("contract_size", param_of contract_size);
          ("pip_size", PFloat pip_size);
          ("quote_to_usd", param_of quote_rate);
          ("pips_to_sl", param_of (pips_sl d));
          ("usd_to_sl", param_of (usd_sl d));
          ("pips_to_tp", param_of (pips_tp d));
          ("usd_to_tp", param_of (usd_tp d));
          ("realized_pips", param_of (realized_pips d));
          ("realized_usd", param_of (realized_usd d));
          ("notes", PStr (notes_var ui)) ])
  with
  | Ok trade_data => add_trade trade_data db
  | Raise e => (Raise e, db)
  end.

(** [save_trade]: [Ok (Some id)] when the trade was stored,
    [Ok None] when a [ValueError] was caught and reported, [Raise] for
    any other exception, which the handler lets through.  The message
    box, the reload of the table and the clearing of the entry boxes
    that follow [add_trade] are left out. *)
Definition save_trade (now : string) (ui : inputs) (db : t)
  : result (option Z) * t :=
  match save_trade_body now ui db with
  | (Ok trade_id, db') => (Ok (Some trade_id), db')
  | (Raise ValueError, db') => (Ok None, db')
  | (Raise e, db') => (Raise e, db')
  end.

(** **** update_dashboard *)

Record metrics : Type := {
  total_profit : pyfloat;
  win_rate : pyfloat;
  avg_win : pyfloat;
  avg_loss : pyfloat
}.

(** One cell of [df['realized_usd']] after
    [pd.to_numeric(..., errors='coerce').fillna(0)]: NULL, [nan] and
    text become 0. *)
Definition realized_usd_cell (r : row) : pyfloat :=
  match col_value r "realized_usd" with
  | SqlReal NaN => Fin 0
  | SqlReal x => x
  | SqlInt z => Fin (inject_Z z)
  | SqlNull | SqlText _ => Fin 0
  end.

(** [Series.sum()] *)
Definition series_sum (xs : list pyfloat) : pyfloat :=
  fold_left fadd xs (Fin 0).

Definition of_nat (n : nat) : pyfloat := Fin (inject_Z (Z.of_nat n)).

(** [Series.mean()]: [nan] for an empty series. *)
Definition series_mean (xs : list pyfloat) : pyfloat :=
  match xs with
  | [] => NaN
  | _ => fdiv (series_sum xs) (of_nat (length xs))
  end.

(** [x or 0] *)
Definition or_zero (x : pyfloat) : pyfloat :=
  if truthy x then x else Fin 0.

(** [update_dashboard]: the four values the cards are set from ([None]
    when the function returns before touching them).  The loss card
    shows [abs(avg_loss)]. *)
Definition update_dashboard (trades : list row) : option metrics :=
  match trades with
  | [] => None
  | _ =>
      let col := map realized_usd_cell trades in
      let wins := List.filter (fun x => py_gtb x (Fin 0)) col in
      let losses := List.filter (fun x => py_ltb x (Fin 0)) col in
      let winning_trades := length wins in
      let total_trades := length col in
      Some {| total_profit := series_sum col;
              win_rate := if (0 <? total_trades)%nat
                          then fdiv (of_nat winning_trades) (of_nat total_trades)
                          else Fin 0;
              avg_win := or_zero (series_mean wins);
              avg_loss := or_zero (series_mean losses) |}
  end.

(** **** calculate *)

(** [calc_pips] and [usd_from_pips] for a price that [is not None]. *)
Definition shown_if (entry : pyfloat) (price : option pyfloat)
    (pip_size pip_value lots : pyfloat) (direction : string)
  : result (option pyfloat * option pyfloat) :=
  match price with
  | Some p =>
      pips <- TradeCalculator.calc_pips entry p pip_size direction ;;
      Ok (Some pips, Some (TradeCalculator.usd_from_pips pips pip_value lots))
  | None => Ok (None, None)
  end.

(** The numbers [calculate] puts into the result lines for stop, take
    profit and exit (each pair is there when its price was entered). *)
Definition calculate_shown (entry : pyfloat)
    (stop tp exit_price : option pyfloat) (lots pip_size pip_value : pyfloat)
    (direction : string) : result derived :=
  sl <- shown_if entry stop pip_size pip_value lots direction ;;
  tpp <- shown_if entry tp pip_size pip_value lots direction ;;
  rp <- shown_if entry exit_price pip_size pip_value lots direction ;;
  Ok {| pips_sl := fst sl; usd_sl := snd sl;
        pips_tp := fst tpp; usd_tp := snd tpp;
        realized_pips := fst rp; realized_usd := snd rp |}.

(** The body of the [try] of [calculate]: the pip value and the numbers
    shown. *)
Definition calculate_body (ui : inputs) : result (pyfloat * derived) :=
  info <- getitem INSTRUMENTS (instrument_var ui) ;;
  entry <- _validate_float (entry_var ui) true None ;;
  stop <- _validate_float (stop_var ui) false None ;;
  tp <- _validate_float (tp_var ui) false None ;;
  exit_price <- _validate_float (exit_var ui) false None ;;
  lots <- _validate_float (lots_var ui) true None ;;
  contract_size <- _validate_float (contract_var ui) true (Some (contract info)) ;;
  quote_rate <- _validate_float (quote_rate_var ui) (negb (quote_usd info))
                                (Some (Fin 1)) ;;
  let direction := direction_var ui in
  let pip_size := pip info in
  entry' <- as_float entry ;;
  lots' <- as_float lots ;;
  contract_size' <- as_float contract_size ;;
  quote_rate' <- as_float quote_rate ;;
  pip_value <- TradeCalculator.pip_value_usd pip_size contract_size'
                 (quote_usd info) quote_rate' ;;
  d <- calculate_shown entry' stop tp exit_price lots' pip_size pip_value direction ;;
  Ok (pip_value, d).

(** [calculate]: [Ok None] when a [ValueError] was caught and
    reported. *)
Definition calculate (ui : inputs) : result (option (pyfloat * derived)) :=
  match calculate_body ui with
  | Ok shown => Ok (Some shown)
  | Raise ValueError => Ok None
  | Raise e => Raise e
  end.

(** **** The window *)

(** [abs(x)] *)
Definition fabs (x : pyfloat) : pyfloat :=
  match x with
  | Fin q => if Qle_bool 0 q then Fin q else Fin (- q)
  | PInf | NInf => PInf
  | NaN => NaN
  end.

(** The application between two events: the entry boxes, whether the
    quote-rate box is enabled, the numbers behind the four dashboard
    labels (the loss label holds the absolute value), the rows listed in
    the table, and the store. *)
Record window : Type := {
  ui : inputs;
  quote_entry_normal : bool;
  cards : metrics;
  tree : list row;
  store : t
}.

(** The labels as [create_dashboard] makes them. *)
Definition initial_cards : metrics :=
  {| total_profit := Fin 0; win_rate := Fin 0; avg_win := Fin 0; avg_loss := Fin 0 |}.

(** [on_instrument_change]: the contract box is filled only when it is
    empty; the quote-rate box is emptied and disabled for a USD quote,
    enabled and, when empty, filled with 150, 190 or 1 otherwise. *)
Definition on_instrument_change (w : window) : window :=
  match getitem INSTRUMENTS (instrument_var (ui w)) with
  | Raise _ => w
  | Ok info =>
      let inst := instrument_var (ui w) in
      let contract' := match contract_var (ui w) with
                       | Blank => Numeral (contract info)
                       | filled => filled
                       end in
      let rate' :=
        if quote_usd info then Blank
        else match quote_rate_var (ui w) with
             | Blank => Numeral (if String.eqb inst "USDJPY" then Fin 150
                                 else if String.eqb inst "GBPJPY" then Fin 190
                                 else Fin 1)
             | filled => filled
             end in
      {| ui := {| instrument_var := inst;
                  direction_var := direction_var (ui w);
                  entry_var := entry_var (ui w);
                  stop_var := stop_var (ui w);
                  tp_var := tp_var (ui w);
                  exit_var := exit_var (ui w);
                  lots_var := lots_var (ui w);
                  contract_var := contract';
                  quote_rate_var := rate';
                  notes_var := notes_var (ui w) |};
         quote_entry_normal := negb (quote_usd info);
         cards := cards w;
         tree := tree w;
         store := store w |}
  end.

(** Choosing an instrument in the combobox. *)
Definition select_instrument (inst : string) (w : window) : window :=
  on_instrument_change
    {| ui := {| instrument_var := inst;
                direction_var := direction_var (ui w);
                entry_var := entry_var (ui w);
                stop_var := stop_var (ui w);
                tp_var := tp_var (ui w);
                exit_var := exit_var (ui w);
                lots_var := lots_var (ui w);
                contract_var := contract_var (ui w);
                quote_rate_var := quote_rate_var (ui w);
                notes_var := notes_var (ui w) |};
       quote_entry_normal := quote_entry_normal w;
       cards := cards w;
       tree := tree w;
       store := store w |}.

(** [clear_inputs] *)
Definition clear_inputs (w : window) : window :=
  {| ui := {| instrument_var := instrument_var (ui w);
              direction_var := direction_var (ui w);
              entry_var := Blank;
              stop_var := Blank;
              tp_var := Blank;
              exit_var := Blank;
              lots_var := Numeral (Fin 1);
              contract_var := Blank;
              quote_rate_var := Blank;
              notes_var := "" |};
     quote_entry_normal := quote_entry_normal w;
     cards := cards w;
     tree := tree w;
     store := store w |}.

(** The body of [load_trades_async], run to its end at the call:
    [get_trades(limit=200)], then the table and the dashboard.  An
    empty answer leaves the dashboard as it is. *)
Definition load_trades (str_filters : option (list (string * param)) -> string)
    (now_check now_store : Z) (w : window) : window :=
  match get_trades str_filters now_check now_store 200 None (store w) with
  | (Ok trades, store') =>
      {| ui := ui w;
         quote_entry_normal := quote_entry_normal w;
         cards := match update_dashboard trades with
                  | Some m => {| total_profit := total_profit m;
                                 win_rate := win_rate m;
                                 avg_win := avg_win m;
                                 avg_loss := fabs (avg_loss m) |}
                  | None => cards w
                  end;
         tree := trades;
         store := store' |}
  | (Raise _, store') =>
      {| ui := ui w; quote_entry_normal := quote_entry_normal w;
         cards := cards w; tree := tree w; store := store' |}
  end.

(** The "Save Trade" button: [save_trade], and after a stored trade the
    reload and [clear_inputs]. *)
Definition press_save (str_filters : option (list (string * param)) -> string)
    (now : string) (now_check now_store : Z) (w : window) : result window :=
  match save_trade now (ui w) (store w) with
  | (Ok (Some _), store') =>
      Ok (clear_inputs
            (load_trades str_filters now_check now_store
               {| ui := ui w; quote_entry_normal := quote_entry_normal w;
                  cards := cards w; tree := tree w; store := store' |}))
  | (Ok None, _) => Ok w
  | (Raise e, _) => Raise e
  end.

(** [delete_selected]: nothing without a selection or without the
    user's confirmation; otherwise one [delete_trade] for each selected
    id, then the reload. *)
Definition delete_selected (str_filters : option (list (string * param)) -> string)
    (selected : list Z) (confirm : bool) (now_check now_store : Z) (w : window)
  : window :=
  match selected with
  | [] => w
  | _ =>
      if confirm then
        load_trades str_filters now_check now_store
          {| ui := ui w; quote_entry_normal := quote_entry_normal w;
             cards := cards w; tree := tree w;
             store := fold_left (fun db trade_id => snd (delete_trade trade_id db))
                                selected (store w) |}
      else w
  end.

End TradeTrackerApp.

End trade_tracker_1.

(** ** trade_tracker.py: TradeTrackerApp

    The instrument table of [trade_tracker.py] is the one above, entry
    for entry. *)

Module trade_tracker_window.

Import trade_tracker trade_tracker_1.

(** The text of an entry box, by what the two readers of the file make
    of it: empty; a text that [float] reads as [x]; a text that, once
    stripped, starts with "$" and that [float] reads as [x] with the "$"
    taken out (a text that [float] itself rejects); any other text. *)
Inductive box_text : Type :=
| Blank
| Numeral (x : pyfloat)
| Dollar (x : pyfloat)
| Other.

(** [float(v)] on the text of a box. *)
Definition float_of_text (v : box_text) : result pyfloat :=
  match v with
  | Numeral x => Ok x
  | _ => Raise ValueError
  end.

(** [_float_or_error]: [None] after the message box. *)
Definition _float_or_error (v : box_text) : option pyfloat :=
  match float_of_text v with
  | Ok x => Some x
  | Raise _ => None
  end.

(** [_float_or_none] *)
Definition _float_or_none (v : box_text) : option pyfloat :=
  match v with
  | Blank => None
  | _ => match float_of_text v with
         | Ok x => Some x
         | Raise _ => None
         end
  end.

(** [x or 1.0] for [x] a float or [None]. *)
Definition or_one (x : option pyfloat) : pyfloat :=
  match x with
  | Some r => if truthy r then r else Fin 1
  | None => Fin 1
  end.

Record inputs : Type := {
  instrument_var : string;
  direction_var : string;
  entry_var : box_text;
  stop_var : box_text;
  tp_var : box_text;
  exit_var : box_text;
  lots_var : box_text;
  contract_var : box_text;
  quote_rate_var : box_text;
  notes_var : string
}.

(** [float(contract_var) if contract_var else info["contract"]] *)
Definition contract_override (ui : inputs) (info : instrument) : result pyfloat :=
  match contract_var ui with
  | Blank => Ok (contract info)
  | filled => float_of_text filled
  end.

(** How a press of "Save Trade" ends. *)
Inductive save_end : Type :=
| Reported
| Raised (e : exn)
| RaisedAttributeError
| Appended (row : list (string * string)).

(** The dict display of [save_trade].  Its entries are evaluated in
    order: the first is [datetime.utcnow().isoformat()], the second is
    [datetime.now(datetime.timezone.utc).isoformat()], where [datetime]
    is the class that [from datetime import datetime] binds, and that
    class has no attribute [timezone]. *)
Definition build_row (d : derived) : save_end := RaisedAttributeError.

(** [save_trade] on the CSV file, a list of rows: the end of the call
    and the file after it. *)
Definition save_trade (ui : inputs) (csv : list (list (string * string)))
  : save_end * list (list (string * string)) :=
  match getitem INSTRUMENTS (instrument_var ui) with
  | Raise e => (Raised e, csv)
  | Ok info =>
      match _float_or_error (entry_var ui) with
      | None => (Reported, csv)
      | Some entry =>
          let stop := _float_or_none (stop_var ui) in
          let tp := _float_or_none (tp_var ui) in
          let exit_price := _float_or_none (exit_var ui) in
          match _float_or_error (lots_var ui) with
          | None => (Reported, csv)
          | Some lots =>
              match contract_override ui info with
              | Raise e => (Raised e, csv)
              | Ok contract_size =>
                  let pip_size := pip info in
                  let quote_rate := or_one (_float_or_none (quote_rate_var ui)) in
                  match
                    (pv <- pip_value_usd (PyFloat pip_size) (PyFloat contract_size)
                                         (quote_usd info) (PyFloat quote_rate) ;;
                     save_trade_derived entry stop tp exit_price lots pip_size pv
                                        (direction_var ui))
                  with
                  | Raise e => (Raised e, csv)
                  | Ok d =>
                      match build_row d with
                      | Appended row => (Appended row, csv ++ [row])
                      | other => (other, csv)
                      end
                  end
              end
          end
      end
  end.

End trade_tracker_window.

(** * The same functions over binary64

    A Python float is an IEEE 754 binary64 number.  [SpecFloat] gives
    the numbers (two zeros, two infinities, one NaN, and the finite
    numbers [(-1)^s * m * 2^e]) and their operations, rounded to nearest
    even; Python adds the [ZeroDivisionError] of [/]. *)

Module Binary64.

Definition float : Type := SpecFloat.spec_float.

Definition fmul : float -> float -> float := SpecFloat.SFmul 53%Z 1024%Z.
Definition fdiv : float -> float -> float := SpecFloat.SFdiv 53%Z 1024%Z.
Definition fadd : float -> float -> float := SpecFloat.SFadd 53%Z 1024%Z.
Definition fsub : float -> float -> float := SpecFloat.SFsub 53%Z 1024%Z.

(** [x == 0]: true of the two zeros and of nothing else. *)
Definition is_zero (x : float) : bool :=
  match x with
  | SpecFloat.S754_zero _ => true
  | _ => false
  end.

Definition is_nan (x : float) : bool :=
  match x with
  | SpecFloat.S754_nan => true
  | _ => false
  end.

(** [math.isfinite(x)] *)
Definition is_finite (x : float) : bool :=
  match x with
  | SpecFloat.S754_zero _ | SpecFloat.S754_finite _ _ _ => true
  | _ => false
  end.

(** [x == y] *)
Definition py_eqb : float -> float -> bool := SpecFloat.SFeqb.

(** [bool(x)]: false of the zeros only. *)
Definition truthy (x : float) : bool := negb (is_zero x).

(** [x / y] *)
Definition py_truediv (x y : float) : result float :=
  if is_zero y then Raise ZeroDivisionError else Ok (fdiv x y).

(** The float of an integer literal: [float(z)], correctly rounded. *)
Definition of_Z (z : Z) : float := SpecFloat.binary_normalize 53%Z 1024%Z z 0%Z false.

(** The float of the decimal literal [n / 10^k] for integers that
    binary64 holds exactly: the quotient, correctly rounded, is the
    float nearest to the decimal. *)
Definition of_decimal (n : Z) (k : nat) : float :=
  fdiv (of_Z n) (of_Z (10 ^ Z.of_nat k)%Z).

(** ** trade_tracker.py, the module-level functions, called on floats:
    the [float(...)] conversions are then the identity and their
    [except] branches are dead. *)

Module trade_tracker.

Definition calc_pips (entry price pip_size : float) (direction : string)
  : result float :=
  if String.eqb direction "Long"
  then py_truediv (fsub price entry) pip_size
  else py_truediv (fsub entry price) pip_size.

Definition pip_value_usd (pip_size contract_size : float) (quote_usd : bool)
    (quote_to_usd_rate : float) : float :=
  let base := fmul pip_size contract_size in
  if quote_usd then base
  else if is_zero quote_to_usd_rate then base
       else fdiv base quote_to_usd_rate.

Definition usd_from_pips (pips pip_value_per_lot lots : float) : float :=
  fmul (fmul pips pip_value_per_lot) lots.

Definition price_from_usd_target (entry : float) (direction : string)
    (usd_target pip_size contract_size : float) (quote_usd : bool)
    (quote_rate lots : float) : result (option float) :=
  let pip_val := pip_value_usd pip_size contract_size quote_usd quote_rate in
  if is_zero pip_val || is_zero lots then Ok None
  else
    pips_needed <- py_truediv usd_target (fmul pip_val lots) ;;
    let price_diff := fmul pips_needed pip_size in
    Ok (Some (if String.eqb direction "Long"
              then fadd entry price_diff
              else fsub entry price_diff)).

End trade_tracker.

(** ** trade_tracker_1.py: TradeCalculator *)

Module TradeCalculator.

Definition pip_value_usd (pip_size contract_size : float) (quote_usd : bool)
    (quote_to_usd_rate : float) : result float :=
  let base := fmul pip_size contract_size in
  if quote_usd then Ok base else py_truediv base quote_to_usd_rate.

Definition price_from_usd_target (entry : float) (direction : string)
    (usd_target pip_size contract_size : float) (quote_usd : bool)
    (quote_rate lots : float) : result (option float) :=
  pip_val <- pip_value_usd pip_size contract_size quote_usd quote_rate ;;
  if is_zero pip_val || is_zero lots then Ok None
  else
    pips_needed <- py_truediv usd_target (fmul pip_val lots) ;;
    let price_diff := fmul pips_needed pip_size in
    Ok (Some (if String.eqb direction "Long"
              then fadd entry price_diff
              else fsub entry price_diff)).

End TradeCalculator.

(** ** The instrument table, the same in both files *)

Record instrument : Type := {
  pip : float;
  contract : float;
  quote_usd : bool;
  desc : string
}.

Definition INSTRUMENTS : list (string * instrument) :=
  [ ("XAUUSD", {| pip := of_decimal 1 2; contract := of_Z 100;
                  quote_usd := true; desc := "Gold (pip=0.01)" |});
    ("BTCUSD", {| pip := of_Z 1; contract := of_Z 1;
                  quote_usd := true; desc := "Bitcoin (pip=1)" |});
    ("US30", {| pip := of_Z 1; contract := of_Z 1;
                quote_usd := true; desc := "US30 index (point=1)" |});
    ("NASDAQ100", {| pip := of_Z 1; contract := of_Z 1;
                     quote_usd := true; desc := "NASDAQ100 (point=1)" |});
    ("USDJPY", {| pip := of_decimal 1 2; contract := of_Z 100000;
                  quote_usd := false; desc := "USD/JPY (pip=0.01, quote JPY)" |});
    ("GBPJPY", {| pip := of_decimal 1 2; contract := of_Z 100000;
                  quote_usd := false; desc := "GBP/JPY (pip=0.01, quote JPY)" |});
    ("AUDUSD", {| pip := of_decimal 1 4; contract := of_Z 100000;
                  quote_usd := true; desc := "AUD/USD (pip=0.0001)" |}) ].

(** [INSTRUMENTS[inst]] *)
Fixpoint getitem (table : list (string * instrument)) (inst : string)
  : result instrument :=
  match table with
  | [] => Raise KeyError
  | (k, info) :: rest => if String.eqb inst k then Ok info else getitem rest inst
  end.

(** ** trade_tracker.py: TradeTrackerApp.calculate *)

Module TradeTrackerApp.

Import trade_tracker.

(** The text of an entry box, by what the two readers of the file make
    of it: empty; a text that [float] reads as [x] ("inf" and "nan"
    among them); a text that, once stripped, starts with "$" and that
    [float] reads as [x] with the "$" taken out (a text that [float]
    itself rejects); any other text. *)
Inductive box_text : Type :=
| Blank
| Numeral (x : float)
| Dollar (x : float)
| Other.

(** [float(v)] on the text of a box. *)
Definition float_of_text (v : box_text) : result float :=
  match v with
  | Numeral x => Ok x
  | _ => Raise ValueError
  end.

(** [parse_money_field] *)
Definition parse_money_field (val : box_text) : option float :=
  match val with
  | Dollar x => Some x
  | _ => None
  end.

(** [_float_or_error]: [None] after the message box. *)
Definition _float_or_error (v : box_text) : option float :=
  match float_of_text v with
  | Ok x => Some x
  | Raise _ => None
  end.

(** [_float_or_none] *)
Definition _float_or_none (v : box_text) : option float :=
  match v with
  | Blank => None
  | _ => match float_of_text v with
         | Ok x => Some x
         | Raise _ => None
         end
  end.

(** [x or 1.0] for [x] a float or [None]. *)
Definition or_one (x : option float) : float :=
  match x with
  | Some r => if truthy r then r else of_Z 1
  | None => of_Z 1
  end.

Record inputs : Type := {
  instrument_var : string;
  direction_var : string;
  entry_var : box_text;
  stop_var : box_text;
  tp_var : box_text;
  exit_var : box_text;
  lots_var : box_text;
  contract_var : box_text;
  quote_rate_var : box_text
}.

(** [float(contract_var) if contract_var else info["contract"]] *)
Definition contract_override (ui : inputs) (info : instrument) : result float :=
  match contract_var ui with
  | Blank => Ok (contract info)
  | filled => float_of_text filled
  end.

(** The pips and the USD of a price that [is not None]. *)
Definition pips_and_usd (entry : float) (price : option float)
    (pip_size pip_val lots : float) (direction : string)
  : result (option (float * float)) :=
  match price with
  | Some p =>
      pips <- calc_pips entry p pip_size direction ;;
      Ok (Some (pips, usd_from_pips pips pip_val lots))
  | None => Ok None
  end.

(** The price line for a "$" amount; formatting [None] with [:.6f]
    raises [TypeError]. *)
Definition price_line (entry : float) (direction : string)
    (desired_usd : option float) (pip_size contract_size : float)
    (quote_usd : bool) (quote_rate lots : float) : result (option float) :=
  match desired_usd with
  | Some usd =>
      target_price <- price_from_usd_target entry direction usd pip_size
                        contract_size quote_usd quote_rate lots ;;
      match target_price with
      | Some price => Ok (Some price)
      | None => Raise TypeError
      end
  | None => Ok None
  end.

(** The numbers of the result lines. *)
Record results : Type := {
  pip_val : float;
  at_stop : option (float * float);
  at_take_profit : option (float * float);
  realized : option (float * float);
  price_for_profit : option float;
  price_for_loss : option float
}.

(** [calculate]: [Ok None] when it returns after a message box. *)
Definition calculate (ui : inputs) : result (option results) :=
  info <- getitem INSTRUMENTS (instrument_var ui) ;;
  match contract_override ui info with
  | Raise _ => Ok None
  | Ok contract_size =>
      let pip_size := pip info in
      match _float_or_error (entry_var ui) with
      | None => Ok None
      | Some entry =>
          let stop := _float_or_none (stop_var ui) in
          let tp := _float_or_none (tp_var ui) in
          let exit_price := _float_or_none (exit_var ui) in
          match _float_or_error (lots_var ui) with
          | None => Ok None
          | Some lots =>
              let quote_rate := or_one (_float_or_none (quote_rate_var ui)) in
              let pv := pip_value_usd pip_size contract_size (quote_usd info)
                                      quote_rate in
              let direction := direction_var ui in
              sl <- pips_and_usd entry stop pip_size pv lots direction ;;
              tpp <- pips_and_usd entry tp pip_size pv lots direction ;;
              rp <- pips_and_usd entry exit_price pip_size pv lots direction ;;
              profit <- price_line entry direction (parse_money_field (tp_var ui))
                          pip_size contract_size (quote_usd info) quote_rate lots ;;
              loss <- price_line entry direction (parse_money_field (stop_var ui))
                        pip_size contract_size (quote_usd info) quote_rate lots ;;
              Ok (Some {| pip_val := pv; at_stop := sl; at_take_profit := tpp;
                          realized := rp; price_for_profit := profit;
                          price_for_loss := loss |})
          end
      end
  end.

End TradeTrackerApp.

End Binary64.

Import trade_tracker_1.

(** * The specification's wording

    Definitions written after the specification, to compare the code
    with. *)

Module Spec.

(** [pipValueUSD]: [pipSize*contractSize] when the quote is USD,
    otherwise that value divided by the rate, undivided when the rate
    is zero. *)
Definition pip_value_spec (pip_size contract_size : pyfloat) (quote_usd : bool)
    (rate : pyfloat) : pyfloat :=
  if quote_usd then fmul pip_size contract_size
  else if is_zero rate then fmul pip_size contract_size
       else fdiv (fmul pip_size contract_size) rate.

(** [priceFromUsdTarget]: no price when the pip value or the lot size
    is zero, otherwise [entry +/- (usdTarget/(pipValue*lots))*pipSize]. *)
Definition price_spec (entry : pyfloat) (direction : string)
    (usd_target pip_size pip_val lots : pyfloat) : option pyfloat :=
  if is_zero pip_val || is_zero lots then None
  else
    let price_diff := fmul (fdiv usd_target (fmul pip_val lots)) pip_size in
    Some (if String.eqb direction "Long"
          then fadd entry price_diff
          else fsub entry price_diff).

(** [pipsBetween] must fail when an input is not a finite number or
    the pip size is zero. *)
Definition pips_between_rejects (entry price pip_size : pyfloat) : bool :=
  negb (is_finite entry && is_finite price && is_finite pip_size)
  || is_zero pip_size.

(** [delete] returns whether a record was actually removed. *)
Definition delete_removes (trade_id : Z) (db : TradeDB.t) : bool :=
  existsb (fun r => (TradeDB.row_id r =? trade_id)%Z) (TradeDB.trades db).

(** [aggregate]'s win rate: records with [realizedUSD > 0] over records
    whose [realizedUSD] is defined. *)
Definition win_rate_spec (records : list TradeDB.row) : pyfloat :=
  let defined :=
    List.filter (fun r => match TradeDB.col_value r "realized_usd" with
                          | TradeDB.SqlNull => false
                          | _ => true
                          end) records in
  let wins :=
    List.filter (fun r => py_gtb (TradeTrackerApp.realized_usd_cell r) (Fin 0))
                defined in
  match defined with
  | [] => Fin 0
  | _ => fdiv (TradeTrackerApp.of_nat (length wins))
              (TradeTrackerApp.of_nat (length defined))
  end.

End Spec.

(** * Sample data *)

Module Sample.

Import TradeDB TradeTrackerApp.

(** A stored XAUUSD trade with the given id, time and realized USD. *)
Definition stored (id : Z) (time : string) (realized : sqlval) : row :=
  {| row_id := id;
     row_vals :=
       [ SqlText time; SqlText "XAUUSD"; SqlText "Long";
         SqlReal (Fin 1900); SqlNull; SqlNull; SqlNull;
         SqlReal (Fin 1); SqlReal (Fin 100); SqlReal (Fin (1 # 100));
         SqlReal (Fin 1); SqlNull; SqlNull; SqlNull; SqlNull;
         SqlNull; realized; SqlText "" ] |}.

(** The dict [save_trade] builds for an XAUUSD trade without stop,
    target or exit. *)
Definition open_trade (time : string) : list (string * param) :=
  [ ("timestamp", PStr time); ("instrument", PStr "XAUUSD");
    ("direction", PStr "Long"); ("entry", PFloat (Fin 1900));
    ("stop", PNone); ("target", PNone); ("exit", PNone);
    ("lots", PFloat (Fin 1)); ("contract_size", PFloat (Fin 100));
    ("pip_size", PFloat (Fin (1 # 100))); ("quote_to_usd", PFloat (Fin 1));
    ("pips_to_sl", PNone); ("usd_to_sl", PNone); ("pips_to_tp", PNone);
    ("usd_to_tp", PNone); ("realized_pips", PNone); ("realized_usd", PNone);
    ("notes", PStr "") ].

(** The entry boxes of a break-even XAUUSD trade: entry and exit both
    1900, no stop, no target, one lot. *)
Definition break_even : inputs :=
  {| instrument_var := "XAUUSD";
     direction_var := "Long";
     entry_var := Numeral (Fin 1900);
     stop_var := Blank;
     tp_var := Blank;
     exit_var := Numeral (Fin 1900);
     lots_var := Numeral (Fin 1);
     contract_var := Numeral (Fin 100);
     quote_rate_var := Blank;
     notes_var := "" |}.

(** A rendering of the filters that tells [None] from a dict. *)
Definition str_filters (filters : option (list (string * param))) : string :=
  match filters with
  | None => "None"
  | Some _ => "{...}"
  end.

(** The window before any trade: the break-even boxes over an empty
    store. *)
Definition first_window : window :=
  {| ui := break_even;
     quote_entry_normal := false;
     cards := initial_cards;
     tree := [];
     store := new_connection [] 0 |}.

(** The window over a store of two trades, one won with 10 USD and one
    still open, after a reload. *)
Definition later_window : window :=
  {| ui := break_even;
     quote_entry_normal := false;
     cards := {| total_profit := Fin 10; win_rate := Fin (1 # 2);
                 avg_win := Fin 10; avg_loss := NaN |};
     tree := [ stored 2 "2025-01-01T10:00:00" SqlNull;
               stored 1 "2025-01-01T09:00:00" (SqlReal (Fin 10)) ];
     store := new_connection
                [ stored 1 "2025-01-01T09:00:00" (SqlReal (Fin 10));
                  stored 2 "2025-01-01T10:00:00" SqlNull ] 2 |}.

(** The float [1e-200], [0x1.87e92154ef7acp-665]: its square is below
    the smallest binary64 number. *)
Definition float_1e_200 : Binary64.float :=
  SpecFloat.S754_finite false 6894565328877484 (-717).

(** The boxes of the window of [trade_tracker.py] for one lot of XAUUSD
    bought at 1900, with the given texts in the stop, take-profit,
    lots and contract boxes. *)
Definition boxes (stop tp lots contract_size : Binary64.TradeTrackerApp.box_text)
  : Binary64.TradeTrackerApp.inputs :=
  {| Binary64.TradeTrackerApp.instrument_var := "XAUUSD";
     Binary64.TradeTrackerApp.direction_var := "Long";
     Binary64.TradeTrackerApp.entry_var :=
       Binary64.TradeTrackerApp.Numeral (Binary64.of_Z 1900);
     Binary64.TradeTrackerApp.stop_var := stop;
     Binary64.TradeTrackerApp.tp_var := tp;
     Binary64.TradeTrackerApp.exit_var := Binary64.TradeTrackerApp.Blank;
     Binary64.TradeTrackerApp.lots_var := lots;
     Binary64.TradeTrackerApp.contract_var := contract_size;
     Binary64.TradeTrackerApp.quote_rate_var := Binary64.TradeTrackerApp.Blank |}.

End Sample.

Import Spec.

(** * Properties *)

Local Open Scope Q_scope.

(** ** Arithmetic of [pyfloat] *)

Lemma is_zero_Fin (q : Q) : is_zero (Fin q) = true <-> q == 0.
Proof.
  unfold is_zero, Qeq. cbn. rewrite Z.eqb_eq, Z.mul_1_r. tauto.
Qed.

Lemma is_zero_Fin_false (q : Q) : is_zero (Fin q) = false <-> ~ q == 0.
Proof.
  rewrite <- is_zero_Fin. destruct (is_zero (Fin q)); split; congruence.
Qed.

Lemma is_zero_inf_of_sign (s : Z) : is_zero (inf_of_sign s) = false.
Proof. destruct s; reflexivity. Qed.

(** A product of two floats that are not zero is not zero. *)
Lemma fmul_not_zero (x y : pyfloat) :
  is_zero x = false -> is_zero y = false -> is_zero (fmul x y) = false.
Proof.
  destruct x as [a| | |], y as [b| | |]; cbn [fmul];
    try (intros _ _; first [reflexivity | apply is_zero_inf_of_sign]).
  rewrite !is_zero_Fin_false. intros Ha Hb Hab.
  apply Qmult_integral in Hab. tauto.
Qed.

Lemma py_truediv_ok (x y : pyfloat) :
  is_zero y = false -> py_truediv x y = Ok (fdiv x y).
Proof. unfold py_truediv. now intros ->. Qed.

Lemma py_truediv_zero (x y : pyfloat) :
  is_zero y = true -> py_truediv x y = Raise ZeroDivisionError.
Proof. unfold py_truediv. now intros ->. Qed.

Lemma fdiv_Fin (a b : Q) : ~ b == 0 -> fdiv (Fin a) (Fin b) = Fin (a / b).
Proof.
  intros Hb. apply is_zero_Fin_false in Hb. cbn in *. now rewrite Hb.
Qed.

Lemma py_eqb_Fin (a b : Q) : py_eqb (Fin a) (Fin b) = true <-> a == b.
Proof. apply Qeq_bool_iff. Qed.

(** ** The two scenarios of the specification *)

(** XAUUSD, entry 1900, stop 1895, Long, one lot: -500 pips, 1 USD a
    pip, -500 USD at the stop. *)
Example scenario_XAUUSD :
  exists info pips pv,
    getitem INSTRUMENTS "XAUUSD" = Ok info
    /\ TradeCalculator.calc_pips (Fin 1900) (Fin 1895) (pip info) "Long" = Ok pips
    /\ TradeCalculator.pip_value_usd (pip info) (contract info) (quote_usd info) (Fin 1)
       = Ok pv
    /\ py_eqb pips (Fin (-500)) = true
    /\ py_eqb pv (Fin 1) = true
    /\ py_eqb (TradeCalculator.usd_from_pips pips pv (Fin 1)) (Fin (-500)) = true.
Proof. do 3 eexists. repeat split. Qed.

(** USDJPY, entry 150, exit 150.50, Long, one lot, rate 150: 50 pips,
    1000/150 USD a pip, 1000/3 USD realized; the same from
    [trade_tracker.py]. *)
Example scenario_USDJPY :
  exists info pips pv,
    getitem INSTRUMENTS "USDJPY" = Ok info
    /\ TradeCalculator.calc_pips (Fin 150) (Fin (301 # 2)) (pip info) "Long" = Ok pips
    /\ TradeCalculator.pip_value_usd (pip info) (contract info) (quote_usd info) (Fin 150)
       = Ok pv
    /\ trade_tracker.calc_pips (PyFloat (Fin 150)) (PyFloat (Fin (301 # 2)))
                               (PyFloat (pip info)) "Long" = Ok (Some pips)
    /\ trade_tracker.pip_value_usd (PyFloat (pip info)) (PyFloat (contract info))
                                   (quote_usd info) (PyFloat (Fin 150)) = Ok pv
    /\ py_eqb pips (Fin 50) = true
    /\ py_eqb pv (Fin (1000 # 150)) = true
    /\ py_eqb (TradeCalculator.usd_from_pips pips pv (Fin 1)) (Fin (1000 # 3)) = true.
Proof. do 3 eexists. repeat split. Qed.

(** ** The pip value *)

(** [trade_tracker.pip_value_usd] on floats never raises and returns the
    value of the specification, zero rate included. *)
Lemma trade_tracker_pip_value_usd_total
    (pip_size contract_size rate : pyfloat) (quote_usd : bool) :
  trade_tracker.pip_value_usd (PyFloat pip_size) (PyFloat contract_size)
                              quote_usd (PyFloat rate)
  = Ok (pip_value_spec pip_size contract_size quote_usd rate).
Proof.
  unfold trade_tracker.pip_value_usd, pip_value_spec, py_truediv. cbn.
  destruct quote_usd; [reflexivity|].
  destruct (is_zero rate); reflexivity.
Qed.

(** [TradeCalculator.pip_value_usd] agrees with it unless the quote is
    not USD and the rate is zero. *)
Lemma TradeCalculator_pip_value_usd_defined
    (pip_size contract_size rate : pyfloat) (quote_usd : bool) :
  quote_usd = true \/ is_zero rate = false ->
  TradeCalculator.pip_value_usd pip_size contract_size quote_usd rate
  = Ok (pip_value_spec pip_size contract_size quote_usd rate).
Proof.
  unfold TradeCalculator.pip_value_usd, pip_value_spec, py_truediv.
  intros [-> | ->]; [reflexivity|]. destruct quote_usd; reflexivity.
Qed.

(** C1 (the code departs from it). With a quote currency other than USD
    and a rate of zero, [TradeCalculator.pip_value_usd] raises
    [ZeroDivisionError] for every pip size and contract size, where
    [trade_tracker.pip_value_usd] returns the undivided
    [pip_size * contract_size]. *)
Theorem TradeCalculator_pip_value_usd_zero_rate_raises
    (pip_size contract_size : pyfloat) :
  TradeCalculator.pip_value_usd pip_size contract_size false (Fin 0)
  = Raise ZeroDivisionError
  /\ trade_tracker.pip_value_usd (PyFloat pip_size) (PyFloat contract_size)
                                 false (PyFloat (Fin 0))
     = Ok (fmul pip_size contract_size).
Proof. split; reflexivity. Qed.

(** ** Solving a price from a USD target *)

(** [trade_tracker.price_from_usd_target] returns no price exactly when
    the pip value or the lot size is zero, and the solved price
    otherwise.  Its division cannot raise: finite products being exact,
    the product of a non-zero pip value and a non-zero lot size is not
    zero. *)
Lemma trade_tracker_price_from_usd_target_total
    (entry usd_target pip_size contract_size rate lots : pyfloat)
    (direction : string) (quote_usd : bool) :
  trade_tracker.price_from_usd_target entry direction usd_target pip_size
                                      contract_size quote_usd rate lots
  = Ok (price_spec entry direction usd_target pip_size
          (pip_value_spec pip_size contract_size quote_usd rate) lots).
Proof.
  unfold trade_tracker.price_from_usd_target, price_spec.
  rewrite trade_tracker_pip_value_usd_total. cbn [bind].
  destruct (is_zero (pip_value_spec _ _ _ _)) eqn:Hp; [reflexivity|].
  destruct (is_zero lots) eqn:Hl; [reflexivity|]. cbn [orb].
  rewrite py_truediv_ok by now apply fmul_not_zero.
  reflexivity.
Qed.

(** So does [TradeCalculator.price_from_usd_target] wherever its pip
    value is defined. *)
Lemma TradeCalculator_price_from_usd_target_defined
    (entry usd_target pip_size contract_size rate lots : pyfloat)
    (direction : string) (quote_usd : bool) :
  quote_usd = true \/ is_zero rate = false ->
  TradeCalculator.price_from_usd_target entry direction usd_target pip_size
                                        contract_size quote_usd rate lots
  = Ok (price_spec entry direction usd_target pip_size
          (pip_value_spec pip_size contract_size quote_usd rate) lots).
Proof.
  intros H. unfold TradeCalculator.price_from_usd_target, price_spec.
  rewrite TradeCalculator_pip_value_usd_defined by exact H. cbn [bind].
  destruct (is_zero (pip_value_spec _ _ _ _)) eqn:Hp; [reflexivity|].
  destruct (is_zero lots) eqn:Hl; [reflexivity|]. cbn [orb].
  rewrite py_truediv_ok by now apply fmul_not_zero.
  reflexivity.
Qed.

(** C3 (the code departs from it). With a quote currency other than USD
    and a rate of zero, [TradeCalculator.price_from_usd_target] neither
    reports "no price" nor returns one: it raises [ZeroDivisionError],
    for every entry, direction, target, pip size, contract size and lot
    size.  [trade_tracker.price_from_usd_target] returns the price of
    the specification there. *)
Theorem TradeCalculator_price_from_usd_target_zero_rate_raises
    (entry usd_target pip_size contract_size lots : pyfloat)
    (direction : string) :
  TradeCalculator.price_from_usd_target entry direction usd_target pip_size
                                        contract_size false (Fin 0) lots
  = Raise ZeroDivisionError
  /\ trade_tracker.price_from_usd_target entry direction usd_target pip_size
                                         contract_size false (Fin 0) lots
     = Ok (price_spec entry direction usd_target pip_size
             (fmul pip_size contract_size) lots).
Proof.
  split; [reflexivity|].
  now rewrite trade_tracker_price_from_usd_target_total.
Qed.

(** On finite inputs the pip value is a rational, and it can only be
    non-zero when the pip size is. *)
Lemma pip_value_spec_Fin (pip_size contract_size rate : Q) (quote_usd : bool) :
  exists v : Q,
    pip_value_spec (Fin pip_size) (Fin contract_size) quote_usd (Fin rate) = Fin v
    /\ (~ v == 0 -> ~ pip_size == 0).
Proof.
  unfold pip_value_spec.
  destruct quote_usd; [|destruct (is_zero (Fin rate)) eqn:Hr].
  - exists (pip_size * contract_size). split; [reflexivity|].
    intros Hv Hp. apply Hv. rewrite Hp. ring.
  - exists (pip_size * contract_size). split; [reflexivity|].
    intros Hv Hp. apply Hv. rewrite Hp. ring.
  - exists (pip_size * contract_size / rate).
    apply is_zero_Fin_false in Hr. cbn [fmul]. rewrite fdiv_Fin by exact Hr.
    split; [reflexivity|].
    intros Hv Hp. apply Hv. rewrite Hp. field. exact Hr.
Qed.

(** The solved price on finite inputs, as a rational. *)
Lemma price_spec_Fin (entry usd_target pip_size v lots : Q) (direction : string) :
  ~ v == 0 -> ~ lots == 0 ->
  price_spec (Fin entry) direction (Fin usd_target) (Fin pip_size) (Fin v) (Fin lots)
  = Some (Fin (if String.eqb direction "Long"
               then entry + usd_target / (v * lots) * pip_size
               else entry + - (usd_target / (v * lots) * pip_size))).
Proof.
  intros Hv Hl. unfold price_spec.
  apply is_zero_Fin_false in Hv as Hv'. apply is_zero_Fin_false in Hl as Hl'.
  rewrite Hv', Hl'. cbn [orb fmul].
  rewrite fdiv_Fin.
  - destruct (String.eqb direction "Long"); reflexivity.
  - intros H. apply Qmult_integral in H. tauto.
Qed.

(** *** A USD target of zero, over binary64 *)

Section ZeroTarget.

Import Binary64.

Lemma py_eqb_refl (x : float) : is_nan x = false -> py_eqb x x = true.
Proof.
  destruct x as [s|s| |s m e]; try discriminate; intros _.
  - reflexivity.
  - now destruct s.
  - unfold py_eqb, SpecFloat.SFeqb, SpecFloat.SFcompare.
    destruct s; rewrite Z.compare_refl, Pos.compare_cont_refl; reflexivity.
Qed.

(** A zero divided by a product that is a number other than zero, times
    a finite pip size, is a zero, and adding or subtracting a zero
    leaves a number equal to itself. *)
Lemma zero_target_solves_to_entry
    (entry usd_target pip_size product : float) (direction : string) :
  is_zero usd_target = true ->
  is_zero product = false ->
  is_nan product = false ->
  is_finite pip_size = true ->
  is_nan entry = false ->
  exists pips_needed,
    py_truediv usd_target product = Ok pips_needed
    /\ py_eqb (if String.eqb direction "Long"
               then fadd entry (fmul pips_needed pip_size)
               else fsub entry (fmul pips_needed pip_size)) entry = true.
Proof.
  intros Hu Hp Hn Hs He. unfold py_truediv. rewrite Hp.
  eexists. split; [reflexivity|].
  destruct usd_target as [su| | |]; try discriminate Hu.
  destruct product as [|sp| |sp mp ep]; try discriminate;
    destruct pip_size as [ss| | |ss ms es]; try discriminate;
    destruct entry as [se|se| |se me ee]; try discriminate;
    destruct (String.eqb direction "Long"), su, sp, ss, se;
    cbv [fdiv fmul fadd fsub SpecFloat.SFdiv SpecFloat.SFmul SpecFloat.SFadd
         SpecFloat.SFsub xorb];
    first [reflexivity | now apply py_eqb_refl].
Qed.

(** C10. With a USD target of zero, [price_from_usd_target] returns a
    price equal to the entry, whatever the direction, in both
    implementations, when the entry is not NaN, the pip size is finite,
    the pip value and the lot size are not zero and their product, as
    binary64 computes it, is a number other than zero. *)
Theorem price_from_usd_target_zero_target
    (entry usd_target pip_size contract_size rate lots : float)
    (direction : string) (quote_usd : bool) :
  is_zero usd_target = true ->
  is_nan entry = false ->
  is_finite pip_size = true ->
  is_zero lots = false ->
  (forall pv,
      Binary64.trade_tracker.pip_value_usd pip_size contract_size quote_usd rate = pv ->
      is_zero pv = false ->
      is_zero (fmul pv lots) = false ->
      is_nan (fmul pv lots) = false ->
      exists price,
        Binary64.trade_tracker.price_from_usd_target
          entry direction usd_target pip_size contract_size quote_usd rate lots
        = Ok (Some price)
        /\ py_eqb price entry = true)
  /\ (forall pv,
      Binary64.TradeCalculator.pip_value_usd pip_size contract_size quote_usd rate
      = Ok pv ->
      is_zero pv = false ->
      is_zero (fmul pv lots) = false ->
      is_nan (fmul pv lots) = false ->
      exists price,
        Binary64.TradeCalculator.price_from_usd_target
          entry direction usd_target pip_size contract_size quote_usd rate lots
        = Ok (Some price)
        /\ py_eqb price entry = true).
Proof.
  intros Hu He Hs Hl. split; intros pv Hpv Hnz Hp Hn.
  - unfold Binary64.trade_tracker.price_from_usd_target. rewrite Hpv, Hnz, Hl.
    cbn [orb].
    destruct (zero_target_solves_to_entry entry usd_target pip_size (fmul pv lots)
                direction Hu Hp Hn Hs He) as (q & -> & Hq).
    cbn [bind]. eexists. split; [reflexivity|exact Hq].
  - unfold Binary64.TradeCalculator.price_from_usd_target. rewrite Hpv.
    cbn [bind]. rewrite Hnz, Hl. cbn [orb].
    destruct (zero_target_solves_to_entry entry usd_target pip_size (fmul pv lots)
                direction Hu Hp Hn Hs He) as (q & -> & Hq).
    cbn [bind]. eexists. split; [reflexivity|exact Hq].
Qed.

Lemma price_from_usd_target_zero_target_witness :
  exists price,
    Binary64.TradeCalculator.price_from_usd_target
      (of_Z 1900) "Short" (of_Z 0) (of_decimal 1 2) (of_Z 100000) false
      (of_Z 150) (of_Z 2)
    = Ok (Some price)
    /\ py_eqb price (of_Z 1900) = true.
Proof.
  exact (proj2 (price_from_usd_target_zero_target
                  (of_Z 1900) (of_Z 0) (of_decimal 1 2) (of_Z 100000) (of_Z 150)
                  (of_Z 2) "Short" false eq_refl eq_refl eq_refl eq_refl)
               (fdiv (fmul (of_decimal 1 2) (of_Z 100000)) (of_Z 150))
               eq_refl eq_refl eq_refl eq_refl).
Defined.

(** Where the claim as written fails.  With an infinite pip size the
    pip value and the lot size are not zero and the price is NaN, by
    IEEE 754: [0 * inf].  With a pip size and a lot size of [1e-200]
    both are not zero, their product underflows to zero and the
    division raises. *)
Lemma price_from_usd_target_zero_target_not_entry :
  (is_zero (Binary64.trade_tracker.pip_value_usd
              (SpecFloat.S754_infinity false) (of_Z 1) true (of_Z 1)) = false
   /\ is_zero (of_Z 1) = false
   /\ Binary64.trade_tracker.price_from_usd_target
        (of_Z 1900) "Long" (of_Z 0) (SpecFloat.S754_infinity false) (of_Z 1) true
        (of_Z 1) (of_Z 1)
      = Ok (Some SpecFloat.S754_nan)
   /\ Binary64.TradeCalculator.price_from_usd_target
        (of_Z 1900) "Long" (of_Z 0) (SpecFloat.S754_infinity false) (of_Z 1) true
        (of_Z 1) (of_Z 1)
      = Ok (Some SpecFloat.S754_nan)
   /\ py_eqb SpecFloat.S754_nan (of_Z 1900) = false)
  /\ (is_zero (Binary64.trade_tracker.pip_value_usd
                 Sample.float_1e_200 (of_Z 1) true (of_Z 1)) = false
      /\ is_zero Sample.float_1e_200 = false
      /\ Binary64.trade_tracker.price_from_usd_target
           (of_Z 1900) "Long" (of_Z 0) Sample.float_1e_200 (of_Z 1) true
           (of_Z 1) Sample.float_1e_200
         = Raise ZeroDivisionError
      /\ Binary64.TradeCalculator.price_from_usd_target
           (of_Z 1900) "Long" (of_Z 0) Sample.float_1e_200 (of_Z 1) true
           (of_Z 1) Sample.float_1e_200
         = Raise ZeroDivisionError).
Proof. vm_compute. repeat split. Qed.

End ZeroTarget.

(** ** Pips between two prices *)

Lemma calc_pips_general (entry price pip_size : pyfloat) (direction : string) :
  trade_tracker.calc_pips (PyFloat entry) (PyFloat price) (PyFloat pip_size) direction
  = (r <- TradeCalculator.calc_pips entry price pip_size direction ;; Ok (Some r)).
Proof.
  unfold trade_tracker.calc_pips, TradeCalculator.calc_pips. cbn.
  destruct (String.eqb direction "Long"); reflexivity.
Qed.

(** An argument that [float] rejects makes [trade_tracker.calc_pips]
    return [None]. *)
Lemma calc_pips_unconvertible (entry price pip_size : pyval) (direction : string) :
  entry = PyNone \/ price = PyNone \/ pip_size = PyNone ->
  trade_tracker.calc_pips entry price pip_size direction = Ok None.
Proof.
  unfold trade_tracker.calc_pips.
  intros [-> | [-> | ->]]; cbn;
    repeat match goal with v : pyval |- _ => destruct v end; reflexivity.
Qed.

Lemma TradeCalculator_calc_pips_Fin (entry price pip_size : Q) (direction : string) :
  ~ pip_size == 0 ->
  TradeCalculator.calc_pips (Fin entry) (Fin price) (Fin pip_size) direction
  = Ok (Fin (if String.eqb direction "Long"
             then (price - entry) / pip_size
             else (entry - price) / pip_size)).
Proof.
  intros Hs. unfold TradeCalculator.calc_pips.
  apply is_zero_Fin_false in Hs as Hs'.
  destruct (String.eqb direction "Long");
    rewrite py_truediv_ok by exact Hs'; cbn [fsub fneg fadd];
    now rewrite fdiv_Fin.
Qed.

(** C9. For finite entry and price and a finite non-zero pip size, the
    pips of a Long position are the negation of the pips of a Short one,
    in both implementations. *)
Theorem calc_pips_long_is_minus_short (entry price pip_size : Q) :
  ~ pip_size == 0 ->
  exists l s : pyfloat,
    trade_tracker.calc_pips (PyFloat (Fin entry)) (PyFloat (Fin price))
                            (PyFloat (Fin pip_size)) "Long" = Ok (Some l)
    /\ trade_tracker.calc_pips (PyFloat (Fin entry)) (PyFloat (Fin price))
                               (PyFloat (Fin pip_size)) "Short" = Ok (Some s)
    /\ TradeCalculator.calc_pips (Fin entry) (Fin price) (Fin pip_size) "Long" = Ok l
    /\ TradeCalculator.calc_pips (Fin entry) (Fin price) (Fin pip_size) "Short" = Ok s
    /\ py_eqb l (fneg s) = true.
Proof.
  intros Hs.
  exists (Fin ((price - entry) / pip_size)), (Fin ((entry - price) / pip_size)).
  rewrite !calc_pips_general, !TradeCalculator_calc_pips_Fin by exact Hs.
  repeat split. cbn [fneg]. apply py_eqb_Fin. field. exact Hs.
Qed.

Lemma calc_pips_long_is_minus_short_witness :
  exists l s : pyfloat,
    trade_tracker.calc_pips (PyFloat (Fin 1900)) (PyFloat (Fin 1895))
                            (PyFloat (Fin (1 # 100))) "Long" = Ok (Some l)
    /\ trade_tracker.calc_pips (PyFloat (Fin 1900)) (PyFloat (Fin 1895))
                               (PyFloat (Fin (1 # 100))) "Short" = Ok (Some s)
    /\ TradeCalculator.calc_pips (Fin 1900) (Fin 1895) (Fin (1 # 100)) "Long" = Ok l
    /\ TradeCalculator.calc_pips (Fin 1900) (Fin 1895) (Fin (1 # 100)) "Short" = Ok s
    /\ py_eqb l (fneg s) = true.
Proof.
  apply (calc_pips_long_is_minus_short 1900 1895 (1 # 100)).
  intros H. discriminate H.
Defined.

(** C8, the claim as stated fails: an infinite entry price is accepted
    and an infinite number of pips is returned, by both implementations. *)
Lemma calc_pips_accepts_infinite_entry :
  pips_between_rejects PInf (Fin 1) (Fin (1 # 100)) = true
  /\ trade_tracker.calc_pips (PyFloat PInf) (PyFloat (Fin 1))
                             (PyFloat (Fin (1 # 100))) "Long" = Ok (Some NInf)
  /\ TradeCalculator.calc_pips PInf (Fin 1) (Fin (1 # 100)) "Long" = Ok NInf
  /\ (forall e, trade_tracker.calc_pips (PyFloat PInf) (PyFloat (Fin 1))
                  (PyFloat (Fin (1 # 100))) "Long" <> Raise e)
  /\ (forall e, TradeCalculator.calc_pips PInf (Fin 1) (Fin (1 # 100)) "Long"
                <> Raise e).
Proof. repeat split; discriminate. Qed.

(** C8, amended. Neither implementation looks at finiteness: a zero pip
    size raises [ZeroDivisionError], and every other input, infinite or
    [nan] included, returns the quotient, [(price-entry)/pip_size] for
    "Long" and [(entry-price)/pip_size] for any other direction; on
    finite inputs that quotient is the rational one. *)
Theorem calc_pips_checks_only_zero_pip_size
    (entry price pip_size : pyfloat) (direction : string) :
  let q := if String.eqb direction "Long"
           then fdiv (fsub price entry) pip_size
           else fdiv (fsub entry price) pip_size in
  trade_tracker.calc_pips (PyFloat entry) (PyFloat price) (PyFloat pip_size) direction
  = (if is_zero pip_size then Raise ZeroDivisionError else Ok (Some q))
  /\ TradeCalculator.calc_pips entry price pip_size direction
     = (if is_zero pip_size then Raise ZeroDivisionError else Ok q)
  /\ (forall e p s : Q,
         entry = Fin e -> price = Fin p -> pip_size = Fin s -> ~ s == 0 ->
         q = Fin (if String.eqb direction "Long" then (p - e) / s else (e - p) / s)).
Proof.
  cbn zeta. rewrite calc_pips_general.
  unfold TradeCalculator.calc_pips, py_truediv.
  repeat split.
  - destruct (String.eqb direction "Long"), (is_zero pip_size); reflexivity.
  - destruct (String.eqb direction "Long"), (is_zero pip_size); reflexivity.
  - intros e p s -> -> -> Hs. cbn [fsub fneg fadd].
    destruct (String.eqb direction "Long"); now rewrite fdiv_Fin.
Qed.

Lemma calc_pips_checks_only_zero_pip_size_witness :
  trade_tracker.calc_pips (PyFloat (Fin 1900)) (PyFloat (Fin 1895))
                          (PyFloat (Fin (1 # 100))) "Long"
  = Ok (Some (Fin ((1895 - 1900) / (1 # 100))))
  /\ trade_tracker.calc_pips (PyFloat (Fin 1900)) (PyFloat (Fin 1895))
                             (PyFloat (Fin 0)) "Long"
     = Raise ZeroDivisionError.
Proof.
  pose proof (calc_pips_checks_only_zero_pip_size
                (Fin 1900) (Fin 1895) (Fin (1 # 100)) "Long") as H.
  pose proof (calc_pips_checks_only_zero_pip_size
                (Fin 1900) (Fin 1895) (Fin 0) "Long") as H0.
  cbn zeta in H, H0. destruct H as (H1 & _ & H3). destruct H0 as (H0 & _).
  split; [|exact H0].
  rewrite H1. cbn [is_zero Qnum Z.eqb].
  rewrite (H3 1900 1895 (1 # 100) eq_refl eq_refl eq_refl).
  - reflexivity.
  - intros E. discriminate E.
Defined.

(** ** The inverse solve against the forward chain *)

(** C2. For finite inputs with a non-zero pip value and a non-zero lot
    size, the price solved for a USD target, fed back through
    [calc_pips] and [usd_from_pips] with the same parameters, gives the
    target back (exact arithmetic). *)
Theorem price_from_usd_target_left_inverse
    (entry usd_target pip_size contract_size rate lots : Q)
    (direction : string) (quote_usd : bool) (pv : pyfloat) :
  trade_tracker.pip_value_usd (PyFloat (Fin pip_size)) (PyFloat (Fin contract_size))
                              quote_usd (PyFloat (Fin rate)) = Ok pv ->
  is_zero pv = false ->
  ~ lots == 0 ->
  exists price pips : pyfloat,
    trade_tracker.price_from_usd_target
      (Fin entry) direction (Fin usd_target) (Fin pip_size) (Fin contract_size)
      quote_usd (Fin rate) (Fin lots) = Ok (Some price)
    /\ trade_tracker.calc_pips (PyFloat (Fin entry)) (PyFloat price)
                               (PyFloat (Fin pip_size)) direction = Ok (Some pips)
    /\ py_eqb (trade_tracker.usd_from_pips pips pv (Fin lots)) (Fin usd_target) = true.
Proof.
  intros Hpv Hnz Hl.
  destruct (pip_value_spec_Fin pip_size contract_size rate quote_usd)
    as (v & Hv & Hpip).
  rewrite trade_tracker_pip_value_usd_total, Hv in Hpv. injection Hpv as <-.
  apply is_zero_Fin_false in Hnz. specialize (Hpip Hnz).
  rewrite trade_tracker_price_from_usd_target_total, Hv.
  rewrite price_spec_Fin by assumption.
  eexists. eexists. split; [reflexivity|].
  rewrite calc_pips_general, TradeCalculator_calc_pips_Fin by exact Hpip.
  cbn [bind]. split; [reflexivity|].
  unfold trade_tracker.usd_from_pips. cbn [fmul]. apply py_eqb_Fin.
  destruct (String.eqb direction "Long"); field; tauto.
Qed.

Lemma price_from_usd_target_left_inverse_witness :
  exists price pips : pyfloat,
    trade_tracker.price_from_usd_target
      (Fin 150) "Short" (Fin 250) (Fin (1 # 100)) (Fin 100000)
      false (Fin 150) (Fin 2) = Ok (Some price)
    /\ trade_tracker.calc_pips (PyFloat (Fin 150)) (PyFloat price)
                               (PyFloat (Fin (1 # 100))) "Short" = Ok (Some pips)
    /\ py_eqb (trade_tracker.usd_from_pips pips
                 (Fin ((1 # 100) * 100000 / 150)) (Fin 2)) (Fin 250) = true.
Proof.
  apply (price_from_usd_target_left_inverse
           150 250 (1 # 100) 100000 150 2 "Short" false
           (Fin ((1 # 100) * 100000 / 150))).
  - reflexivity.
  - reflexivity.
  - intros H. discriminate H.
Defined.

(** ** The ledger: deleting *)

Section Delete.

Import TradeDB.

Variables (trade_id : Z) (db : t).

Lemma delete_trade_trades :
  trades (snd (delete_trade trade_id db)) = List.filter (other_id trade_id) (trades db).
Proof. reflexivity. Qed.

(** Deleting removes every record with that id and no other. *)
Lemma delete_trade_removes (r : row) :
  In r (trades (snd (delete_trade trade_id db)))
  <-> In r (trades db) /\ row_id r <> trade_id.
Proof.
  rewrite delete_trade_trades, filter_In. unfold other_id.
  rewrite negb_true_iff, Z.eqb_neq. reflexivity.
Qed.

Lemma delete_trade_clears_cache : _cache (snd (delete_trade trade_id db)) = ∅.
Proof. reflexivity. Qed.

Lemma filter_keep_absent (l : list row) :
  existsb (fun r => (row_id r =? trade_id)%Z) l = false ->
  List.filter (other_id trade_id) l = l.
Proof.
  induction l as [|r l IH]; cbn [List.filter existsb]; [reflexivity|].
  intros H. apply orb_false_iff in H as [Hr Hl].
  destruct (other_id trade_id r) eqn:E; unfold other_id in E; rewrite Hr in E;
    [|discriminate E].
  now rewrite IH.
Qed.

Lemma filter_keep_shorter (l : list row) :
  (length (List.filter (other_id trade_id) l) <= length l)%nat
  /\ (existsb (fun r => (row_id r =? trade_id)%Z) l = true ->
      (length (List.filter (other_id trade_id) l) < length l)%nat).
Proof.
  induction l as [|r l [IH1 IH2]]; cbn [List.filter existsb length];
    [split; [lia|discriminate]|].
  destruct (other_id trade_id r) eqn:E; unfold other_id in E;
    destruct (row_id r =? trade_id)%Z; try discriminate E;
    cbn [orb length].
  - split; [lia|intros H; specialize (IH2 H); lia].
  - split; [lia|intros _; lia].
Qed.

(** Deleting an id that is not in the ledger leaves the ledger as it
    is. *)
Lemma delete_trade_absent :
  Spec.delete_removes trade_id db = false ->
  trades (snd (delete_trade trade_id db)) = trades db.
Proof. rewrite delete_trade_trades. apply filter_keep_absent. Qed.

(** Deleting twice leaves the ledger as deleting once does. *)
Lemma delete_trade_idempotent :
  trades (snd (delete_trade trade_id (snd (delete_trade trade_id db))))
  = trades (snd (delete_trade trade_id db)).
Proof.
  cbn [delete_trade snd _clear_cache trades].
  induction (trades db) as [|r l IH]; cbn [List.filter]; [reflexivity|].
  destruct (other_id trade_id r) eqn:E; [|exact IH].
  cbn [List.filter]. rewrite E. now rewrite IH.
Qed.

(** On a connection that has written nothing, the value returned is
    whether a record was removed. *)
Lemma delete_trade_first_write :
  total_changes db = 0%Z ->
  fst (delete_trade trade_id db) = Spec.delete_removes trade_id db.
Proof.
  intros H0. cbn [delete_trade fst _clear_cache total_changes]. rewrite H0.
  unfold Spec.delete_removes.
  destruct (filter_keep_shorter (trades db)) as [Hle Hlt].
  destruct (existsb _ (trades db)) eqn:E.
  - specialize (Hlt eq_refl). apply Z.ltb_lt. lia.
  - rewrite filter_keep_absent by exact E. apply Z.ltb_ge. lia.
Qed.

(** C5 (the code departs from it). Once the connection has written to
    the database ([total_changes] is positive), deleting an id that is
    not in the ledger leaves the ledger as it is, as claimed, but
    returns true, where the claim has false. *)
Theorem delete_trade_returns_true_after_any_write :
  (0 < total_changes db)%Z ->
  Spec.delete_removes trade_id db = false ->
  fst (delete_trade trade_id db) = true
  /\ trades (snd (delete_trade trade_id db)) = trades db
  /\ length (trades (snd (delete_trade trade_id db))) = length (trades db).
Proof.
  intros Hpos Habsent.
  rewrite delete_trade_absent by exact Habsent.
  repeat split.
  cbn [delete_trade fst _clear_cache total_changes].
  rewrite filter_keep_absent by exact Habsent.
  apply Z.ltb_lt. lia.
Qed.

End Delete.

Lemma delete_trade_returns_true_after_any_write_witness :
  let db := snd (TradeDB.add_trade (Sample.open_trade "2025-01-01T10:00:00")
                                   (TradeDB.new_connection [] 0)) in
  length (TradeDB.trades db) = 1%nat
  /\ Spec.delete_removes 999 db = false
  /\ fst (TradeDB.delete_trade 999 db) = true
  /\ length (TradeDB.trades (snd (TradeDB.delete_trade 999 db))) = 1%nat.
Proof.
  cbn zeta.
  pose proof (delete_trade_returns_true_after_any_write 999
                (snd (TradeDB.add_trade (Sample.open_trade "2025-01-01T10:00:00")
                                        (TradeDB.new_connection [] 0)))
                eq_refl eq_refl) as (Htrue & _ & Hlen).
  split; [reflexivity|]. split; [reflexivity|]. split; [exact Htrue|].
  rewrite Hlen. reflexivity.
Defined.

(** ** The ledger: adding, and reading through the cache *)

Section Query.

Import TradeDB.

Lemma In_insert_desc (r x : row) (l : list row) :
  In x (insert_desc r l) <-> x = r \/ In x l.
Proof.
  induction l as [|y l IH]; cbn [insert_desc In].
  - intuition.
  - destruct (sql_ltb _ _); cbn [In]; rewrite ?IH; intuition.
Qed.

(** Ordering keeps exactly the rows it is given. *)
Lemma In_order_by_timestamp_desc (x : row) (l : list row) :
  In x (order_by_timestamp_desc l) <-> In x l.
Proof.
  unfold order_by_timestamp_desc.
  induction l as [|y l IH]; cbn [fold_right In]; [reflexivity|].
  rewrite In_insert_desc, IH. intuition.
Qed.

Lemma length_insert_desc (r : row) (l : list row) :
  length (insert_desc r l) = S (length l).
Proof.
  induction l as [|y l IH]; cbn [insert_desc length]; [reflexivity|].
  destruct (sql_ltb _ _); cbn [length]; now rewrite ?IH.
Qed.

Lemma length_order_by_timestamp_desc (l : list row) :
  length (order_by_timestamp_desc l) = length l.
Proof.
  unfold order_by_timestamp_desc.
  induction l as [|y l IH]; cbn [fold_right length]; [reflexivity|].
  now rewrite length_insert_desc, IH.
Qed.

(** A row whose timestamp sorts after every other one comes first. *)
Lemma order_by_timestamp_desc_newest (new : row) (l : list row) :
  (forall x, In x l ->
             sql_ltb (col_value x "timestamp") (col_value new "timestamp") = true) ->
  order_by_timestamp_desc (l ++ [new]) = new :: order_by_timestamp_desc l.
Proof.
  unfold order_by_timestamp_desc. rewrite fold_right_app. cbn [fold_right insert_desc].
  induction l as [|y l IH]; intros Hlt; cbn [fold_right]; [reflexivity|].
  rewrite IH by (intros x Hx; apply Hlt; now right).
  cbn [insert_desc]. now rewrite (Hlt y (or_introl eq_refl)).
Qed.

Lemma sql_limit_all (n : Z) (l : list row) :
  (n < 0)%Z \/ (Z.of_nat (length l) <= n)%Z -> sql_limit n l = l.
Proof.
  unfold sql_limit. intros H. destruct (n <? 0)%Z eqn:E; [reflexivity|].
  apply Z.ltb_ge in E. apply firstn_all2. lia.
Qed.

Lemma sql_limit_head (n : Z) (x : row) (l : list row) :
  n <> 0%Z -> exists rest, sql_limit n (x :: l) = x :: rest.
Proof.
  unfold sql_limit. intros H. destruct (n <? 0)%Z eqn:E; [now exists l|].
  apply Z.ltb_ge in E. destruct (Z.to_nat n) as [|k] eqn:Ek; [lia|].
  cbn [firstn]. now eexists.
Qed.

(** What a successful [add_trade] does to the store. *)
Lemma add_trade_ok (trade_data : list (string * param)) (db db1 : t) (trade_id : Z) :
  add_trade trade_data db = (Ok trade_id, db1) ->
  trades db1 = trades db
                 ++ [ {| row_id := trade_id;
                         row_vals := map (fun kv => bind_param (snd kv)) trade_data |} ]
  /\ _cache db1 = ∅
  /\ total_changes db1 = (total_changes db + 1)%Z.
Proof.
  unfold add_trade. destruct (_ =? 18)%nat; [|discriminate].
  intros H. injection H as <- <-. repeat split.
Qed.

Variable str_filters : option (list (string * param)) -> string.

(** With an empty cache a query is answered from the table. *)
Lemma get_trades_empty_cache (now_check now_store limit : Z)
    (filters : option (list (string * param))) (db : t) :
  _cache db = ∅ ->
  fst (get_trades str_filters now_check now_store limit filters db)
  = select_trades limit filters (trades db).
Proof.
  intros H. unfold get_trades. rewrite H, lookup_empty.
  destruct (select_trades _ _ _); reflexivity.
Qed.

(** C6. Adding and deleting leave the cache empty, so the query that
    follows is answered from the table as it is after the write,
    whatever was cached before and however recently.  After an add the
    answer holds the new record when it passes the filters and the limit
    leaves room for every matching record, and has it in first place
    when its timestamp sorts after all others and the limit is not 0. *)
Theorem write_then_query_is_fresh
    (now_check now_store limit : Z) (filters : option (list (string * param)))
    (trade_data : list (string * param)) (db db1 : t) (trade_id : Z) :
  add_trade trade_data db = (Ok trade_id, db1) ->
  let new := {| row_id := trade_id;
                row_vals := map (fun kv => bind_param (snd kv)) trade_data |} in
  let asked := get_trades str_filters now_check now_store limit filters in
  _cache db1 = ∅
  /\ fst (asked db1) = select_trades limit filters (trades db ++ [new])
  /\ (forall results,
         fst (asked db1) = Ok results ->
         matches (conditions filters) new = true ->
         ((limit < 0)%Z
          \/ (Z.of_nat (length (List.filter (matches (conditions filters)) (trades db)))
              < limit)%Z ->
          In new results)
         /\ (limit <> 0%Z ->
             (forall x, In x (trades db) ->
                        sql_ltb (col_value x "timestamp")
                                (col_value new "timestamp") = true) ->
             exists rest, results = new :: rest))
  /\ (forall gone,
         _cache (snd (delete_trade gone db)) = ∅
         /\ fst (asked (snd (delete_trade gone db)))
            = select_trades limit filters (trades (snd (delete_trade gone db)))).
Proof.
  intros Hadd new asked.
  apply add_trade_ok in Hadd as (Htr & Hc & _). fold new in Htr.
  assert (Hfresh : fst (asked db1) = select_trades limit filters (trades db ++ [new])).
  { unfold asked. rewrite get_trades_empty_cache by exact Hc. now rewrite Htr. }
  split; [exact Hc|]. split; [exact Hfresh|]. split.
  - intros results Hres Hm. rewrite Hfresh in Hres.
    unfold select_trades in Hres.
    destruct (forallb _ (conditions filters)); [|discriminate].
    injection Hres as <-.
    rewrite List.filter_app. cbn [List.filter]. rewrite Hm. split.
    + intros Hroom. rewrite sql_limit_all.
      * apply In_order_by_timestamp_desc, in_or_app. right. now left.
      * rewrite length_order_by_timestamp_desc, length_app. cbn [length]. lia.
    + intros Hlimit Hnewest.
      rewrite order_by_timestamp_desc_newest.
      * now apply sql_limit_head.
      * intros x Hx. apply filter_In in Hx as [Hx _]. now apply Hnewest.
  - intros gone. split; [reflexivity|].
    unfold asked. now rewrite get_trades_empty_cache.
Qed.

End Query.

(** ** The cache over any sequence of calls *)

Section Runs.

Import TradeDB.

Variable str_filters : option (list (string * param)) -> string.

Lemma cache_current_new_connection (table : list row) (seq : Z) :
  cache_current str_filters (new_connection table seq).
Proof. intros key e H. cbn in H. now rewrite lookup_empty in H. Qed.

Lemma cache_current_empty (db : t) :
  _cache db = ∅ -> cache_current str_filters db.
Proof. intros H key e He. now rewrite H, lookup_empty in He. Qed.

(** No call breaks it: the writes empty the cache, and a read stores
    what it has just selected. *)
Lemma cache_current_after_call (db : t) (c : call) :
  cache_current str_filters db ->
  cache_current str_filters (after_call str_filters db c).
Proof.
  intros Hdb. destruct c as [trade_data | trade_id | now_check now_store limit filters];
    cbn [after_call].
  - unfold add_trade. destruct (_ =? 18)%nat; [|exact Hdb].
    now apply cache_current_empty.
  - now apply cache_current_empty.
  - unfold get_trades.
    assert (Hfetch :
      cache_current str_filters
        (snd match select_trades limit filters (trades db) with
             | Raise e => (Raise e, db)
             | Ok results =>
                 (Ok results,
                  {| trades := trades db;
                     sqlite_sequence := sqlite_sequence db;
                     total_changes := total_changes db;
                     _cache := <[ cache_key str_filters limit filters :=
                                    {| timestamp := now_store; data := results |} ]>
                                 (_cache db) |})
             end)).
    { destruct (select_trades limit filters (trades db)) as [results|err] eqn:Hsel;
        [|exact Hdb].
      intros key e He. cbn [snd _cache trades] in *.
      apply lookup_insert_Some in He as [[<- <-] | [_ He]].
      - exists limit, filters. now split.
      - now apply Hdb. }
    destruct (_cache db !! cache_key str_filters limit filters) as [e|];
      [|exact Hfetch].
    destruct (_ <? _cache_expiry)%Z; [exact Hdb | exact Hfetch].
Qed.

Lemma cache_current_after_calls (calls : list call) (db : t) :
  cache_current str_filters db ->
  cache_current str_filters (after_calls str_filters db calls).
Proof.
  unfold after_calls. revert db.
  induction calls as [|c calls IH]; intros db Hdb; cbn [fold_left]; [exact Hdb|].
  apply IH. now apply cache_current_after_call.
Qed.

(** After any sequence of calls on a new connection, what [get_trades]
    returns is what the table gives now, to a query with the same cache
    key: never the answer of a table that has since been written to. *)
Lemma get_trades_never_stale (table : list row) (seq : Z) (calls : list call)
    (now_check now_store limit : Z) (filters : option (list (string * param)))
    (results : list row) :
  let db := after_calls str_filters (new_connection table seq) calls in
  fst (get_trades str_filters now_check now_store limit filters db) = Ok results ->
  exists limit' filters',
    cache_key str_filters limit' filters' = cache_key str_filters limit filters
    /\ select_trades limit' filters' (trades db) = Ok results.
Proof.
  intros db Hget.
  assert (Hdb : cache_current str_filters db)
    by apply cache_current_after_calls, cache_current_new_connection.
  unfold get_trades in Hget.
  assert (Hfetch : forall now,
    fst match select_trades limit filters (trades db) with
        | Raise e => (Raise e, db)
        | Ok rs =>
            (Ok rs,
             {| trades := trades db;
                sqlite_sequence := sqlite_sequence db;
                total_changes := total_changes db;
                _cache := <[ cache_key str_filters limit filters :=
                               {| timestamp := now; data := rs |} ]> (_cache db) |})
        end = Ok results ->
    select_trades limit filters (trades db) = Ok results).
  { intros now H. destruct (select_trades limit filters (trades db)); exact H. }
  destruct (_cache db !! cache_key str_filters limit filters) as [e|] eqn:Hkey.
  - destruct (_ <? _cache_expiry)%Z.
    + cbn [fst] in Hget. injection Hget as <-.
      destruct (Hdb _ _ Hkey) as (limit' & filters' & Heq & Hsel).
      exists limit', filters'. now split.
    + exists limit, filters. split; [reflexivity|]. now apply (Hfetch now_store).
  - exists limit, filters. split; [reflexivity|]. now apply (Hfetch now_store).
Qed.

End Runs.

Lemma write_then_query_is_fresh_witness :
  let old := Sample.stored 1 "2025-01-01T09:00:00" TradeDB.SqlNull in
  let db0 := TradeDB.new_connection [old] 1 in
  let cached := snd (TradeDB.get_trades Sample.str_filters 0 0 200 None db0) in
  let db1 := snd (TradeDB.add_trade (Sample.open_trade "2025-01-01T10:00:00") cached) in
  fst (TradeDB.get_trades Sample.str_filters 0 0 200 None db0) = Ok [old]
  /\ cached.(TradeDB._cache) !! "trades_200_None"
     = Some {| TradeDB.timestamp := 0%Z; TradeDB.data := [old] |}
  /\ exists new,
      TradeDB.row_id new = 2%Z
      /\ fst (TradeDB.get_trades Sample.str_filters 1 1 200 None db1) = Ok [new; old].
Proof.
  cbn zeta.
  split; [reflexivity|]. split; [reflexivity|].
  pose proof (write_then_query_is_fresh Sample.str_filters 1 1 200 None
                (Sample.open_trade "2025-01-01T10:00:00")
                (snd (TradeDB.get_trades Sample.str_filters 0 0 200 None
                        (TradeDB.new_connection
                           [Sample.stored 1 "2025-01-01T09:00:00" TradeDB.SqlNull] 1)))
                _ 2%Z eq_refl) as (_ & Hfresh & _).
  exists {| TradeDB.row_id := 2;
            TradeDB.row_vals :=
              map (fun kv => TradeDB.bind_param (snd kv))
                  (Sample.open_trade "2025-01-01T10:00:00") |}.
  split; [reflexivity|].
  etransitivity; [exact Hfresh|reflexivity].
Defined.

(** ** What is stored for the derived fields *)

Lemma pips_if_given_Some (entry pip_size : pyfloat) (price : option pyfloat)
    (direction : string) :
  is_zero pip_size = false ->
  exists pips,
    trade_tracker.pips_if_given entry price pip_size direction = Ok pips
    /\ (pips = None <-> price = None).
Proof.
  intros Hs. destruct price as [p|]; cbn [trade_tracker.pips_if_given].
  - rewrite calc_pips_general. unfold TradeCalculator.calc_pips.
    destruct (String.eqb direction "Long");
      rewrite py_truediv_ok by exact Hs; cbn [bind];
      eexists; (split; [reflexivity|]); split; discriminate.
  - exists None. now split.
Qed.

Lemma usd_if_given_None (pips : option pyfloat) (pip_val lots : pyfloat) :
  trade_tracker.usd_if_given pips pip_val lots = None <-> pips = None.
Proof. destruct pips; cbn; split; congruence. Qed.

(** In [trade_tracker.py] each derived field is absent exactly when its
    input price is: a price that is present, zero included, gives a
    value, zero included. *)
Lemma trade_tracker_derived_absent_iff
    (entry lots pip_size pip_val : pyfloat) (stop tp exit_price : option pyfloat)
    (direction : string) :
  is_zero pip_size = false ->
  exists d,
    trade_tracker.save_trade_derived entry stop tp exit_price lots pip_size
                                     pip_val direction = Ok d
    /\ (trade_tracker.pips_to_sl d = None <-> stop = None)
    /\ (trade_tracker.usd_to_sl d = None <-> stop = None)
    /\ (trade_tracker.pips_to_tp d = None <-> tp = None)
    /\ (trade_tracker.usd_to_tp d = None <-> tp = None)
    /\ (trade_tracker.realized_pips d = None <-> exit_price = None)
    /\ (trade_tracker.realized_usd d = None <-> exit_price = None).
Proof.
  intros Hs. unfold trade_tracker.save_trade_derived.
  destruct (pips_if_given_Some entry pip_size stop direction Hs) as (sl & -> & Hsl).
  destruct (pips_if_given_Some entry pip_size tp direction Hs) as (tpp & -> & Htp).
  destruct (pips_if_given_Some entry pip_size exit_price direction Hs) as (rp & -> & Hrp).
  cbn [bind]. eexists. split; [reflexivity|].
  cbn. rewrite !usd_if_given_None. tauto.
Qed.

(** In [trade_tracker_1.py] a trade closed at its entry price has its
    realized pips computed as zero and, zero being false, no realized
    USD. *)
Lemma TradeTrackerApp_derived_break_even (entry lots pip_size pip_value : Q)
    (direction : string) :
  ~ entry == 0 -> ~ pip_size == 0 ->
  exists d q,
    TradeTrackerApp.save_trade_derived (Fin entry) None None (Some (Fin entry))
      (Fin lots) (Fin pip_size) (Fin pip_value) direction = Ok d
    /\ TradeTrackerApp.realized_pips d = Some (Fin q) /\ q == 0
    /\ TradeTrackerApp.realized_usd d = None.
Proof.
  intros He Hs. unfold TradeTrackerApp.save_trade_derived.
  cbn [TradeTrackerApp.pips_if bind]. unfold truthy at 1.
  apply is_zero_Fin_false in He as ->. cbn [negb].
  rewrite TradeCalculator_calc_pips_Fin by exact Hs. cbn [bind].
  eexists. eexists. split; [reflexivity|]. cbn.
  assert (Hq : (if String.eqb direction "Long"
                then (entry - entry) / pip_size
                else (entry - entry) / pip_size) == 0).
  { destruct (String.eqb direction "Long"); field; exact Hs. }
  split; [reflexivity|]. split; [exact Hq|].
  unfold truthy. apply is_zero_Fin in Hq. now rewrite Hq.
Qed.

(** C7 (the code departs from it). Saving, through
    [TradeTrackerApp.save_trade] of [trade_tracker_1.py], a trade whose
    exit price equals its entry price stores one row whose [exit] is the
    price, whose [realized_pips] is zero and whose [realized_usd] is
    NULL; the assignments of [trade_tracker.py] give zero for the
    realized USD of the same trade. *)
Theorem save_trade_break_even_stores_null_realized_usd :
  let saved := TradeTrackerApp.save_trade "2025-01-01T10:00:00" Sample.break_even
                 (TradeDB.new_connection [] 0) in
  fst saved = Ok (Some 1%Z)
  /\ (exists r q,
         TradeDB.trades (snd saved) = [r]
         /\ TradeDB.col_value r "exit" = TradeDB.SqlReal (Fin 1900)
         /\ TradeDB.col_value r "realized_pips" = TradeDB.SqlReal (Fin q) /\ q == 0
         /\ TradeDB.col_value r "realized_usd" = TradeDB.SqlNull)
  /\ (exists d u,
         trade_tracker.save_trade_derived (Fin 1900) None None (Some (Fin 1900))
           (Fin 1) (Fin (1 # 100)) (Fin 1) "Long" = Ok d
         /\ trade_tracker.realized_usd d = Some (Fin u) /\ u == 0).
Proof.
  cbn zeta. split; [reflexivity|]. split.
  - eexists. eexists. split; [reflexivity|]. repeat split.
  - eexists. eexists. split; [reflexivity|]. repeat split.
Qed.

(** ** The dashboard metrics *)

Lemma feq_refl (x : pyfloat) : feq x x.
Proof. destruct x; cbn; [reflexivity | exact I..]. Qed.

Lemma feq_trans (x y z : pyfloat) : feq x y -> feq y z -> feq x z.
Proof.
  destruct x, y, z; cbn; try tauto. intros H1 H2. now rewrite H1.
Qed.

(** [x or 0] is the number [x]. *)
Lemma or_zero_feq (x : pyfloat) : feq (TradeTrackerApp.or_zero x) x.
Proof.
  unfold TradeTrackerApp.or_zero, truthy.
  destruct (is_zero x) eqn:E; cbn [negb]; [|apply feq_refl].
  destruct x as [q| | |]; try discriminate E.
  apply is_zero_Fin in E. cbn. now symmetry.
Qed.

(** C4, the claim as stated fails: of two records, one with a realized
    USD of 10 and one without, [update_dashboard] makes a win rate of
    1/2, where the claim divides by the one record whose realized USD is
    defined and has 1. *)
Lemma update_dashboard_win_rate_counts_all_records :
  let records := [ Sample.stored 1 "2025-01-01T09:00:00"
                                 (TradeDB.SqlReal (Fin 10));
                   Sample.stored 2 "2025-01-01T10:00:00" TradeDB.SqlNull ] in
  exists m,
    TradeTrackerApp.update_dashboard records = Some m
    /\ feq (TradeTrackerApp.win_rate m) (Fin (1 # 2))
    /\ feq (Spec.win_rate_spec records) (Fin 1)
    /\ ~ feq (TradeTrackerApp.win_rate m) (Spec.win_rate_spec records).
Proof.
  cbn zeta. eexists. split; [reflexivity|].
  repeat split; cbn; intros H; discriminate H.
Qed.

(** The mean of no losses is [nan], and [nan or 0] is [nan]. *)
Example update_dashboard_avg_loss_nan :
  exists m,
    TradeTrackerApp.update_dashboard
      [ Sample.stored 1 "2025-01-01T09:00:00" (TradeDB.SqlReal (Fin 10)) ] = Some m
    /\ TradeTrackerApp.avg_loss m = NaN.
Proof. eexists. split; reflexivity. Qed.

(** C4, amended. On the empty sequence [update_dashboard] computes
    nothing.  On any other, with a missing realized USD counted as 0,
    the total is the sum, the win rate is the number of positive values
    over the number of all records, and the average win and loss are the
    means of the positive and of the negative values where there are
    any. *)
Theorem update_dashboard_metrics (trades : list TradeDB.row) :
  let col := map TradeTrackerApp.realized_usd_cell trades in
  let wins := List.filter (fun x => py_gtb x (Fin 0)) col in
  let losses := List.filter (fun x => py_ltb x (Fin 0)) col in
  TradeTrackerApp.update_dashboard [] = None
  /\ (trades <> [] ->
      exists m,
        TradeTrackerApp.update_dashboard trades = Some m
        /\ TradeTrackerApp.total_profit m = TradeTrackerApp.series_sum col
        /\ TradeTrackerApp.win_rate m
           = fdiv (TradeTrackerApp.of_nat (length wins))
                  (TradeTrackerApp.of_nat (length trades))
        /\ (wins <> [] ->
            feq (TradeTrackerApp.avg_win m)
                (fdiv (TradeTrackerApp.series_sum wins)
                      (TradeTrackerApp.of_nat (length wins))))
        /\ (losses <> [] ->
            feq (TradeTrackerApp.avg_loss m)
                (fdiv (TradeTrackerApp.series_sum losses)
                      (TradeTrackerApp.of_nat (length losses))))).
Proof.
  cbn zeta. split; [reflexivity|]. intros Hne.
  destruct trades as [|r rest]; [congruence|].
  eexists. split; [reflexivity|]. cbn [TradeTrackerApp.total_profit
    TradeTrackerApp.win_rate TradeTrackerApp.avg_win TradeTrackerApp.avg_loss].
  split; [reflexivity|]. split.
  - rewrite length_map. reflexivity.
  - split; intros Hsome.
    + eapply eq_ind; [apply or_zero_feq|].
      unfold TradeTrackerApp.series_mean.
      destruct (List.filter _ _); [congruence|reflexivity].
    + eapply eq_ind; [apply or_zero_feq|].
      unfold TradeTrackerApp.series_mean.
      destruct (List.filter _ _); [congruence|reflexivity].
Qed.

Lemma update_dashboard_metrics_witness :
  let records := [ Sample.stored 1 "2025-01-01T09:00:00" (TradeDB.SqlReal (Fin 10));
                   Sample.stored 2 "2025-01-01T10:00:00" TradeDB.SqlNull;
                   Sample.stored 3 "2025-01-01T11:00:00" (TradeDB.SqlReal (Fin (-4))) ] in
  exists m,
    TradeTrackerApp.update_dashboard records = Some m
    /\ feq (TradeTrackerApp.total_profit m) (Fin 6)
    /\ feq (TradeTrackerApp.win_rate m) (Fin (1 # 3))
    /\ feq (TradeTrackerApp.avg_win m) (Fin 10)
    /\ feq (TradeTrackerApp.avg_loss m) (Fin (-4)).
Proof.
  cbn zeta.
  destruct (proj2 (update_dashboard_metrics
                     [ Sample.stored 1 "2025-01-01T09:00:00" (TradeDB.SqlReal (Fin 10));
                       Sample.stored 2 "2025-01-01T10:00:00" TradeDB.SqlNull;
                       Sample.stored 3 "2025-01-01T11:00:00"
                                     (TradeDB.SqlReal (Fin (-4))) ]))
    as (m & Hm & Htotal & Hrate & Hwin & Hloss); [discriminate|].
  exists m. split; [exact Hm|].
  split; [rewrite Htotal; reflexivity|].
  split; [rewrite Hrate; reflexivity|].
  split.
  - eapply feq_trans; [apply Hwin; discriminate|reflexivity].
  - eapply feq_trans; [apply Hloss; discriminate|reflexivity].
Defined.

(** * Further properties of the code *)

(** ** Signs and the inverse solve *)

Lemma Qdiv_pos_iff (a s : Q) : 0 < s -> (0 < a / s <-> 0 < a).
Proof.
  intros Hs.
  assert (Hne : ~ s == 0) by (intros E; rewrite E in Hs; discriminate Hs).
  split; intros H.
  - assert (E : a / s * s == a) by (field; exact Hne).
    rewrite <- E. now apply Qmult_lt_0_compat.
  - apply Qmult_lt_0_compat; [exact H|now apply Qinv_lt_0_compat].
Qed.

Lemma Qmult_pos_iff (a s : Q) : 0 < s -> (0 < a * s <-> 0 < a).
Proof.
  intros Hs.
  assert (Hne : ~ s == 0) by (intros E; rewrite E in Hs; discriminate Hs).
  split; intros H; [|now apply Qmult_lt_0_compat].
  assert (E : a * s / s == a) by (field; exact Hne).
  rewrite <- E. now apply Qdiv_pos_iff.
Qed.

Lemma py_gtb_Fin0 (q : Q) : py_gtb (Fin q) (Fin 0) = true <-> 0 < q.
Proof.
  unfold py_gtb, py_ltb. rewrite negb_true_iff.
  destruct (Qle_bool q 0) eqn:E.
  - apply Qle_bool_iff in E. split; [discriminate|].
    intros H. now apply Qlt_not_le in H.
  - split; [intros _|reflexivity]. apply Qnot_le_lt. intros H.
    apply Qle_bool_iff in H. congruence.
Qed.

Lemma py_ltb_Fin0 (q : Q) : py_ltb (Fin q) (Fin 0) = true <-> q < 0.
Proof.
  unfold py_ltb. rewrite negb_true_iff.
  destruct (Qle_bool 0 q) eqn:E.
  - apply Qle_bool_iff in E. split; [discriminate|].
    intros H. now apply Qlt_not_le in H.
  - split; [intros _|reflexivity]. apply Qnot_le_lt. intros H.
    apply Qle_bool_iff in H. congruence.
Qed.

(** The movement in the trade's favour: up for "Long", down for any
    other direction. *)
Lemma calc_pips_favourable (entry price pip_size : Q) (direction : string) :
  ~ pip_size == 0 ->
  let gain := if String.eqb direction "Long" then price - entry else entry - price in
  TradeCalculator.calc_pips (Fin entry) (Fin price) (Fin pip_size) direction
  = Ok (Fin (gain / pip_size)).
Proof.
  intros Hs. cbn zeta. rewrite TradeCalculator_calc_pips_Fin by exact Hs.
  now destruct (String.eqb direction "Long").
Qed.

(** X1. The sign convention of [calc_pips], in both files: with a positive
    pip size the pips are positive exactly when the price has moved in
    the trade's favour, zero exactly at the entry price, negative
    exactly when it has moved against. *)
Theorem calc_pips_sign (entry price pip_size : Q) (direction : string) :
  0 < pip_size ->
  let gain := if String.eqb direction "Long" then price - entry else entry - price in
  exists pips,
    TradeCalculator.calc_pips (Fin entry) (Fin price) (Fin pip_size) direction = Ok pips
    /\ trade_tracker.calc_pips (PyFloat (Fin entry)) (PyFloat (Fin price))
                               (PyFloat (Fin pip_size)) direction = Ok (Some pips)
    /\ (py_gtb pips (Fin 0) = true <-> 0 < gain)
    /\ (py_eqb pips (Fin 0) = true <-> price == entry)
    /\ (py_ltb pips (Fin 0) = true <-> gain < 0).
Proof.
  intros Hs gain.
  assert (Hne : ~ pip_size == 0) by (intros E; rewrite E in Hs; discriminate Hs).
  exists (Fin (gain / pip_size)).
  rewrite calc_pips_general, calc_pips_favourable by exact Hne. fold gain.
  split; [reflexivity|]. split; [reflexivity|].
  rewrite py_gtb_Fin0, py_eqb_Fin, py_ltb_Fin0.
  split; [now apply Qdiv_pos_iff|]. split.
  - split; intros H.
    + assert (E : gain == 0).
      { assert (E' : gain / pip_size * pip_size == gain) by (field; exact Hne).
        rewrite <- E', H. ring. }
      subst gain. destruct (String.eqb direction "Long").
      * rewrite <- (Qplus_0_l entry), <- E. ring.
      * rewrite <- (Qplus_0_l price), <- E. ring.
    + assert (E : gain == 0).
      { subst gain. destruct (String.eqb direction "Long"); rewrite H; ring. }
      rewrite E. field. exact Hne.
  - assert (E : - (gain / pip_size) == (- gain) / pip_size) by (field; exact Hne).
    split; intros H.
    + apply Qopp_lt_compat in H. rewrite E in H.
      apply Qdiv_pos_iff in H; [|exact Hs].
      apply Qopp_lt_compat in H. now rewrite Qopp_involutive in H.
    + apply Qopp_lt_compat in H.
      change (- 0) with 0 in H.
      apply (Qdiv_pos_iff _ _ Hs) in H. rewrite <- E in H.
      apply Qopp_lt_compat in H. now rewrite Qopp_involutive in H.
Qed.

Lemma calc_pips_sign_witness :
  exists pips,
    TradeCalculator.calc_pips (Fin 1900) (Fin 1895) (Fin (1 # 100)) "Long" = Ok pips
    /\ py_ltb pips (Fin 0) = true.
Proof.
  destruct (calc_pips_sign 1900 1895 (1 # 100) "Long" eq_refl)
    as (pips & H1 & _ & _ & _ & H5).
  exists pips. split; [exact H1|]. apply H5. reflexivity.
Defined.

Lemma Qpos_neq0 (q : Q) : 0 < q -> ~ q == 0.
Proof. intros H E. rewrite E in H. discriminate H. Qed.

(** ** The ledger: ids *)

Section Ids.

Import TradeDB.

Variable str_filters : option (list (string * param)) -> string.

Lemma max_rowid_ge (rs : list row) (r : row) :
  In r rs -> (row_id r <= max_rowid rs)%Z.
Proof.
  induction rs as [|x rs IH]; cbn [In max_rowid fold_right]; [tauto|].
  intros [<- | H]; [lia|]. specialize (IH H). unfold max_rowid in IH. lia.
Qed.

(** A read changes neither the table nor the counters. *)
Lemma get_trades_reads_only (now_check now_store limit : Z)
    (filters : option (list (string * param))) (db : t) :
  let db' := snd (get_trades str_filters now_check now_store limit filters db) in
  trades db' = trades db
  /\ sqlite_sequence db' = sqlite_sequence db
  /\ total_changes db' = total_changes db.
Proof.
  unfold get_trades.
  destruct (_cache db !! cache_key str_filters limit filters) as [e|];
    [destruct (now_check - timestamp e <? _cache_expiry)%Z|];
    destruct (select_trades limit filters (trades db)); repeat split.
Qed.

Lemma add_trade_id (trade_data : list (string * param)) (db db1 : t) (trade_id : Z) :
  add_trade trade_data db = (Ok trade_id, db1) ->
  (sqlite_sequence db < trade_id)%Z
  /\ (forall r, In r (trades db) -> (row_id r < trade_id)%Z)
  /\ sqlite_sequence db1 = trade_id.
Proof.
  unfold add_trade. destruct (_ =? 18)%nat; [|discriminate].
  intros H. injection H as <- <-. split; [lia|]. split; [|reflexivity].
  intros r Hr. apply max_rowid_ge in Hr. lia.
Qed.

Lemma add_trade_raise (trade_data : list (string * param)) (db : t) :
  (exists trade_id db1,
      add_trade trade_data db = (Ok trade_id, db1)
      /\ trades db1 = trades db
                        ++ [ {| row_id := trade_id;
                                row_vals := map (fun kv => bind_param (snd kv))
                                                trade_data |} ])
  \/ add_trade trade_data db = (Raise ProgrammingError, db).
Proof.
  unfold add_trade. destruct (_ =? 18)%nat; [left|now right].
  eexists. eexists. split; reflexivity.
Qed.

(** The counter never goes down. *)
Lemma sqlite_sequence_after_call (db : t) (c : call) :
  (sqlite_sequence db <= sqlite_sequence (after_call str_filters db c))%Z.
Proof.
  destruct c as [trade_data | trade_id | now_check now_store limit filters];
    cbn [after_call].
  - destruct (add_trade_raise trade_data db) as [(i & db1 & H & _) | H];
      rewrite H; cbn [snd]; [|lia].
    apply add_trade_id in H as (H1 & _ & H3). lia.
  - cbn. lia.
  - destruct (get_trades_reads_only now_check now_store limit filters db)
      as (_ & -> & _). lia.
Qed.

Lemma ids_bounded_after_call (db : t) (c : call) :
  ids_bounded db -> ids_bounded (after_call str_filters db c).
Proof.
  intros Hb. destruct c as [trade_data | trade_id | now_check now_store limit filters];
    cbn [after_call].
  - destruct (add_trade_raise trade_data db) as [(i & db1 & H & Htr) | H];
      rewrite H; cbn [snd]; [|exact Hb].
    apply add_trade_id in H as (H1 & H2 & H3).
    intros r Hr. rewrite Htr in Hr. rewrite H3.
    apply in_app_or in Hr as [Hr | [<- | []]]; [|cbn; lia].
    specialize (H2 r Hr). lia.
  - intros r Hr. apply delete_trade_removes in Hr as [Hr _]. now apply Hb.
  - destruct (get_trades_reads_only now_check now_store limit filters db)
      as (Ht & Hs & _).
    intros r Hr. rewrite Ht in Hr. rewrite Hs. now apply Hb.
Qed.

Lemma ids_bounded_after_calls (calls : list call) (db : t) :
  ids_bounded db ->
  ids_bounded (after_calls str_filters db calls)
  /\ (sqlite_sequence db <= sqlite_sequence (after_calls str_filters db calls))%Z.
Proof.
  unfold after_calls. revert db.
  induction calls as [|c calls IH]; intros db Hb; cbn [fold_left]; [split; [exact Hb|lia]|].
  destruct (IH _ (ids_bounded_after_call db c Hb)) as [H1 H2].
  split; [exact H1|].
  pose proof (sqlite_sequence_after_call db c). lia.
Qed.

(** X5. An id is given out once: whatever calls come in between, deletions
    included, the id that [add_trade] returns is above every id that
    was in the table before them. *)
Theorem add_trade_never_reuses_an_id
    (db db' : t) (calls : list call) (trade_data : list (string * param))
    (trade_id : Z) :
  ids_bounded db ->
  add_trade trade_data (after_calls str_filters db calls) = (Ok trade_id, db') ->
  forall r, In r (trades db) -> (row_id r < trade_id)%Z.
Proof.
  intros Hb Hadd r Hr.
  destruct (ids_bounded_after_calls calls db Hb) as [_ Hseq].
  apply add_trade_id in Hadd as (H1 & _ & _).
  specialize (Hb r Hr). lia.
Qed.

Lemma NoDup_map_filter (f : row -> bool) (l : list row) :
  List.NoDup (map row_id l) -> List.NoDup (map row_id (List.filter f l)).
Proof.
  induction l as [|x l IH]; cbn [map List.filter]; [trivial|].
  intros H. inversion H as [|? ? Hnotin Hnd]; subst.
  destruct (f x); cbn [map]; [|now apply IH].
  constructor; [|now apply IH].
  intros Hin. apply Hnotin.
  apply in_map_iff in Hin as (y & Hy & Hin). apply filter_In in Hin as [Hin _].
  apply in_map_iff. now exists y.
Qed.

Lemma ids_distinct_after_call (db : t) (c : call) :
  ids_distinct db -> ids_distinct (after_call str_filters db c).
Proof.
  unfold ids_distinct. intros Hd.
  destruct c as [trade_data | trade_id | now_check now_store limit filters];
    cbn [after_call].
  - destruct (add_trade_raise trade_data db) as [(i & db1 & H & Htr) | H];
      rewrite H; cbn [snd]; [|exact Hd].
    apply add_trade_id in H as (_ & H2 & _).
    rewrite Htr, map_app. cbn [map row_id].
    apply List.NoDup_app; [exact Hd|repeat constructor; intros []|].
    intros a Ha [<- | []].
    apply in_map_iff in Ha as (r & Hr & Hin). specialize (H2 r Hin). lia.
  - rewrite delete_trade_trades. now apply NoDup_map_filter.
  - now destruct (get_trades_reads_only now_check now_store limit filters db)
      as (-> & _ & _).
Qed.

(** X6. The ids of the table stay pairwise distinct through any sequence of
    calls. *)
Theorem ids_stay_distinct (db : t) (calls : list call) :
  ids_distinct db -> ids_distinct (after_calls str_filters db calls).
Proof.
  unfold after_calls. revert db.
  induction calls as [|c calls IH]; intros db Hd; cbn [fold_left]; [exact Hd|].
  apply IH. now apply ids_distinct_after_call.
Qed.

End Ids.

Lemma add_trade_never_reuses_an_id_witness :
  let db := TradeDB.new_connection
              [ Sample.stored 1 "2025-01-01T09:00:00" TradeDB.SqlNull;
                Sample.stored 2 "2025-01-01T10:00:00" TradeDB.SqlNull ] 2 in
  fst (TradeDB.add_trade (Sample.open_trade "2025-01-01T11:00:00")
         (TradeDB.after_calls Sample.str_filters db [TradeDB.DeleteTrade 2]))
  = Ok 3%Z
  /\ forall r, In r (TradeDB.trades db) -> (TradeDB.row_id r < 3)%Z.
Proof.
  cbn zeta. split; [reflexivity|].
  apply (add_trade_never_reuses_an_id Sample.str_filters
           (TradeDB.new_connection
              [ Sample.stored 1 "2025-01-01T09:00:00" TradeDB.SqlNull;
                Sample.stored 2 "2025-01-01T10:00:00" TradeDB.SqlNull ] 2)
           (snd (TradeDB.add_trade (Sample.open_trade "2025-01-01T11:00:00")
                   (TradeDB.after_calls Sample.str_filters
                      (TradeDB.new_connection
                         [ Sample.stored 1 "2025-01-01T09:00:00" TradeDB.SqlNull;
                           Sample.stored 2 "2025-01-01T10:00:00" TradeDB.SqlNull ] 2)
                      [TradeDB.DeleteTrade 2])))
           [TradeDB.DeleteTrade 2]
           (Sample.open_trade "2025-01-01T11:00:00") 3%Z).
  - intros r [<- | [<- | []]]; cbn; lia.
  - reflexivity.
Defined.

Lemma ids_stay_distinct_witness :
  TradeDB.ids_distinct
    (TradeDB.after_calls Sample.str_filters
       (TradeDB.new_connection
          [ Sample.stored 1 "2025-01-01T09:00:00" TradeDB.SqlNull ] 1)
       [ TradeDB.AddTrade (Sample.open_trade "2025-01-01T10:00:00");
         TradeDB.DeleteTrade 1;
         TradeDB.AddTrade (Sample.open_trade "2025-01-01T11:00:00") ]).
Proof.
  apply ids_stay_distinct. repeat constructor. intros [].
Defined.

(** ** The ledger: what a query returns *)

Section Answers.

Import TradeDB.

Variable str_filters : option (list (string * param)) -> string.

Lemma In_firstn (n : nat) (l : list row) (x : row) :
  In x (firstn n l) -> In x l.
Proof.
  revert l. induction n as [|n IH]; intros [|y l]; cbn [firstn In]; try tauto.
  intros [H|H]; [now left|right; now apply IH].
Qed.

Lemma In_sql_limit (n : Z) (l : list row) (x : row) :
  In x (sql_limit n l) -> In x l.
Proof.
  unfold sql_limit. destruct (n <? 0)%Z; [trivial|apply In_firstn].
Qed.

Lemma length_sql_limit (n : Z) (l : list row) :
  (0 <= n)%Z -> (Z.of_nat (length (sql_limit n l)) <= n)%Z.
Proof.
  intros Hn. unfold sql_limit.
  destruct (n <? 0)%Z eqn:E; [apply Z.ltb_lt in E; lia|].
  pose proof (firstn_le_length (Z.to_nat n) l). lia.
Qed.

(** The rows a SELECT gives are rows of the table that pass every
    condition, at most [limit] of them. *)
Lemma select_trades_sound (limit : Z) (filters : option (list (string * param)))
    (table rs : list row) :
  select_trades limit filters table = Ok rs ->
  (forall r, In r rs -> In r table /\ matches (conditions filters) r = true)
  /\ ((0 <= limit)%Z -> (Z.of_nat (length rs) <= limit)%Z).
Proof.
  unfold select_trades.
  destruct (forallb _ (conditions filters)); [|discriminate].
  intros H. injection H as <-. split.
  - intros r Hr. apply In_sql_limit in Hr.
    apply (proj1 (In_order_by_timestamp_desc _ _)) in Hr.
    now apply filter_In in Hr.
  - apply length_sql_limit.
Qed.

(** In a store whose cache is current, the answer of [get_trades] is the
    answer of the table as it is. *)
Lemma get_trades_current (now_check now_store limit : Z)
    (filters : option (list (string * param))) (db : t) (rs : list row) :
  cache_current str_filters db ->
  fst (get_trades str_filters now_check now_store limit filters db) = Ok rs ->
  exists limit' filters',
    cache_key str_filters limit' filters' = cache_key str_filters limit filters
    /\ select_trades limit' filters' (trades db) = Ok rs.
Proof.
  intros Hdb Hget. unfold get_trades in Hget.
  destruct (_cache db !! cache_key str_filters limit filters) as [e|] eqn:Hkey.
  - destruct (now_check - timestamp e <? _cache_expiry)%Z.
    + cbn [fst] in Hget. injection Hget as <-.
      destruct (Hdb _ _ Hkey) as (limit' & filters' & Heq & Hsel).
      exists limit', filters'. now split.
    + exists limit, filters. split; [reflexivity|].
      destruct (select_trades limit filters (trades db)); exact Hget.
  - exists limit, filters. split; [reflexivity|].
    destruct (select_trades limit filters (trades db)); exact Hget.
Qed.


(** X8. Asking again: once [get_trades] has answered, the same query asked
    within five minutes of the time the answer was stored gets the same
    answer and leaves the store as it is; asked later, it is answered
    from the table.  A hit does not restart the five minutes. *)
Theorem get_trades_repeat (now_check now_store limit : Z)
    (filters : option (list (string * param))) (db : t) (rs : list row) :
  let db1 := snd (get_trades str_filters now_check now_store limit filters db) in
  fst (get_trades str_filters now_check now_store limit filters db) = Ok rs ->
  exists e,
    _cache db1 !! cache_key str_filters limit filters = Some e
    /\ data e = rs
    /\ (forall now now',
           (now - timestamp e < _cache_expiry)%Z ->
           get_trades str_filters now now' limit filters db1 = (Ok rs, db1))
    /\ (forall now now',
           (_cache_expiry <= now - timestamp e)%Z ->
           fst (get_trades str_filters now now' limit filters db1)
           = select_trades limit filters (trades db)).
Proof.
  intros db1 Hget.
  assert (Hentry : exists e,
             _cache db1 !! cache_key str_filters limit filters = Some e
             /\ data e = rs /\ trades db1 = trades db).
  { subst db1. unfold get_trades in *.
    destruct (_cache db !! cache_key str_filters limit filters) as [e|] eqn:Hkey;
      [destruct (now_check - timestamp e <? _cache_expiry)%Z|].
    - cbn [fst snd] in *. injection Hget as <-. exists e. now repeat split.
    - destruct (select_trades limit filters (trades db)) as [results|];
        [|discriminate Hget].
      cbn [fst snd _cache trades] in *. injection Hget as <-.
      eexists. rewrite lookup_insert_eq. now repeat split.
    - destruct (select_trades limit filters (trades db)) as [results|];
        [|discriminate Hget].
      cbn [fst snd _cache trades] in *. injection Hget as <-.
      eexists. rewrite lookup_insert_eq. now repeat split. }
  destruct Hentry as (e & He & Hdata & Htr).
  exists e. split; [exact He|]. split; [exact Hdata|]. split.
  - intros now now' Hfresh. unfold get_trades. rewrite He.
    apply Z.ltb_lt in Hfresh. rewrite Hfresh. now rewrite Hdata.
  - intros now now' Hold. unfold get_trades. rewrite He.
    apply Z.ltb_ge in Hold. rewrite Hold, Htr.
    destruct (select_trades limit filters (trades db)); reflexivity.
Qed.

(** X9. A deleted trade is gone for good: whatever calls follow the delete,
    further adds included, no answer of [get_trades] has a row with that
    id, provided the id was not above the AUTOINCREMENT counter. *)
Theorem deleted_id_never_returns (gone : Z) (db : t) (calls : list call)
    (now_check now_store limit : Z) (filters : option (list (string * param)))
    (rs : list row) :
  (gone <= sqlite_sequence db)%Z ->
  let db' := after_calls str_filters (snd (delete_trade gone db)) calls in
  fst (get_trades str_filters now_check now_store limit filters db') = Ok rs ->
  forall r, In r rs -> row_id r <> gone.
Proof.
  intros Hseq db' Hget r Hr.
  assert (Hinv : forall cs d,
             ((forall x, In x (trades d) -> row_id x <> gone)
              /\ (gone <= sqlite_sequence d)%Z) ->
             (forall x, In x (trades (after_calls str_filters d cs)) -> row_id x <> gone)).
  { unfold after_calls. induction cs as [|c cs IH]; intros d [Hd Hs]; cbn [fold_left];
      [exact Hd|].
    apply IH. split.
    - destruct c as [trade_data | trade_id | a b l f]; cbn [after_call].
      + destruct (add_trade_raise trade_data d) as [(i & d1 & H & Htr) | H];
          rewrite H; cbn [snd]; [|exact Hd].
        apply add_trade_id in H as (H1 & _ & _).
        intros x Hx. rewrite Htr in Hx.
        apply in_app_or in Hx as [Hx | [<- | []]]; [now apply Hd|cbn; lia].
      + intros x Hx. apply delete_trade_removes in Hx as [Hx _]. now apply Hd.
      + destruct (get_trades_reads_only str_filters a b l f d) as (-> & _ & _).
        exact Hd.
    - pose proof (sqlite_sequence_after_call str_filters d c). lia. }
  assert (Hcur : cache_current str_filters db').
  { apply cache_current_after_calls, cache_current_empty. reflexivity. }
  destruct (get_trades_current _ _ _ _ _ _ Hcur Hget) as (l' & f' & _ & Hsel).
  apply select_trades_sound in Hsel as [Hsound _].
  apply Hsound in Hr as [Hr _].
  revert Hr. apply Hinv. split; [|exact Hseq].
  intros x Hx. now apply delete_trade_removes in Hx as [_ Hx].
Qed.

End Answers.


Lemma get_trades_repeat_witness :
  let old := Sample.stored 1 "2025-01-01T09:00:00" TradeDB.SqlNull in
  let db := TradeDB.new_connection [old] 1 in
  let db1 := snd (TradeDB.get_trades Sample.str_filters 0 0 200 None db) in
  TradeDB.get_trades Sample.str_filters 299999999 299999999 200 None db1
  = (Ok [old], db1).
Proof.
  cbn zeta.
  destruct (get_trades_repeat Sample.str_filters 0 0 200 None
              (TradeDB.new_connection
                 [Sample.stored 1 "2025-01-01T09:00:00" TradeDB.SqlNull] 1)
              [Sample.stored 1 "2025-01-01T09:00:00" TradeDB.SqlNull] eq_refl)
    as (e & He & _ & Hhit & _).
  apply Hhit. cbn in He. injection He as <-. reflexivity.
Defined.

Lemma deleted_id_never_returns_witness :
  let db := TradeDB.new_connection
              [ Sample.stored 1 "2025-01-01T09:00:00" TradeDB.SqlNull;
                Sample.stored 2 "2025-01-01T10:00:00" TradeDB.SqlNull ] 2 in
  let db' := TradeDB.after_calls Sample.str_filters
               (snd (TradeDB.delete_trade 2 db))
               [ TradeDB.AddTrade (Sample.open_trade "2025-01-01T11:00:00") ] in
  exists rs,
    fst (TradeDB.get_trades Sample.str_filters 0 0 200 None db') = Ok rs
    /\ length rs = 2%nat
    /\ forall r, In r rs -> TradeDB.row_id r <> 2%Z.
Proof.
  cbn zeta. eexists. split; [reflexivity|]. split; [reflexivity|].
  apply (deleted_id_never_returns Sample.str_filters 2
           (TradeDB.new_connection
              [ Sample.stored 1 "2025-01-01T09:00:00" TradeDB.SqlNull;
                Sample.stored 2 "2025-01-01T10:00:00" TradeDB.SqlNull ] 2)
           [ TradeDB.AddTrade (Sample.open_trade "2025-01-01T11:00:00") ]
           0 0 200 None).
  - cbn. lia.
  - reflexivity.
Defined.

(** ** The cache key *)

Lemma length_string_app (s t : string) :
  String.length (s +:+ t) = (String.length s + String.length t)%nat.
Proof. induction s as [|c s IH]; simpl; [reflexivity|now f_equal]. Qed.

Lemma string_app_cancel_r (s1 s2 t : string) :
  s1 +:+ t = s2 +:+ t -> s1 = s2.
Proof.
  revert s2. induction s1 as [|c s1 IH]; intros [|d s2] H.
  - reflexivity.
  - apply (f_equal String.length) in H.
    rewrite !length_string_app in H. simpl in H. lia.
  - apply (f_equal String.length) in H.
    rewrite !length_string_app in H. simpl in H. lia.
  - simpl in H. injection H as <- H. f_equal. now apply IH.
Qed.

Section Keys.

Import TradeDB.

Variable str_filters : option (list (string * param)) -> string.

(** With the same filters, two limits give two keys. *)
Lemma cache_key_limit (limit1 limit2 : Z) (filters : option (list (string * param))) :
  cache_key str_filters limit1 filters = cache_key str_filters limit2 filters ->
  limit1 = limit2.
Proof.
  unfold cache_key. intros H.
  apply (String.app_inj "trades_") in H.
  apply string_app_cancel_r in H.
  now apply pretty_Z_inj in H.
Qed.

(** X10. An answer cached for one limit is not given to a query with another
    limit: after a query with [limit1] on an empty cache, the same
    filters asked with a different [limit2] are answered from the
    table. *)
Theorem get_trades_other_limit (now1 now1' now2 now2' limit1 limit2 : Z)
    (filters : option (list (string * param))) (db : t) :
  _cache db = ∅ ->
  limit1 <> limit2 ->
  fst (get_trades str_filters now2 now2' limit2 filters
         (snd (get_trades str_filters now1 now1' limit1 filters db)))
  = select_trades limit2 filters (trades db).
Proof.
  intros Hempty Hne.
  assert (Hkey : cache_key str_filters limit1 filters
                 <> cache_key str_filters limit2 filters)
    by (intros E; now apply cache_key_limit in E).
  unfold get_trades at 2. rewrite Hempty, lookup_empty.
  destruct (select_trades limit1 filters (trades db)) as [rs1|] eqn:H1; cbn [snd].
  - unfold get_trades. cbn [_cache trades].
    rewrite lookup_insert_ne by exact Hkey. rewrite lookup_empty.
    destruct (select_trades limit2 filters (trades db)); reflexivity.
  - now apply get_trades_empty_cache.
Qed.

End Keys.

Lemma get_trades_other_limit_witness :
  let db := TradeDB.new_connection
              [ Sample.stored 1 "2025-01-01T09:00:00" TradeDB.SqlNull;
                Sample.stored 2 "2025-01-01T10:00:00" TradeDB.SqlNull ] 2 in
  fst (TradeDB.get_trades Sample.str_filters 1 1 200 None
         (snd (TradeDB.get_trades Sample.str_filters 0 0 1 None db)))
  = Ok [ Sample.stored 2 "2025-01-01T10:00:00" TradeDB.SqlNull;
         Sample.stored 1 "2025-01-01T09:00:00" TradeDB.SqlNull ].
Proof.
  cbn zeta.
  etransitivity;
    [apply (get_trades_other_limit Sample.str_filters 0 0 1 1 1 200 None);
     [reflexivity|discriminate]|reflexivity].
Defined.

(** ** The dashboard: ranges *)

Lemma of_nat_pos (n : nat) : (0 < n)%nat -> 0 < inject_Z (Z.of_nat n).
Proof. intros H. rewrite <- (Zlt_Qlt 0). lia. Qed.

Lemma fdiv_of_nat (a : Q) (n : nat) :
  (0 < n)%nat ->
  fdiv (Fin a) (TradeTrackerApp.of_nat n) = Fin (a / inject_Z (Z.of_nat n)).
Proof.
  intros Hn. unfold TradeTrackerApp.of_nat.
  apply fdiv_Fin, Qpos_neq0, of_nat_pos, Hn.
Qed.

(** X11. The win rate is a number between 0 and 1. *)
Theorem win_rate_between_0_and_1 (trades : list TradeDB.row) :
  trades <> [] ->
  exists m q,
    TradeTrackerApp.update_dashboard trades = Some m
    /\ TradeTrackerApp.win_rate m = Fin q
    /\ 0 <= q /\ q <= 1.
Proof.
  intros Hne. destruct trades as [|r rest]; [congruence|].
  eexists. eexists. split; [reflexivity|].
  cbn [TradeTrackerApp.win_rate length map Nat.ltb Nat.leb].
  unfold TradeTrackerApp.of_nat at 1.
  rewrite fdiv_of_nat by lia. split; [reflexivity|].
  match goal with
  | |- context [List.filter ?f ?l] =>
      pose proof (List.filter_length_le f l) as Hw; cbn [length] in Hw;
      set (w := length (List.filter f l)) in *
  end.
  assert (Hpos : 0 < inject_Z (Z.of_nat (S (length (map TradeTrackerApp.realized_usd_cell rest)))))
    by (apply of_nat_pos; lia).
  split.
  - apply Qle_shift_div_l; [exact Hpos|].
    rewrite Qmult_0_l. rewrite <- (Zle_Qle 0). lia.
  - apply Qle_shift_div_r; [exact Hpos|].
    rewrite Qmult_1_l. rewrite <- Zle_Qle. lia.
Qed.

Lemma win_rate_between_0_and_1_witness :
  exists m q,
    TradeTrackerApp.update_dashboard
      [ Sample.stored 1 "2025-01-01T09:00:00" (TradeDB.SqlReal (Fin 10));
        Sample.stored 2 "2025-01-01T10:00:00" TradeDB.SqlNull ] = Some m
    /\ TradeTrackerApp.win_rate m = Fin q
    /\ 0 <= q /\ q <= 1.
Proof.
  apply win_rate_between_0_and_1. discriminate.
Defined.

(** A float above zero: a positive rational or [inf]. *)
Lemma py_gtb_0_cases (x : pyfloat) :
  py_gtb x (Fin 0) = true <-> (exists q, x = Fin q /\ 0 < q) \/ x = PInf.
Proof.
  destruct x as [q| | |].
  - rewrite py_gtb_Fin0. split.
    + intros H. left. now exists q.
    + intros [(q' & E & H) | E]; [now injection E as ->|discriminate].
  - split; [now right|reflexivity].
  - split; [discriminate|]. intros [(q & E & _) | E]; discriminate.
  - split; [discriminate|]. intros [(q & E & _) | E]; discriminate.
Qed.

Lemma py_ltb_0_cases (x : pyfloat) :
  py_ltb x (Fin 0) = true <-> (exists q, x = Fin q /\ q < 0) \/ x = NInf.
Proof.
  destruct x as [q| | |].
  - rewrite py_ltb_Fin0. split.
    + intros H. left. now exists q.
    + intros [(q' & E & H) | E]; [now injection E as ->|discriminate].
  - split; [discriminate|]. intros [(q & E & _) | E]; discriminate.
  - split; [now right|reflexivity].
  - split; [discriminate|]. intros [(q & E & _) | E]; discriminate.
Qed.

Lemma fadd_above (acc x : pyfloat) :
  acc = Fin 0 \/ py_gtb acc (Fin 0) = true ->
  py_gtb x (Fin 0) = true ->
  py_gtb (fadd acc x) (Fin 0) = true.
Proof.
  intros Hacc Hx. apply py_gtb_0_cases in Hx.
  destruct Hacc as [-> | Hacc].
  - destruct Hx as [(q & -> & Hq) | ->]; [|reflexivity].
    cbn [fadd]. apply py_gtb_Fin0. now rewrite Qplus_0_l.
  - apply py_gtb_0_cases in Hacc.
    destruct Hacc as [(a & -> & Ha) | ->], Hx as [(q & -> & Hq) | ->];
      try reflexivity.
    cbn [fadd]. apply py_gtb_Fin0.
    apply Qlt_trans with (0 + q); [now rewrite Qplus_0_l|].
    apply Qplus_lt_l. exact Ha.
Qed.

Lemma fadd_below (acc x : pyfloat) :
  acc = Fin 0 \/ py_ltb acc (Fin 0) = true ->
  py_ltb x (Fin 0) = true ->
  py_ltb (fadd acc x) (Fin 0) = true.
Proof.
  intros Hacc Hx. apply py_ltb_0_cases in Hx.
  destruct Hacc as [-> | Hacc].
  - destruct Hx as [(q & -> & Hq) | ->]; [|reflexivity].
    cbn [fadd]. apply py_ltb_Fin0. now rewrite Qplus_0_l.
  - apply py_ltb_0_cases in Hacc.
    destruct Hacc as [(a & -> & Ha) | ->], Hx as [(q & -> & Hq) | ->];
      try reflexivity.
    cbn [fadd]. apply py_ltb_Fin0.
    apply Qlt_trans with (0 + q); [|now rewrite Qplus_0_l].
    apply Qplus_lt_l. exact Ha.
Qed.

(** The sum of values above zero, not none, is above zero; likewise
    below. *)
Lemma series_sum_above (xs : list pyfloat) :
  xs <> [] ->
  (forall x, In x xs -> py_gtb x (Fin 0) = true) ->
  py_gtb (TradeTrackerApp.series_sum xs) (Fin 0) = true.
Proof.
  unfold TradeTrackerApp.series_sum. intros Hne Hall.
  assert (Hgen : forall l acc,
             (forall x, In x l -> py_gtb x (Fin 0) = true) ->
             py_gtb acc (Fin 0) = true ->
             py_gtb (fold_left fadd l acc) (Fin 0) = true).
  { induction l as [|y l IH]; intros acc Hl Hacc; cbn [fold_left]; [exact Hacc|].
    apply IH; [intros x Hx; apply Hl; now right|].
    apply fadd_above; [now right|apply Hl; now left]. }
  destruct xs as [|y xs]; [congruence|]. cbn [fold_left].
  apply Hgen; [intros x Hx; apply Hall; now right|].
  apply fadd_above; [now left|apply Hall; now left].
Qed.

Lemma series_sum_below (xs : list pyfloat) :
  xs <> [] ->
  (forall x, In x xs -> py_ltb x (Fin 0) = true) ->
  py_ltb (TradeTrackerApp.series_sum xs) (Fin 0) = true.
Proof.
  unfold TradeTrackerApp.series_sum. intros Hne Hall.
  assert (Hgen : forall l acc,
             (forall x, In x l -> py_ltb x (Fin 0) = true) ->
             py_ltb acc (Fin 0) = true ->
             py_ltb (fold_left fadd l acc) (Fin 0) = true).
  { induction l as [|y l IH]; intros acc Hl Hacc; cbn [fold_left]; [exact Hacc|].
    apply IH; [intros x Hx; apply Hl; now right|].
    apply fadd_below; [now right|apply Hl; now left]. }
  destruct xs as [|y xs]; [congruence|]. cbn [fold_left].
  apply Hgen; [intros x Hx; apply Hall; now right|].
  apply fadd_below; [now left|apply Hall; now left].
Qed.

Lemma series_mean_above (xs : list pyfloat) :
  xs <> [] ->
  (forall x, In x xs -> py_gtb x (Fin 0) = true) ->
  py_gtb (TradeTrackerApp.or_zero (TradeTrackerApp.series_mean xs)) (Fin 0) = true.
Proof.
  intros Hne Hall. pose proof (series_sum_above xs Hne Hall) as Hsum.
  assert (Hlen : (0 < length xs)%nat) by (destruct xs; [congruence|cbn; lia]).
  assert (Hmean : py_gtb (TradeTrackerApp.series_mean xs) (Fin 0) = true).
  { unfold TradeTrackerApp.series_mean. destruct xs as [|y xs]; [congruence|].
    apply py_gtb_0_cases in Hsum as [(q & -> & Hq) | ->].
    - rewrite fdiv_of_nat by exact Hlen. apply py_gtb_Fin0.
      apply Qdiv_pos_iff; [now apply of_nat_pos|exact Hq].
    - reflexivity. }
  unfold TradeTrackerApp.or_zero, truthy.
  apply py_gtb_0_cases in Hmean as Hc.
  destruct Hc as [(q & E & Hq) | E]; rewrite E in *; [|reflexivity].
  apply Qpos_neq0, is_zero_Fin_false in Hq as ->. exact Hmean.
Qed.

Lemma series_mean_below (xs : list pyfloat) :
  xs <> [] ->
  (forall x, In x xs -> py_ltb x (Fin 0) = true) ->
  py_ltb (TradeTrackerApp.or_zero (TradeTrackerApp.series_mean xs)) (Fin 0) = true.
Proof.
  intros Hne Hall. pose proof (series_sum_below xs Hne Hall) as Hsum.
  assert (Hlen : (0 < length xs)%nat) by (destruct xs; [congruence|cbn; lia]).
  assert (Hmean : py_ltb (TradeTrackerApp.series_mean xs) (Fin 0) = true).
  { unfold TradeTrackerApp.series_mean. destruct xs as [|y xs]; [congruence|].
    apply py_ltb_0_cases in Hsum as [(q & -> & Hq) | ->].
    - rewrite fdiv_of_nat by exact Hlen. apply py_ltb_Fin0.
      apply Qopp_lt_compat in Hq. change (- 0) with 0 in Hq.
      apply (proj2 (Qdiv_pos_iff (- q) _ (of_nat_pos _ Hlen))) in Hq.
      apply Qopp_lt_compat in Hq. change (- 0) with 0 in Hq.
      assert (E : - (- q / inject_Z (Z.of_nat (length (y :: xs))))
                  == q / inject_Z (Z.of_nat (length (y :: xs)))).
      { field. apply Qpos_neq0, of_nat_pos, Hlen. }
      now rewrite E in Hq.
    - reflexivity. }
  unfold TradeTrackerApp.or_zero, truthy.
  apply py_ltb_0_cases in Hmean as Hc.
  destruct Hc as [(q & E & Hq) | E]; rewrite E in *; [|reflexivity].
  assert (Hq0 : ~ q == 0) by (intros E0; rewrite E0 in Hq; discriminate Hq).
  apply is_zero_Fin_false in Hq0 as ->. exact Hmean.
Qed.

(** X12. The average win is [nan] exactly when no record has a positive
    realized USD, and is above zero otherwise; the average loss is [nan]
    exactly when no record has a negative one, and is below zero
    otherwise.  Neither is ever 0. *)
Theorem averages_nan_exactly_when_no_such_trade (trades : list TradeDB.row) :
  trades <> [] ->
  let col := map TradeTrackerApp.realized_usd_cell trades in
  let wins := List.filter (fun x => py_gtb x (Fin 0)) col in
  let losses := List.filter (fun x => py_ltb x (Fin 0)) col in
  exists m,
    TradeTrackerApp.update_dashboard trades = Some m
    /\ (TradeTrackerApp.avg_win m = NaN <-> wins = [])
    /\ (wins <> [] -> py_gtb (TradeTrackerApp.avg_win m) (Fin 0) = true)
    /\ (TradeTrackerApp.avg_loss m = NaN <-> losses = [])
    /\ (losses <> [] -> py_ltb (TradeTrackerApp.avg_loss m) (Fin 0) = true).
Proof.
  intros Hne col wins losses.
  destruct trades as [|r rest]; [congruence|].
  eexists. split; [reflexivity|].
  cbn [TradeTrackerApp.avg_win TradeTrackerApp.avg_loss]. fold col wins losses.
  assert (Hw : wins <> [] ->
               py_gtb (TradeTrackerApp.or_zero (TradeTrackerApp.series_mean wins))
                      (Fin 0) = true).
  { intros H. apply series_mean_above; [exact H|].
    intros x Hx. now apply filter_In in Hx as [_ Hx]. }
  assert (Hl : losses <> [] ->
               py_ltb (TradeTrackerApp.or_zero (TradeTrackerApp.series_mean losses))
                      (Fin 0) = true).
  { intros H. apply series_mean_below; [exact H|].
    intros x Hx. now apply filter_In in Hx as [_ Hx]. }
  split; [|split; [exact Hw|split; [|exact Hl]]].
  - split.
    + intros E. destruct wins as [|w ws] eqn:Ew; [reflexivity|].
      assert (H : w :: ws <> []) by discriminate.
      apply Hw in H. rewrite E in H. discriminate H.
    + intros ->. reflexivity.
  - split.
    + intros E. destruct losses as [|w ws] eqn:Ew; [reflexivity|].
      assert (H : w :: ws <> []) by discriminate.
      apply Hl in H. rewrite E in H. discriminate H.
    + intros ->. reflexivity.
Qed.

Lemma averages_nan_exactly_when_no_such_trade_witness :
  exists m,
    TradeTrackerApp.update_dashboard
      [ Sample.stored 1 "2025-01-01T09:00:00" (TradeDB.SqlReal (Fin 10));
        Sample.stored 2 "2025-01-01T10:00:00" TradeDB.SqlNull ] = Some m
    /\ py_gtb (TradeTrackerApp.avg_win m) (Fin 0) = true
    /\ TradeTrackerApp.avg_loss m = NaN.
Proof.
  destruct (averages_nan_exactly_when_no_such_trade
              [ Sample.stored 1 "2025-01-01T09:00:00" (TradeDB.SqlReal (Fin 10));
                Sample.stored 2 "2025-01-01T10:00:00" TradeDB.SqlNull ])
    as (m & Hm & _ & Hwin & Hloss & _); [discriminate|].
  exists m. split; [exact Hm|]. split.
  - apply Hwin. discriminate.
  - apply Hloss. reflexivity.
Defined.

(** ** Saving from the window *)

Section Saving.

Import TradeDB TradeTrackerApp.

(** No instrument of the table has a pip size of zero. *)
Lemma INSTRUMENTS_pip_not_zero (inst : string) (info : instrument) :
  getitem INSTRUMENTS inst = Ok info -> is_zero (pip info) = false.
Proof.
  unfold INSTRUMENTS. cbn [getitem].
  repeat (destruct (String.eqb inst _); [intros H; injection H as <-; reflexivity|]).
  discriminate.
Qed.

Lemma pips_if_ok (entry pip_size : pyfloat) (price : option pyfloat)
    (direction : string) :
  is_zero pip_size = false ->
  exists o, pips_if entry price pip_size direction = Ok o.
Proof.
  intros Hs. unfold pips_if, TradeCalculator.calc_pips.
  destruct price as [p|]; [|now eexists].
  destruct (truthy p); [|now eexists].
  destruct (String.eqb direction "Long");
    rewrite py_truediv_ok by exact Hs; now eexists.
Qed.

Lemma save_trade_derived_ok (entry lots pip_size pip_value : pyfloat)
    (stop tp exit_price : option pyfloat) (direction : string) :
  is_zero pip_size = false ->
  exists d, save_trade_derived entry stop tp exit_price lots pip_size pip_value
                               direction = Ok d.
Proof.
  intros Hs. unfold save_trade_derived.
  destruct (pips_if_ok entry pip_size stop direction Hs) as (sl & ->).
  destruct (pips_if_ok entry pip_size tp direction Hs) as (tpp & ->).
  destruct (pips_if_ok entry pip_size exit_price direction Hs) as (rp & ->).
  cbn [bind]. now eexists.
Qed.

(** An optional box is read when it is empty or holds a number. *)
Lemma _validate_float_optional (value : entry_text) (o : option pyfloat) :
  _validate_float value false None = Ok o <->
  (value = Blank /\ o = None) \/ (exists x, value = Numeral x /\ o = Some x).
Proof.
  destruct value as [|x|]; cbn; split.
  - intros H. injection H as <-. now left.
  - intros [[_ ->] | (x & E & _)]; [reflexivity|discriminate].
  - intros H. injection H as <-. right. now exists x.
  - intros [[E _] | (y & E & ->)]; [discriminate|now injection E as ->].
  - discriminate.
  - intros [[E _] | (y & E & _)]; discriminate.
Qed.

(** A required box is read when it holds a number; the default is not
    looked at. *)
Lemma _validate_float_required (value : entry_text) (default o : option pyfloat) :
  _validate_float value true default = Ok o <-> exists x, value = Numeral x /\ o = Some x.
Proof.
  destruct value as [|x|]; cbn; split.
  - discriminate.
  - intros (y & E & _). discriminate.
  - intros H. injection H as <-. now exists x.
  - intros (y & E & ->). now injection E as ->.
  - discriminate.
  - intros (y & E & _). discriminate.
Qed.

(** What a stored trade went through: every box was readable, the pip
    value was defined, and the row appended holds the inputs and the
    derived fields. *)
Lemma save_trade_stored (now : string) (inputs0 : inputs) (db db' : t) (trade_id : Z) :
  save_trade now inputs0 db = (Ok (Some trade_id), db') ->
  exists info entry lots contract_size quote_rate stop tp exit_price pip_value d,
    getitem INSTRUMENTS (instrument_var inputs0) = Ok info
    /\ entry_var inputs0 = Numeral entry
    /\ lots_var inputs0 = Numeral lots
    /\ contract_var inputs0 = Numeral contract_size
    /\ _validate_float (stop_var inputs0) false None = Ok stop
    /\ _validate_float (tp_var inputs0) false None = Ok tp
    /\ _validate_float (exit_var inputs0) false None = Ok exit_price
    /\ _validate_float (quote_rate_var inputs0) (negb (quote_usd info)) (Some (Fin 1))
       = Ok (Some quote_rate)
    /\ TradeCalculator.pip_value_usd (pip info) contract_size (quote_usd info) quote_rate
       = Ok pip_value
    /\ save_trade_derived entry stop tp exit_price lots (pip info) pip_value
                          (direction_var inputs0) = Ok d
    /\ add_trade
         [ ("timestamp", PStr now);
           ("instrument", PStr (instrument_var inputs0));
           ("direction", PStr (direction_var inputs0));
           ("entry", PFloat entry);
           ("stop", param_of stop);
           ("target", param_of tp);
           ("exit", param_of exit_price);
           ("lots", PFloat lots);
           ("contract_size", PFloat contract_size);
           ("pip_size", PFloat (pip info));
           ("quote_to_usd", PFloat quote_rate);
           ("pips_to_sl", param_of (pips_sl d));
           ("usd_to_sl", param_of (usd_sl d));
           ("pips_to_tp", param_of (pips_tp d));
           ("usd_to_tp", param_of (usd_tp d));
           ("realized_pips", param_of (realized_pips d));
           ("realized_usd", param_of (realized_usd d));
           ("notes", PStr (notes_var inputs0)) ] db
       = (Ok trade_id, db').
Proof.
  unfold save_trade, save_trade_body. intros H.
  destruct (getitem INSTRUMENTS (instrument_var inputs0)) as [info|e] eqn:Hinfo;
    cbn [bind] in H; [|destruct e; discriminate H].
  destruct (_validate_float (entry_var inputs0) true None) as [entry|e] eqn:Hentry;
    cbn [bind] in H; [|destruct e; discriminate H].
  destruct (_validate_float (stop_var inputs0) false None) as [stop|e] eqn:Hstop;
    cbn [bind] in H; [|destruct e; discriminate H].
  destruct (_validate_float (tp_var inputs0) false None) as [tp|e] eqn:Htp;
    cbn [bind] in H; [|destruct e; discriminate H].
  destruct (_validate_float (exit_var inputs0) false None) as [exit_price|e] eqn:Hexit;
    cbn [bind] in H; [|destruct e; discriminate H].
  destruct (_validate_float (lots_var inputs0) true None) as [lots|e] eqn:Hlots;
    cbn [bind] in H; [|destruct e; discriminate H].
  destruct (_validate_float (contract_var inputs0) true (Some (contract info)))
    as [contract_size|e] eqn:Hcontract;
    cbn [bind] in H; [|destruct e; discriminate H].
  destruct (_validate_float (quote_rate_var inputs0) (negb (quote_usd info))
                            (Some (Fin 1))) as [quote_rate|e] eqn:Hrate;
    cbn [bind] in H; [|destruct e; discriminate H].
  apply _validate_float_required in Hentry as (entry' & Hentry & ->).
  apply _validate_float_required in Hlots as (lots' & Hlots & ->).
  apply _validate_float_required in Hcontract as (contract' & Hcontract & ->).
  destruct quote_rate as [rate|]; cbn [as_float bind] in H; [|discriminate H].
  destruct (TradeCalculator.pip_value_usd (pip info) contract' (quote_usd info) rate)
    as [pip_value|e] eqn:Hpv; cbn [bind] in H; [|destruct e; discriminate H].
  destruct (save_trade_derived entry' stop tp exit_price lots' (pip info) pip_value
                               (direction_var inputs0)) as [d|e] eqn:Hd;
    cbn [bind] in H; [|destruct e; discriminate H].
  cbn [param_of] in H.
  destruct (add_trade _ db) as [[id|e] db1] eqn:Hadd; [|destruct e; discriminate H].
  injection H as <- <-.
  exists info, entry', lots', contract', rate, stop, tp, exit_price, pip_value, d.
  repeat (split; [first [reflexivity | assumption]|]). exact Hadd.
Qed.

End Saving.

Section SavingRules.

Import TradeDB TradeTrackerApp.

(** X13. [save_trade] stores a trade exactly when the instrument is in the
    table, entry, lots and contract size are numbers, stop, target and
    exit are numbers or empty, and the quote rate is a number or empty
    for a USD quote, a number other than zero otherwise.  The contract
    size of the instrument is no substitute for an empty box. *)
Theorem save_trade_stores_exactly_when (now : string) (inputs0 : inputs) (db : t) :
  (exists trade_id, fst (save_trade now inputs0 db) = Ok (Some trade_id))
  <->
  (exists info entry lots contract_size,
      getitem INSTRUMENTS (instrument_var inputs0) = Ok info
      /\ entry_var inputs0 = Numeral entry
      /\ lots_var inputs0 = Numeral lots
      /\ contract_var inputs0 = Numeral contract_size
      /\ stop_var inputs0 <> Unreadable
      /\ tp_var inputs0 <> Unreadable
      /\ exit_var inputs0 <> Unreadable
      /\ (if quote_usd info
          then quote_rate_var inputs0 <> Unreadable
          else exists rate, quote_rate_var inputs0 = Numeral rate
                            /\ is_zero rate = false)).
Proof.
  split.
  - intros (trade_id & H).
    destruct (save_trade now inputs0 db) as [res db'] eqn:Hsave. cbn [fst] in H.
    subst res. apply save_trade_stored in Hsave
      as (info & entry & lots & contract_size & rate & stop & tp & exit_price
          & pv & d & Hinfo & He & Hl & Hc & Hstop & Htp & Hexit & Hrate & Hpv & _).
    exists info, entry, lots, contract_size.
    repeat (split; [assumption|]).
    assert (Hopt : forall v o, _validate_float v false None = Ok o -> v <> Unreadable)
      by (intros v o Hv ->; discriminate Hv).
    split; [now apply Hopt in Hstop|]. split; [now apply Hopt in Htp|].
    split; [now apply Hopt in Hexit|].
    destruct (quote_usd info) eqn:Hq; cbn [negb] in Hrate.
    + intros E. rewrite E in Hrate. discriminate Hrate.
    + apply _validate_float_required in Hrate as (x & Hx & E). injection E as <-.
      exists rate. split; [exact Hx|].
      unfold TradeCalculator.pip_value_usd, py_truediv in Hpv.
      destruct (is_zero rate); [discriminate Hpv|reflexivity].
  - intros (info & entry & lots & contract_size & Hinfo & He & Hl & Hc
            & Hstop & Htp & Hexit & Hrate).
    assert (Hopt : forall v, v <> Unreadable ->
                             exists o, _validate_float v false None = Ok o).
    { intros [|x|] Hv; [now eexists|now eexists|congruence]. }
    destruct (Hopt _ Hstop) as (stop & Hs). destruct (Hopt _ Htp) as (tp & Ht).
    destruct (Hopt _ Hexit) as (exit_price & Hx).
    assert (Hq : exists rate pv,
               _validate_float (quote_rate_var inputs0) (negb (quote_usd info))
                               (Some (Fin 1)) = Ok (Some rate)
               /\ TradeCalculator.pip_value_usd (pip info) contract_size
                                                (quote_usd info) rate = Ok pv).
    { unfold TradeCalculator.pip_value_usd, py_truediv.
      destruct (quote_usd info); cbn [negb].
      - destruct (quote_rate_var inputs0) as [|x|]; [| |congruence];
          eexists; eexists; split; reflexivity.
      - destruct Hrate as (rate & -> & Hz). exists rate. rewrite Hz.
        eexists. split; reflexivity. }
    destruct Hq as (rate & pv & Hr & Hpv).
    destruct (save_trade_derived_ok entry lots (pip info) pv stop tp exit_price
                (direction_var inputs0) (INSTRUMENTS_pip_not_zero _ _ Hinfo))
      as (d & Hd).
    unfold save_trade, save_trade_body.
    rewrite Hinfo, He, Hl, Hc, Hs, Ht, Hx. cbn [bind _validate_float].
    rewrite Hr. cbn [bind as_float]. rewrite Hpv. cbn [bind]. rewrite Hd.
    cbn [bind]. unfold add_trade. cbn [map length Nat.eqb fst].
    now eexists.
Qed.

(** A stored trade is one new row at the end of the table, under an id
    above every id in it. *)
Lemma save_trade_stores_a_row (now : string) (inputs0 : inputs) (db db' : t)
    (trade_id : Z) :
  save_trade now inputs0 db = (Ok (Some trade_id), db') ->
  exists r,
    db' = {| trades := trades db ++ [r];
             sqlite_sequence := trade_id;
             total_changes := (total_changes db + 1)%Z;
             _cache := ∅ |}
    /\ row_id r = trade_id
    /\ length (row_vals r) = 18%nat
    /\ (forall x, In x (trades db) -> (row_id x < trade_id)%Z).
Proof.
  intros Hsave. apply save_trade_stored in Hsave
    as (info & entry & lots & contract_size & rate & stop & tp & exit_price
        & pv & d & _ & _ & _ & _ & _ & _ & _ & _ & _ & _ & Hadd).
  pose proof (add_trade_id _ _ _ _ Hadd) as (_ & Hids & _).
  unfold add_trade in Hadd. cbn [map length Nat.eqb] in Hadd.
  injection Hadd as Hid <-. subst trade_id. eexists.
  split; [reflexivity|]. cbn [row_id row_vals length].
  split; [reflexivity|]. split; [reflexivity|exact Hids].
Qed.

(** A call that returns no id leaves the store as it was. *)
Lemma save_trade_without_id (now : string) (inputs0 : inputs) (db : t) :
  (forall trade_id, fst (save_trade now inputs0 db) <> Ok (Some trade_id)) ->
  snd (save_trade now inputs0 db) = db.
Proof.
  intros Hno. unfold save_trade in *.
  destruct (save_trade_body now inputs0 db) as [[i|e] db1] eqn:Hbody.
  { exfalso. now apply (Hno i). }
  assert (db1 = db) as ->.
  { unfold save_trade_body in Hbody.
    match type of Hbody with
    | match ?c with Ok _ => _ | Raise _ => _ end = _ =>
        destruct c as [td|e'] eqn:Hc
    end.
    - unfold add_trade in Hbody. destruct (_ =? 18)%nat; [discriminate Hbody|].
      now injection Hbody as _ <-.
    - now injection Hbody as _ <-. }
  now destruct e.
Qed.

(** X14. [save_trade] stores one row or changes nothing: when it returns an
    id, the table has one more row, with that id and eighteen values,
    and the cache is empty; in every other case, exceptions included,
    the store is as it was. *)
Theorem save_trade_all_or_nothing (now : string) (inputs0 : inputs) (db : t) :
  (exists trade_id r,
      save_trade now inputs0 db
      = (Ok (Some trade_id),
         {| trades := trades db ++ [r];
            sqlite_sequence := trade_id;
            total_changes := (total_changes db + 1)%Z;
            _cache := ∅ |})
      /\ row_id r = trade_id
      /\ length (row_vals r) = 18%nat
      /\ (forall x, In x (trades db) -> (row_id x < trade_id)%Z))
  \/ ((forall trade_id, fst (save_trade now inputs0 db) <> Ok (Some trade_id))
      /\ snd (save_trade now inputs0 db) = db).
Proof.
  destruct (save_trade now inputs0 db) as [res db'] eqn:Hsave.
  destruct res as [[trade_id|]|e].
  - left. destruct (save_trade_stores_a_row _ _ _ _ _ Hsave) as (r & -> & H).
    now exists trade_id, r.
  - right. split; [discriminate|].
    change db' with (snd (Ok (@None Z), db')). rewrite <- Hsave.
    apply save_trade_without_id. rewrite Hsave. discriminate.
  - right. split; [discriminate|].
    change db' with (snd (@Raise (option Z) e, db')). rewrite <- Hsave.
    apply save_trade_without_id. rewrite Hsave. discriminate.
Qed.

End SavingRules.

(** ** Preview and save *)

Section Preview.

Import TradeDB TradeTrackerApp.

Lemma pips_if_shown (entry pip_size pip_value lots : pyfloat)
    (price o : option pyfloat) (direction : string) :
  is_zero pip_size = false ->
  pips_if entry price pip_size direction = Ok o ->
  exists s,
    shown_if entry price pip_size pip_value lots direction = Ok s
    /\ (o = None \/ o = fst s)
    /\ (usd_if o pip_value lots = None \/ usd_if o pip_value lots = snd s).
Proof.
  intros Hs. unfold pips_if, shown_if, TradeCalculator.calc_pips.
  destruct price as [p|].
  - destruct (String.eqb direction "Long"); rewrite py_truediv_ok by exact Hs;
      cbn [bind]; (destruct (truthy p); intros H; injection H as <-;
                   eexists; (split; [reflexivity|]); cbn [fst snd usd_if];
                   [split; [now right|destruct (truthy _); [now right|now left]]
                   |split; now left]).
  - intros H. injection H as <-. eexists. split; [reflexivity|].
    split; now left.
Qed.

(** X15. What is stored is what was shown, or nothing: when [save_trade]
    stores a trade, [calculate] on the same boxes shows numbers, and
    each of the six derived columns of the stored row is either NULL or
    the number [calculate] shows for it. *)
Theorem save_trade_stores_what_calculate_shows
    (now : string) (inputs0 : inputs) (db db' : t) (trade_id : Z) :
  save_trade now inputs0 db = (Ok (Some trade_id), db') ->
  exists pip_value shown r,
    calculate inputs0 = Ok (Some (pip_value, shown))
    /\ trades db' = trades db ++ [r]
    /\ (forall column value,
           In (column, value)
              [ ("pips_to_sl", pips_sl shown); ("usd_to_sl", usd_sl shown);
                ("pips_to_tp", pips_tp shown); ("usd_to_tp", usd_tp shown);
                ("realized_pips", realized_pips shown);
                ("realized_usd", realized_usd shown) ] ->
           col_value r column = SqlNull
           \/ col_value r column = bind_param (param_of value)).
Proof.
  intros Hsave. apply save_trade_stored in Hsave
    as (info & entry & lots & contract_size & rate & stop & tp & exit_price
        & pv & d & Hinfo & He & Hl & Hc & Hstop & Htp & Hexit & Hrate & Hpv & Hd & Hadd).
  pose proof (INSTRUMENTS_pip_not_zero _ _ Hinfo) as Hpip.
  unfold save_trade_derived in Hd.
  destruct (pips_if entry stop (pip info) (direction_var inputs0)) as [sl|] eqn:Hsl;
    [|discriminate Hd].
  destruct (pips_if entry tp (pip info) (direction_var inputs0)) as [tpp|] eqn:Htpp;
    [|discriminate Hd].
  destruct (pips_if entry exit_price (pip info) (direction_var inputs0)) as [rp|] eqn:Hrp;
    [|discriminate Hd].
  cbn [bind] in Hd. injection Hd as <-.
  destruct (pips_if_shown entry (pip info) pv lots stop sl _ Hpip Hsl)
    as (s1 & Hs1 & Hp1 & Hu1).
  destruct (pips_if_shown entry (pip info) pv lots tp tpp _ Hpip Htpp)
    as (s2 & Hs2 & Hp2 & Hu2).
  destruct (pips_if_shown entry (pip info) pv lots exit_price rp _ Hpip Hrp)
    as (s3 & Hs3 & Hp3 & Hu3).
  unfold add_trade in Hadd. cbn [map length Nat.eqb snd] in Hadd.
  injection Hadd as _ <-.
  eexists. eexists. eexists. split; [|split; [reflexivity|]].
  - unfold calculate, calculate_body.
    rewrite Hinfo, He, Hl, Hc, Hstop, Htp, Hexit. cbn [bind _validate_float].
    rewrite Hrate. cbn [bind as_float]. rewrite Hpv. cbn [bind].
    unfold calculate_shown. rewrite Hs1, Hs2, Hs3. cbn [bind]. reflexivity.
  - cbn [pips_sl usd_sl pips_tp usd_tp realized_pips realized_usd].
    intros column value Hin.
    assert (Hnone : bind_param (param_of None) = SqlNull) by reflexivity.
    cbn [In] in Hin.
    destruct Hin as [E | [E | [E | [E | [E | [E | []]]]]]];
      injection E as <- <-; cbn.
    + destruct Hp1 as [-> | ->]; [now left|now right].
    + destruct Hu1 as [-> | ->]; [now left|now right].
    + destruct Hp2 as [-> | ->]; [now left|now right].
    + destruct Hu2 as [-> | ->]; [now left|now right].
    + destruct Hp3 as [-> | ->]; [now left|now right].
    + destruct Hu3 as [-> | ->]; [now left|now right].
Qed.

End Preview.

Lemma save_trade_stores_what_calculate_shows_witness :
  exists pip_value shown r,
    TradeTrackerApp.calculate Sample.break_even = Ok (Some (pip_value, shown))
    /\ TradeDB.trades
         (snd (TradeTrackerApp.save_trade "2025-01-01T10:00:00" Sample.break_even
                 (TradeDB.new_connection [] 0))) = [r]
    /\ TradeDB.col_value r "realized_usd" = TradeDB.SqlNull
    /\ exists u, TradeTrackerApp.realized_usd shown = Some (Fin u) /\ u == 0.
Proof.
  destruct (save_trade_stores_what_calculate_shows
              "2025-01-01T10:00:00" Sample.break_even (TradeDB.new_connection [] 0)
              (snd (TradeTrackerApp.save_trade "2025-01-01T10:00:00" Sample.break_even
                      (TradeDB.new_connection [] 0)))
              1%Z eq_refl)
    as (pv & shown & r & Hcalc & Htr & _).
  exists pv, shown, r. split; [exact Hcalc|]. split; [exact Htr|].
  cbn in Htr. injection Htr as <-.
  cbv in Hcalc. injection Hcalc as _ <-.
  split; [reflexivity|]. eexists. split; reflexivity.
Defined.

(** ** The window: instrument, save and delete *)

Section Window.

Import TradeDB TradeTrackerApp.

Variable str_filters : option (list (string * param)) -> string.

Lemma select_instrument_boxes (inst : string) (w : window) :
  instrument_var (ui (select_instrument inst w)) = inst
  /\ store (select_instrument inst w) = store w
  /\ (forall c, contract_var (ui w) = Numeral c ->
                contract_var (ui (select_instrument inst w)) = Numeral c).
Proof.
  unfold select_instrument, on_instrument_change. cbn [ui instrument_var].
  destruct (getitem INSTRUMENTS inst) as [info|];
    cbn [ui instrument_var store contract_var]; repeat split; trivial.
  now intros c ->.
Qed.

(** X16. A contract size already in its box survives a change of
    instrument: the trade saved after choosing another instrument is
    stored with that instrument's name and the old contract size. *)
Theorem contract_size_survives_instrument_change
    (inst now : string) (c : pyfloat) (w : window) (db' : t) (trade_id : Z) :
  contract_var (ui w) = Numeral c ->
  save_trade now (ui (select_instrument inst w)) (store w)
  = (Ok (Some trade_id), db') ->
  exists r info,
    getitem INSTRUMENTS inst = Ok info
    /\ trades db' = trades (store w) ++ [r]
    /\ col_value r "instrument" = SqlText inst
    /\ col_value r "contract_size" = bind_param (PFloat c)
    /\ col_value r "pip_size" = bind_param (PFloat (pip info)).
Proof.
  intros Hc Hsave.
  destruct (select_instrument_boxes inst w) as (Hinst & _ & Hkeep).
  specialize (Hkeep c Hc).
  apply save_trade_stored in Hsave
    as (info & entry & lots & contract_size & rate & stop & tp & exit_price
        & pv & d & Hinfo & _ & _ & Hc' & _ & _ & _ & _ & _ & _ & Hadd).
  rewrite Hinst in Hinfo, Hadd. rewrite Hkeep in Hc'. injection Hc' as <-.
  unfold add_trade in Hadd. cbn [map length Nat.eqb snd] in Hadd.
  injection Hadd as _ <-.
  eexists. exists info. split; [exact Hinfo|]. split; [reflexivity|].
  repeat split.
Qed.

(** With an empty contract box nothing is stored, whatever the other
    boxes hold. *)
Lemma save_trade_empty_contract_box (now : string) (inputs0 : inputs) (db : t) :
  contract_var inputs0 = Blank ->
  (forall trade_id, fst (save_trade now inputs0 db) <> Ok (Some trade_id))
  /\ snd (save_trade now inputs0 db) = db.
Proof.
  intros Hblank.
  assert (Hno : forall trade_id,
             fst (save_trade now inputs0 db) <> Ok (Some trade_id)).
  { intros trade_id H.
    destruct (save_trade now inputs0 db) as [res db'] eqn:Hsave.
    cbn [fst] in H. subst res. apply save_trade_stored in Hsave
      as (info & entry & lots & contract_size & rate & stop & tp & exit_price
          & pv & d & _ & _ & _ & Hc & _).
    congruence. }
  split; [exact Hno|]. now apply save_trade_without_id.
Qed.

Lemma load_trades_ui (now_check now_store : Z) (w : window) :
  ui (load_trades str_filters now_check now_store w) = ui w.
Proof.
  unfold load_trades.
  now destruct (get_trades str_filters now_check now_store 200 None (store w))
    as [[rs|err] st].
Qed.

(** With an empty entry box the error is reported and nothing stored. *)
Lemma save_trade_blank_entry (now : string) (inputs0 : inputs) (db : t)
    (info : instrument) :
  getitem INSTRUMENTS (instrument_var inputs0) = Ok info ->
  entry_var inputs0 = Blank ->
  save_trade now inputs0 db = (Ok None, db).
Proof.
  intros Hinfo Hentry. unfold save_trade, save_trade_body.
  now rewrite Hinfo, Hentry.
Qed.

(** X17. After a trade has been saved the boxes are cleared, the contract box
    among them, and [save_trade] stores nothing more until a contract
    size is back in its box, whatever is typed elsewhere; pressing the
    button again at once leaves the window as it is. *)
Theorem press_save_then_nothing_more
    (now : string) (now_check now_store : Z) (w w' : window) (trade_id : Z) :
  fst (save_trade now (ui w) (store w)) = Ok (Some trade_id) ->
  press_save str_filters now now_check now_store w = Ok w' ->
  length (trades (store w')) = S (length (trades (store w)))
  /\ contract_var (ui w') = Blank
  /\ (forall now2 inputs2,
         contract_var inputs2 = contract_var (ui w') ->
         (forall i, fst (save_trade now2 inputs2 (store w')) <> Ok (Some i))
         /\ snd (save_trade now2 inputs2 (store w')) = store w')
  /\ (forall now2 now_check2 now_store2,
         press_save str_filters now2 now_check2 now_store2 w' = Ok w').
Proof.
  intros Hsaved Hpress. unfold press_save in Hpress.
  destruct (save_trade now (ui w) (store w)) as [res s'] eqn:Hsave.
  cbn [fst] in Hsaved. subst res. injection Hpress as <-.
  destruct (save_trade_stores_a_row _ _ _ _ _ Hsave) as (r & -> & _).
  set (i := trade_id).
  assert (Hstore : trades (store (clear_inputs
            (load_trades str_filters now_check now_store
               {| ui := ui w; quote_entry_normal := quote_entry_normal w;
                  cards := cards w; tree := tree w;
                  store := {| trades := trades (store w) ++ [r];
                              sqlite_sequence := i;
                              total_changes := (total_changes (store w) + 1)%Z;
                              _cache := ∅ |} |})))
          = trades (store w) ++ [r]).
  { unfold clear_inputs, load_trades. cbn [store ui].
    match goal with
    | |- context [get_trades ?a ?b ?c ?d ?e ?f] =>
        pose proof (get_trades_reads_only a b c d e f) as (Ht & _);
        destruct (get_trades a b c d e f) as [[rs|err] st]
    end; cbn [store snd] in *; exact Ht. }
  split; [rewrite Hstore, length_app; cbn [length]; lia|].
  split; [reflexivity|]. split.
  - intros now2 inputs2 Hc. apply save_trade_empty_contract_box. exact Hc.
  - intros now2 now_check2 now_store2. unfold press_save.
    apply save_trade_stored in Hsave
      as (info & _ & _ & _ & _ & _ & _ & _ & _ & _ & Hinfo & _).
    rewrite (save_trade_blank_entry now2 _ _ info); [reflexivity| |reflexivity].
    unfold clear_inputs. cbn [ui instrument_var]. now rewrite load_trades_ui.
Qed.

Lemma fold_delete_trades (selected : list Z) (db : t) (r : row) :
  In r (trades (fold_left (fun d trade_id => snd (delete_trade trade_id d))
                          selected db))
  <-> In r (trades db) /\ ~ In (row_id r) selected.
Proof.
  revert db. induction selected as [|x selected IH]; intros db; cbn [fold_left In].
  - tauto.
  - rewrite IH, delete_trade_removes. intuition.
Qed.

Lemma fold_delete_cache (selected : list Z) (db : t) :
  selected <> [] ->
  _cache (fold_left (fun d trade_id => snd (delete_trade trade_id d)) selected db) = ∅.
Proof.
  intros Hne.
  destruct (exists_last Hne) as (front & last & ->).
  rewrite fold_left_app. reflexivity.
Qed.

(** The store after [delete_selected]. *)
Lemma delete_selected_store (selected : list Z) (now_check now_store : Z)
    (w : window) (r : row) :
  selected <> [] ->
  In r (trades (store (delete_selected str_filters selected true
                         now_check now_store w)))
  <-> In r (trades (store w)) /\ ~ In (row_id r) selected.
Proof.
  intros Hne. unfold delete_selected.
  destruct selected as [|x xs] eqn:Hsel; [congruence|]. rewrite <- Hsel in *.
  set (db1 := fold_left (fun d trade_id => snd (delete_trade trade_id d))
                        selected (store w)).
  unfold load_trades. cbn [store].
  pose proof (get_trades_reads_only str_filters now_check now_store 200 None db1)
    as (Ht & _).
  destruct (get_trades str_filters now_check now_store 200 None db1)
    as [[rs|err] st]; cbn [fst snd store] in *; rewrite Ht;
    apply fold_delete_trades.
Qed.

(** The table shown after [delete_selected]. *)
Lemma delete_selected_tree (selected : list Z) (now_check now_store : Z)
    (w : window) :
  selected <> [] ->
  let w' := delete_selected str_filters selected true now_check now_store w in
  (forall r, In r (tree w') ->
             In r (trades (store w)) /\ ~ In (row_id r) selected)
  /\ (Z.of_nat (length (tree w')) <= 200)%Z.
Proof.
  intros Hne w'. subst w'. unfold delete_selected.
  destruct selected as [|x xs] eqn:Hsel; [congruence|]. rewrite <- Hsel in *.
  set (db1 := fold_left (fun d trade_id => snd (delete_trade trade_id d))
                        selected (store w)).
  unfold load_trades. cbn [store].
  pose proof (get_trades_empty_cache str_filters now_check now_store 200 None db1
                (fold_delete_cache selected (store w) Hne)) as Hget.
  destruct (get_trades str_filters now_check now_store 200 None db1)
    as [[rs|err] st]; cbn [fst snd store tree] in *.
  - symmetry in Hget. apply select_trades_sound in Hget as [Hsound Hlen].
    split; [|apply Hlen; lia].
    intros r Hr. apply Hsound in Hr as [Hr _]. now apply fold_delete_trades in Hr.
  - discriminate Hget.
Qed.

(** X18. Deleting the selection removes the selected ids and nothing else,
    from the store and from the table shown. *)
Theorem delete_selected_removes_the_selection (selected : list Z)
    (now_check now_store : Z) (w : window) :
  selected <> [] ->
  let w' := delete_selected str_filters selected true now_check now_store w in
  (forall r, In r (trades (store w'))
             <-> In r (trades (store w)) /\ ~ In (row_id r) selected)
  /\ (forall r, In r (tree w') ->
                In r (trades (store w)) /\ ~ In (row_id r) selected)
  /\ (Z.of_nat (length (tree w')) <= 200)%Z.
Proof.
  intros Hne w'. split.
  - intros r. now apply delete_selected_store.
  - now apply delete_selected_tree.
Qed.

(** X19. Deleting every trade leaves the dashboard as it was: the store and
    the table shown are empty, the four labels still show the numbers
    of the deleted trades. *)
Theorem delete_all_leaves_the_dashboard (selected : list Z)
    (now_check now_store : Z) (w : window) :
  selected <> [] ->
  (forall r, In r (trades (store w)) -> In (row_id r) selected) ->
  let w' := delete_selected str_filters selected true now_check now_store w in
  trades (store w') = [] /\ tree w' = [] /\ cards w' = cards w.
Proof.
  intros Hne Hall w'.
  pose proof (fun r => delete_selected_store selected now_check now_store w r Hne)
    as Hstore.
  destruct (delete_selected_tree selected now_check now_store w Hne)
    as (Htree & _). fold w' in Hstore, Htree.
  assert (Hs : trades (store w') = []).
  { destruct (trades (store w')) as [|r rest] eqn:E; [reflexivity|].
    exfalso. destruct (proj1 (Hstore r)) as [Hin Hnot]; [now left|].
    apply Hnot. now apply Hall. }
  assert (Ht : tree w' = []).
  { destruct (tree w') as [|r rest] eqn:E; [reflexivity|].
    exfalso. destruct (Htree r) as [Hin Hnot]; [now left|].
    apply Hnot. now apply Hall. }
  split; [exact Hs|]. split; [exact Ht|].
  subst w'. unfold delete_selected in *.
  destruct selected as [|x xs] eqn:Hsel; [congruence|]. rewrite <- Hsel in *.
  unfold load_trades in *. cbn [store] in *.
  destruct (get_trades str_filters now_check now_store 200 None _)
    as [[rs|err] st]; cbn [cards tree] in *; [|reflexivity].
  subst rs. reflexivity.
Qed.

End Window.

Lemma contract_size_survives_instrument_change_witness :
  exists r info,
    getitem INSTRUMENTS "USDJPY" = Ok info
    /\ contract info = Fin 100000
    /\ TradeDB.trades
         (snd (TradeTrackerApp.save_trade "2025-01-01T10:00:00"
                 (TradeTrackerApp.ui
                    (TradeTrackerApp.select_instrument "USDJPY" Sample.first_window))
                 (TradeTrackerApp.store Sample.first_window))) = [r]
    /\ TradeDB.col_value r "instrument" = TradeDB.SqlText "USDJPY"
    /\ TradeDB.col_value r "contract_size" = TradeDB.SqlReal (Fin 100).
Proof.
  destruct (contract_size_survives_instrument_change
              "USDJPY" "2025-01-01T10:00:00" (Fin 100) Sample.first_window
              (snd (TradeTrackerApp.save_trade "2025-01-01T10:00:00"
                      (TradeTrackerApp.ui
                         (TradeTrackerApp.select_instrument "USDJPY" Sample.first_window))
                      (TradeTrackerApp.store Sample.first_window)))
              1%Z eq_refl eq_refl)
    as (r & info & Hinfo & Htr & Hinst & Hcontract & _).
  exists r, info. split; [exact Hinfo|].
  split; [cbv in Hinfo; now injection Hinfo as <-|].
  split; [exact Htr|]. split; [exact Hinst|exact Hcontract].
Defined.

Lemma press_save_then_nothing_more_witness :
  exists w',
    TradeTrackerApp.press_save Sample.str_filters "2025-01-01T10:00:00" 0 0
                               Sample.first_window = Ok w'
    /\ length (TradeDB.trades (TradeTrackerApp.store w')) = 1%nat
    /\ TradeTrackerApp.contract_var (TradeTrackerApp.ui w') = TradeTrackerApp.Blank
    /\ TradeTrackerApp.press_save Sample.str_filters "2025-01-01T10:00:01" 1 1 w'
       = Ok w'.
Proof.
  eexists. split; [reflexivity|].
  destruct (press_save_then_nothing_more Sample.str_filters "2025-01-01T10:00:00" 0 0
              Sample.first_window _ 1%Z eq_refl eq_refl)
    as (Hlen & Hblank & _ & Hagain).
  split; [exact Hlen|]. split; [exact Hblank|]. apply Hagain.
Defined.

Lemma delete_selected_removes_the_selection_witness :
  let w' := TradeTrackerApp.delete_selected Sample.str_filters [2%Z] true 0 0
              Sample.later_window in
  (forall r, In r (TradeTrackerApp.tree w') -> ~ In (TradeDB.row_id r) [2%Z])
  /\ length (TradeDB.trades (TradeTrackerApp.store w')) = 1%nat.
Proof.
  cbn zeta.
  destruct (delete_selected_removes_the_selection Sample.str_filters [2%Z] 0 0
              Sample.later_window) as (_ & Htree & _); [discriminate|].
  split; [|reflexivity].
  intros r Hr. now apply Htree in Hr.
Defined.

Lemma delete_all_leaves_the_dashboard_witness :
  let w' := TradeTrackerApp.delete_selected Sample.str_filters [1%Z; 2%Z] true 0 0
              Sample.later_window in
  TradeDB.trades (TradeTrackerApp.store w') = []
  /\ TradeTrackerApp.total_profit (TradeTrackerApp.cards w') = Fin 10.
Proof.
  cbn zeta.
  destruct (delete_all_leaves_the_dashboard Sample.str_filters [1%Z; 2%Z] 0 0
              Sample.later_window) as (Hs & _ & Hc).
  - discriminate.
  - intros r [<- | [<- | []]]; cbn; tauto.
  - split; [exact Hs|]. now rewrite Hc.
Defined.

(** ** The window of trade_tracker.py *)

Section OtherWindow.

Import trade_tracker_window.

(** X20. "Save Trade" in [trade_tracker.py] never writes: the file is the
    same after every call.  The call ends in [AttributeError], raised
    while the row is built, exactly when the instrument is known, entry
    and lots are numbers and the contract box is empty or a number. *)
Theorem save_trade_never_appends (ui : inputs) (csv : list (list (string * string))) :
  snd (save_trade ui csv) = csv
  /\ (forall row, fst (save_trade ui csv) <> Appended row)
  /\ (fst (save_trade ui csv) = RaisedAttributeError
      <-> exists info entry lots,
            getitem INSTRUMENTS (instrument_var ui) = Ok info
            /\ entry_var ui = Numeral entry
            /\ lots_var ui = Numeral lots
            /\ (contract_var ui = Blank \/ exists c, contract_var ui = Numeral c)).
Proof.
  unfold save_trade.
  destruct (getitem INSTRUMENTS (instrument_var ui)) as [info|e] eqn:Hinfo.
  2:{ cbn. split; [reflexivity|]. split; [discriminate|].
      split; [discriminate|]. intros (i & _ & _ & H & _). discriminate H. }
  pose proof (INSTRUMENTS_pip_not_zero _ _ Hinfo) as Hpip.
  destruct (entry_var ui) as [|entry|d|] eqn:He; cbn [_float_or_error float_of_text];
    try (cbn; split; [reflexivity|]; split; [discriminate|];
         split; [discriminate|]; intros (? & ? & ? & _ & H & _); discriminate H).
  destruct (lots_var ui) as [|lots|d|] eqn:Hl; cbn [_float_or_error float_of_text];
    try (cbn; split; [reflexivity|]; split; [discriminate|];
         split; [discriminate|]; intros (? & ? & ? & _ & _ & H & _); discriminate H).
  unfold contract_override.
  destruct (contract_var ui) as [|c|d|] eqn:Hc; cbn [float_of_text];
    try (cbn; split; [reflexivity|]; split; [discriminate|];
         split; [discriminate|];
         intros (? & ? & ? & _ & _ & _ & [H | (? & H)]); discriminate H).
  - rewrite trade_tracker_pip_value_usd_total. cbn [bind].
    destruct (trade_tracker_derived_absent_iff entry lots (pip info)
                (pip_value_spec (pip info) (contract info) (quote_usd info)
                   (or_one (_float_or_none (quote_rate_var ui))))
                (_float_or_none (stop_var ui)) (_float_or_none (tp_var ui))
                (_float_or_none (exit_var ui)) (direction_var ui) Hpip)
      as (d & -> & _).
    cbn. split; [reflexivity|]. split; [discriminate|].
    split; [intros _|reflexivity].
    exists info, entry, lots. repeat split. now left.
  - rewrite trade_tracker_pip_value_usd_total. cbn [bind].
    destruct (trade_tracker_derived_absent_iff entry lots (pip info)
                (pip_value_spec (pip info) c (quote_usd info)
                   (or_one (_float_or_none (quote_rate_var ui))))
                (_float_or_none (stop_var ui)) (_float_or_none (tp_var ui))
                (_float_or_none (exit_var ui)) (direction_var ui) Hpip)
      as (d & -> & _).
    cbn. split; [reflexivity|]. split; [discriminate|].
    split; [intros _|reflexivity].
    exists info, entry, lots. repeat split. right. now exists c.
Qed.

End OtherWindow.

(** ** [calculate] of trade_tracker.py, over binary64 *)

Section Calculate.

Import Binary64.
Import Binary64.TradeTrackerApp.

Lemma Binary64_INSTRUMENTS_pip_not_zero (inst : string) (info : instrument) :
  getitem INSTRUMENTS inst = Ok info -> is_zero (pip info) = false.
Proof.
  unfold INSTRUMENTS. cbn [getitem].
  repeat (destruct (String.eqb inst _); [intros H; injection H as <-; reflexivity|]).
  discriminate.
Qed.

Lemma Binary64_getitem_raise (table : list (string * instrument)) (inst : string)
    (e : exn) :
  getitem table inst = Raise e -> e = KeyError.
Proof.
  induction table as [|[k info] rest IH]; cbn [getitem].
  - intros H. now injection H as <-.
  - destruct (String.eqb inst k); [discriminate|exact IH].
Qed.

(** With a pip size that is not zero the pips lines do not raise. *)
Lemma Binary64_pips_and_usd_ok (entry pip_size pv lots : float)
    (price : option float) (direction : string) :
  is_zero pip_size = false ->
  exists o, pips_and_usd entry price pip_size pv lots direction = Ok o.
Proof.
  intros Hs. unfold pips_and_usd, trade_tracker.calc_pips, py_truediv.
  rewrite Hs. destruct price; destruct (String.eqb direction "Long");
    cbn [bind]; now eexists.
Qed.

(** [calculate] once the instrument, the contract size, the entry and
    the lots are read. *)
Lemma calculate_once_read (ui : inputs) (info : instrument)
    (contract_size entry lots : float) :
  getitem INSTRUMENTS (instrument_var ui) = Ok info ->
  contract_override ui info = Ok contract_size ->
  entry_var ui = Numeral entry ->
  lots_var ui = Numeral lots ->
  let pv := trade_tracker.pip_value_usd (pip info) contract_size (quote_usd info)
              (or_one (_float_or_none (quote_rate_var ui))) in
  let asked := match parse_money_field (tp_var ui), parse_money_field (stop_var ui) with
               | None, None => false
               | _, _ => true
               end in
  let price usd :=
    if String.eqb (direction_var ui) "Long"
    then fadd entry (fmul (fdiv usd (fmul pv lots)) (pip info))
    else fsub entry (fmul (fdiv usd (fmul pv lots)) (pip info)) in
  exists sl tpp rp,
    calculate ui
    = if asked && (is_zero pv || is_zero lots) then Raise TypeError
      else if asked && is_zero (fmul pv lots) then Raise ZeroDivisionError
      else Ok (Some {| pip_val := pv; at_stop := sl; at_take_profit := tpp;
                       realized := rp;
                       price_for_profit :=
                         option_map price (parse_money_field (tp_var ui));
                       price_for_loss :=
                         option_map price (parse_money_field (stop_var ui)) |}).
Proof.
  intros Hinfo Hc He Hl pv asked price. subst asked price. unfold calculate.
  rewrite Hinfo. cbn [bind]. rewrite Hc, He, Hl.
  cbn [_float_or_error float_of_text]. cbn zeta. fold pv.
  pose proof (Binary64_INSTRUMENTS_pip_not_zero _ _ Hinfo) as Hpip.
  destruct (Binary64_pips_and_usd_ok entry (pip info) pv lots
              (_float_or_none (stop_var ui)) (direction_var ui) Hpip) as (sl & ->).
  destruct (Binary64_pips_and_usd_ok entry (pip info) pv lots
              (_float_or_none (tp_var ui)) (direction_var ui) Hpip) as (tpp & ->).
  destruct (Binary64_pips_and_usd_ok entry (pip info) pv lots
              (_float_or_none (exit_var ui)) (direction_var ui) Hpip) as (rp & ->).
  cbn [bind]. exists sl, tpp, rp.
  unfold price_line, trade_tracker.price_from_usd_target, py_truediv. fold pv.
  destruct (parse_money_field (tp_var ui)) as [u1|];
    destruct (parse_money_field (stop_var ui)) as [u2|];
    destruct (is_zero pv), (is_zero lots), (is_zero (fmul pv lots));
    reflexivity.
Qed.

(** What has been read when [calculate] shows numbers or raises past
    the instrument lookup. *)
Lemma calculate_read (ui : inputs) (info : instrument) :
  getitem INSTRUMENTS (instrument_var ui) = Ok info ->
  calculate ui <> Ok None ->
  exists contract_size entry lots,
    contract_override ui info = Ok contract_size
    /\ entry_var ui = Numeral entry
    /\ lots_var ui = Numeral lots.
Proof.
  intros Hinfo H. unfold calculate in H. rewrite Hinfo in H. cbn [bind] in H.
  destruct (contract_override ui info) as [contract_size|e1]; [|now contradict H].
  destruct (entry_var ui) as [|entry|d|];
    cbn [_float_or_error float_of_text] in H; try now contradict H.
  destruct (lots_var ui) as [|lots|d|];
    cbn [_float_or_error float_of_text] in H; try now contradict H.
  now exists contract_size, entry, lots.
Qed.

(** X21. The exceptions of [calculate] are three.  [KeyError] for an
    instrument that is not in the table.  When the boxes are read and
    the stop or the take-profit box holds a "$" amount: [TypeError] if
    the pip value or the lot size is zero, there being no price for the
    line that formats it, and [ZeroDivisionError] if neither is zero
    and their product is, as it is when it underflows.  Every other
    wrong input ends in a message box, and no quote rate in a division
    by zero. *)
Theorem calculate_raises (ui : inputs) (e : exn) :
  calculate ui = Raise e
  <->
  (e = KeyError /\ getitem INSTRUMENTS (instrument_var ui) = Raise KeyError)
  \/ (exists info contract_size entry lots,
         getitem INSTRUMENTS (instrument_var ui) = Ok info
         /\ contract_override ui info = Ok contract_size
         /\ entry_var ui = Numeral entry
         /\ lots_var ui = Numeral lots
         /\ ((exists usd, parse_money_field (tp_var ui) = Some usd)
             \/ (exists usd, parse_money_field (stop_var ui) = Some usd))
         /\ let pv := trade_tracker.pip_value_usd (pip info) contract_size
                        (quote_usd info)
                        (or_one (_float_or_none (quote_rate_var ui))) in
            (e = TypeError /\ (is_zero pv = true \/ is_zero lots = true))
            \/ (e = ZeroDivisionError
                /\ is_zero pv = false /\ is_zero lots = false
                /\ is_zero (fmul pv lots) = true)).
Proof.
  split.
  - intros H.
    destruct (getitem INSTRUMENTS (instrument_var ui)) as [info|e0] eqn:Hinfo.
    2:{ left. unfold calculate in H. rewrite Hinfo in H. cbn [bind] in H.
        injection H as <-. apply Binary64_getitem_raise in Hinfo as E.
        now subst e0. }
    right.
    destruct (calculate_read ui info Hinfo) as (contract_size & entry & lots
                                                & Hc & He & Hl).
    { rewrite H. discriminate. }
    destruct (calculate_once_read ui info contract_size entry lots Hinfo Hc He Hl)
      as (sl & tpp & rp & Hcalc).
    rewrite Hcalc in H. clear Hcalc. cbn zeta in H.
    exists info, contract_size, entry, lots.
    repeat (split; [first [assumption | reflexivity]|]).
    assert (Hasked : (exists usd, parse_money_field (tp_var ui) = Some usd)
                     \/ (exists usd, parse_money_field (stop_var ui) = Some usd)).
    { destruct (parse_money_field (tp_var ui)) as [u1|]; [left; now eexists|].
      destruct (parse_money_field (stop_var ui)) as [u2|]; [right; now eexists|].
      cbn [andb] in H. discriminate H. }
    split; [exact Hasked|]. cbn zeta.
    assert (Ha : match parse_money_field (tp_var ui),
                       parse_money_field (stop_var ui) with
                 | None, None => false
                 | _, _ => true
                 end = true).
    { destruct Hasked as [(u & ->) | (u & ->)]; [reflexivity|].
      now destruct (parse_money_field (tp_var ui)). }
    rewrite Ha in H. cbn [andb] in H.
    destruct (is_zero (trade_tracker.pip_value_usd _ _ _ _)) eqn:Hpv;
      cbn [orb] in H.
    { injection H as <-. left. split; [reflexivity|now left]. }
    destruct (is_zero lots) eqn:Hlots.
    { injection H as <-. left. split; [reflexivity|now right]. }
    destruct (is_zero (fmul _ lots)) eqn:Hp; [|discriminate H].
    injection H as <-. right. repeat split; assumption.
  - intros [[-> Hinfo] | (info & contract_size & entry & lots & Hinfo & Hc & He
                          & Hl & Hasked & Hcases)].
    + unfold calculate. now rewrite Hinfo.
    + destruct (calculate_once_read ui info contract_size entry lots Hinfo Hc He Hl)
        as (sl & tpp & rp & ->). cbn zeta in *.
      assert (Ha : match parse_money_field (tp_var ui),
                         parse_money_field (stop_var ui) with
                   | None, None => false
                   | _, _ => true
                   end = true).
      { destruct Hasked as [(u & ->) | (u & ->)]; [reflexivity|].
        now destruct (parse_money_field (tp_var ui)). }
      rewrite Ha. cbn [andb].
      destruct Hcases as [[-> [Hz | Hz]] | (-> & Hpv & Hlots & Hp)].
      * now rewrite Hz.
      * rewrite Hz. now rewrite orb_true_r.
      * now rewrite Hpv, Hlots, Hp.
Qed.

(** Contract size and lots of [1e-200] with "$100" in the take-profit
    box: neither the pip value nor the lot size is zero, their product
    underflows, and the division raises. *)
Example calculate_underflow_raises :
  calculate (Sample.boxes Blank (Dollar (of_Z 100)) (Numeral Sample.float_1e_200)
                          (Numeral Sample.float_1e_200))
  = Raise ZeroDivisionError.
Proof. vm_compute. reflexivity. Qed.

(** X22. The price that [calculate] shows for a USD loss is the price it
    shows for a USD profit of the same amount: a "$" amount in the stop
    box gives the price line that the same amount gives in the
    take-profit box, the other boxes that the line depends on being
    equal. *)
Theorem calculate_loss_price_is_the_profit_price
    (ui ui' : inputs) (usd : float) (r : results) :
  calculate ui = Ok (Some r) ->
  stop_var ui = Dollar usd ->
  tp_var ui' = Dollar usd ->
  instrument_var ui' = instrument_var ui ->
  direction_var ui' = direction_var ui ->
  entry_var ui' = entry_var ui ->
  lots_var ui' = lots_var ui ->
  contract_var ui' = contract_var ui ->
  quote_rate_var ui' = quote_rate_var ui ->
  exists r' price,
    calculate ui' = Ok (Some r')
    /\ price_for_loss r = Some price
    /\ price_for_profit r' = Some price.
Proof.
  intros H Hstop Htp Hi Hd He' Hl' Hc' Hq.
  destruct (getitem INSTRUMENTS (instrument_var ui)) as [info|e0] eqn:Hinfo.
  2:{ unfold calculate in H. rewrite Hinfo in H. discriminate H. }
  destruct (calculate_read ui info Hinfo) as (contract_size & entry & lots
                                              & Hc & He & Hl).
  { rewrite H. discriminate. }
  destruct (calculate_once_read ui info contract_size entry lots Hinfo Hc He Hl)
    as (sl & tpp & rp & Hcalc).
  rewrite Hcalc in H. clear Hcalc. cbn zeta in H.
  rewrite Hstop in H. cbn [parse_money_field option_map] in H.
  assert (Ha : match parse_money_field (tp_var ui) with
               | Some _ => true
               | None => true
               end = true) by now destruct (parse_money_field (tp_var ui)).
  rewrite Ha in H. cbn [andb] in H.
  destruct (is_zero (trade_tracker.pip_value_usd _ _ _ _) || is_zero lots) eqn:Hz;
    [discriminate H|].
  destruct (is_zero (fmul _ lots)) eqn:Hp; [discriminate H|].
  injection H as <-. cbn [price_for_loss].
  assert (Hc2 : contract_override ui' info = Ok contract_size).
  { unfold contract_override in *. now rewrite Hc'. }
  rewrite <- Hi in Hinfo. rewrite <- He' in He. rewrite <- Hl' in Hl.
  destruct (calculate_once_read ui' info contract_size entry lots Hinfo Hc2 He Hl)
    as (sl' & tpp' & rp' & Hcalc').
  cbn zeta in Hcalc'. rewrite Htp, Hq, Hd in Hcalc'.
  cbn [parse_money_field option_map andb] in Hcalc'.
  rewrite Hz, Hp in Hcalc'.
  eexists. eexists. split; [exact Hcalc'|]. split; reflexivity.
Qed.

Lemma calculate_loss_price_is_the_profit_price_witness :
  exists r r',
    calculate (Sample.boxes (Dollar (of_Z 100)) Blank (Numeral (of_Z 1)) Blank)
    = Ok (Some r)
    /\ calculate (Sample.boxes Blank (Dollar (of_Z 100)) (Numeral (of_Z 1)) Blank)
       = Ok (Some r')
    /\ price_for_loss r = Some (of_Z 1901)
    /\ price_for_profit r' = Some (of_Z 1901).
Proof.
  eexists.
  match goal with
  | |- exists r', calculate ?ui = Ok (Some ?r) /\ calculate ?ui' = _ /\ _ =>
      assert (Hcalc : calculate ui = Ok (Some r)) by (vm_compute; reflexivity);
      destruct (calculate_loss_price_is_the_profit_price ui ui' (of_Z 100) r
                  Hcalc eq_refl eq_refl eq_refl eq_refl eq_refl eq_refl eq_refl
                  eq_refl)
        as (r' & price & Hcalc' & Hloss & Hprofit)
  end.
  exists r'. split; [exact Hcalc|]. split; [exact Hcalc'|].
  assert (Hprice : price = of_Z 1901).
  { cbn [price_for_loss] in Hloss. injection Hloss as <-. vm_compute. reflexivity. }
  rewrite <- Hprice. split; assumption.
Defined.

End Calculate.
